(** * MTPE data warehouse: the ETL integration stage

    A shallow embedding of [2_ETL_INTEGRATION/src/extract/extract_cleaned_data.py]
    and [2_ETL_INTEGRATION/src/transform/transform_to_constellation.py].

    A pandas DataFrame is a list of column labels and a list of records
    (column label -> cell); the dictionaries of the two classes are finite
    maps keyed by strings; Python exceptions are a [result]; the methods
    of [DataTransformer], which mutate [self] and may raise, live in a
    state-and-exception monad whose state survives a raise, as the
    attributes of a Python object do. *)

From Stdlib Require Import ZArith QArith SpecFloat.
From stdpp Require Import base gmap strings list sorting.

Open Scope string_scope.
Open Scope list_scope.
Open Scope Z_scope.

(** ** Cells *)

(** What a cell of a frame holds.  [VNull] stands for every pandas null
    (NaN, None, NaT).  Numbers are integers: no key or surrogate key of
    the pipeline is fractional.  Equality of cells is structural; the
    Python identification of [True] with [1] is not modelled (a column
    read by [read_csv] has one dtype). *)
Inductive value :=
  | VNull
  | VBool (b : bool)
  | VInt (n : Z)
  | VStr (s : string)
  | VDate (day : Z)            (* datetime.date: days since 1970-01-01 *)
  | VStamp (day : Z) (ns : Z). (* pd.Timestamp: day, nanoseconds into it *)

Global Instance value_eq_dec : EqDecision value.
Proof. solve_decision. Defined.

Definition value_encode (v : value) : unit + bool + Z + string + Z + Z * Z :=
  match v with
  | VNull => inl (inl (inl (inl (inl tt))))
  | VBool b => inl (inl (inl (inl (inr b))))
  | VInt n => inl (inl (inl (inr n)))
  | VStr s => inl (inl (inr s))
  | VDate d => inl (inr d)
  | VStamp d ns => inr (d, ns)
  end.

Definition value_decode (x : unit + bool + Z + string + Z + Z * Z) : value :=
  match x with
  | inl (inl (inl (inl (inl _)))) => VNull
  | inl (inl (inl (inl (inr b)))) => VBool b
  | inl (inl (inl (inr n))) => VInt n
  | inl (inl (inr s)) => VStr s
  | inl (inr d) => VDate d
  | inr (d, ns) => VStamp d ns
  end.

Global Instance value_countable : Countable value.
Proof.
  refine (inj_countable' value_encode value_decode _).
  intros []; reflexivity.
Defined.

Global Instance value_inhabited : Inhabited value := populate VNull.

(** ** Exceptions *)

Inductive exn :=
  | KeyError (key : string)
  | ValueError (msg : string)
  | AttributeError (msg : string)
  | MergeError (msg : string)
  | FileNotFoundError (path : string)
  | EmptyDataError.

Inductive result (A : Type) :=
  | Ok (a : A)
  | Raise (e : exn).
Arguments Ok {A} a.
Arguments Raise {A} e.

Definition rbind {A B} (m : result A) (k : A -> result B) : result B :=
  match m with
  | Ok a => k a
  | Raise e => Raise e
  end.

Declare Scope py_scope.
Delimit Scope py_scope with py.
Notation "x <- m ;; k" := (rbind m (fun x => k))
  (at level 100, m at next level, right associativity) : py_scope.


(** ** Frames *)

Module pd.

Abbreviation Row := (gmap string value).

Record DataFrame := mkDF {
  columns : list string;
  rows : list Row
}.

(** A cell that a record does not hold reads as null. *)
Definition cell (r : Row) (c : string) : value := default VNull (r !! c).

Definition isna (v : value) : bool :=
  match v with VNull => true | _ => false end.

Definition notna (v : value) : bool := negb (isna v).

(** The record restricted to the labels [cs], every label present. *)
Definition project (cs : list string) (r : Row) : Row :=
  list_to_map ((fun c => (c, cell r c)) <$> cs).

(** [key_of cs r]: the tuple of the cells of [r] under [cs]. *)
Definition key_of (cs : list string) (r : Row) : list value := cell r <$> cs.

Definition has_column (df : DataFrame) (c : string) : bool :=
  bool_decide (c ∈ columns df).

(** [len(df)] *)
Definition len (df : DataFrame) : nat := length (rows df).

(** [df.empty]: an axis of length zero. *)
Definition empty (df : DataFrame) : bool :=
  match columns df, rows df with
  | [], _ | _, [] => true
  | _, _ => false
  end.

(** [df[c]]: the column as a list, or KeyError. *)
Definition getitem (df : DataFrame) (c : string) : result (list value) :=
  if has_column df c then Ok ((fun r => cell r c) <$> rows df)
  else Raise (KeyError c).

(** The first label of [cs] that [df] lacks. *)
Definition missing_label (df : DataFrame) (cs : list string) : option string :=
  list_find (fun c => c ∉ columns df) cs ≫= fun p => Some p.2.

(** [df[[c1, ..., cn]]] *)
Definition select (df : DataFrame) (cs : list string) : result DataFrame :=
  match missing_label df cs with
  | Some c => Raise (KeyError c)
  | None => Ok (mkDF cs (project cs <$> rows df))
  end.

(** Keep the first element of every key class, in source order. *)
Fixpoint keep_first {A K : Type} `{EqDecision K}
    (key : A -> K) (seen : list K) (l : list A) : list A :=
  match l with
  | [] => []
  | x :: l' =>
      if decide (key x ∈ seen) then keep_first key seen l'
      else x :: keep_first key (key x :: seen) l'
  end.

(** [df.drop_duplicates(subset=...)], keep='first'; [None] is every
    column.  An empty frame is returned as it is, before the subset is
    looked at. *)
Definition drop_duplicates (subset : option (list string)) (df : DataFrame)
    : result DataFrame :=
  if empty df then Ok df
  else
    let cs := default (columns df) subset in
    match missing_label df cs with
    | Some c => Raise (KeyError c)
    | None => Ok (mkDF (columns df) (keep_first (key_of cs) [] (rows df)))
    end.

(** [range(1, n + 1)] *)
Definition range1 (n : nat) : list Z := Z.of_nat <$> seq 1 n.

(** [df.insert(0, name, range(1, len(df) + 1))] *)
Definition insert_range (name : string) (df : DataFrame) : result DataFrame :=
  if has_column df name
  then Raise (ValueError ("cannot insert " +:+ name +:+ ", already exists"))
  else Ok (mkDF (name :: columns df)
             (zip_with (fun i r => <[name := VInt i]> r)
                (range1 (len df)) (rows df))).

(** The records of a frame whose labels [old] become [new], position by
    position. *)
Definition relabel (old new : list string) (r : Row) : Row :=
  list_to_map (zip new (cell r <$> old)).

(** [df.columns = names] *)
Definition set_columns (names : list string) (df : DataFrame) : result DataFrame :=
  if decide (length names = length (columns df))
  then Ok (mkDF names (relabel (columns df) names <$> rows df))
  else Raise (ValueError "Length mismatch").

(** The label that [rename] gives [c]: labels outside the mapping stay. *)
Definition renamed_label (mapping : list (string * string)) (c : string) : string :=
  default c (list_to_map (M := gmap string string) mapping !! c).

(** [df.rename(columns=mapping)] *)
Definition rename (mapping : list (string * string)) (df : DataFrame) : DataFrame :=
  let new := renamed_label mapping <$> columns df in
  mkDF new (relabel (columns df) new <$> rows df).

(** The record [r] with the cell [f r] under the label [c]. *)
Definition set_cell (c : string) (f : Row -> value) (r : Row) : Row :=
  <[c := f r]> r.

(** [df[c] = f(row)]: a new column goes last, an old one keeps its place. *)
Definition assign (c : string) (f : Row -> value) (df : DataFrame) : DataFrame :=
  mkDF (if has_column df c then columns df else columns df ++ [c])
       (set_cell c f <$> rows df).

(** [df.drop(c, axis=1)] *)
Definition drop_column (c : string) (df : DataFrame) : result DataFrame :=
  if has_column df c
  then Ok (mkDF (List.filter (fun c' => negb (String.eqb c' c)) (columns df))
             (delete c <$> rows df))
  else Raise (KeyError c).

(** The labels of several frames, each once, in order of first
    appearance. *)
Definition union_columns (dfs : list DataFrame) : list string :=
  keep_first id [] (dfs ≫= columns).

(** [pd.concat(dfs, ignore_index=True)] *)
Definition concat (dfs : list DataFrame) : result DataFrame :=
  match dfs with
  | [] => Raise (ValueError "No objects to concatenate")
  | _ =>
      let cs := union_columns dfs in
      Ok (mkDF cs (dfs ≫= fun df => project cs <$> (project (columns df) <$> rows df)))
  end.

(** The positions of a label list that repeat an earlier label
    ([Index.duplicated()]). *)
Fixpoint duplicated (seen l : list string) : list bool :=
  match l with
  | [] => []
  | c :: l' => bool_decide (c ∈ seen) :: duplicated (c :: seen) l'
  end.

(** The suffix that [merge] gives a label both sides carry. *)
Definition suffixed (overlap : list string) (sfx c : string) : string :=
  if bool_decide (c ∈ overlap) then c +:+ sfx else c.

(** Whether suffixing made two labels of one side collide (labels that
    already repeated before do not count). *)
Definition suffix_clash (before after : list string) : bool :=
  existsb (fun p : bool * bool => p.1 && negb p.2)
    (zip (duplicated [] after) (duplicated [] before)).

(** Whether the label [s] ends in [sfx]. *)
Fixpoint ends_with (sfx s : string) : bool :=
  if String.eqb s sfx then true
  else match s with
       | EmptyString => false
       | String _ s' => ends_with sfx s'
       end.

Inductive how := Inner | Left.

(** The records of [right] whose key equals that of [l].  Null keys
    match each other, as in pandas. *)
Definition matches (right : DataFrame) (right_on : string) (k : value)
    : list Row :=
  List.filter (fun r => bool_decide (cell r right_on = k)) (rows right).

(** [left.merge(right, left_on=, right_on=, how=)] with the default
    suffixes.  Rows come in the order of the left frame, the matches of
    one left row in the order of the right frame.  The two key labels
    differ at every call of the transformer.

    Keys are compared cell by cell.  That is the join of pandas when the
    two key columns are of one kind.  pandas itself looks at the dtypes
    first: it raises ValueError when one key column holds strings and
    the other numbers, and it compares an int64 column with a float64
    column as floats, which identifies integers above 2^53.  Neither is
    in this definition, so a statement that a join returns, or that it
    leaves a row out, is made for key columns of one kind ([same_dtype]
    below): strings on both sides, or numbers up to 2^53 on both. *)
Definition merge (h : how) (left right : DataFrame) (left_on right_on : string)
    : result DataFrame :=
  if negb (has_column left left_on) then Raise (KeyError left_on)
  else if negb (has_column right right_on) then Raise (KeyError right_on)
  else
    let overlap := List.filter (fun c => bool_decide (c ∈ columns right)) (columns left) in
    let lcols := suffixed overlap "_x" <$> columns left in
    let rcols := suffixed overlap "_y" <$> columns right in
    if suffix_clash (columns left) lcols || suffix_clash (columns right) rcols
    then Raise (MergeError "Passing 'suffixes' which cause duplicate columns")
    else
      let lpart l := relabel (columns left) lcols l in
      let rpart r := relabel (columns right) rcols r in
      let nulls : Row := project rcols ∅ in
      Ok (mkDF (lcols ++ rcols)
            (rows left ≫= fun l =>
               match matches right right_on (cell l left_on), h with
               | [], Inner => []
               | [], Left => [lpart l ∪ nulls]
               | ms, _ => (fun r => lpart l ∪ rpart r) <$> ms
               end)).

(** [df.dropna(subset=...)]: the rows without a null under the subset
    ([None]: under any column). *)
Definition dropna (subset : option (list string)) (df : DataFrame)
    : result DataFrame :=
  let cs := default (columns df) subset in
  match missing_label df cs with
  | Some c => Raise (KeyError c)
  | None =>
      Ok (mkDF (columns df)
            (List.filter (fun r => forallb notna (key_of cs r)) (rows df)))
  end.

(** Series *)

Definition series_dropna (s : list value) : list value := List.filter notna s.

Definition unique (s : list value) : list value := keep_first id [] s.

Definition fillna (d v : value) : value := if isna v then d else v.

(** [s.min()] of a column of integers; null when it has none. *)
Definition series_min (s : list value) : value :=
  foldr (fun v acc =>
           match v, acc with
           | VInt n, VInt m => VInt (Z.min n m)
           | VInt n, _ => VInt n
           | _, _ => acc
           end) VNull s.

(** [s.map(d)] for a dict [d]: a cell outside the keys maps to null. *)
Definition map_dict (d : list (value * value)) (v : value) : value :=
  default VNull (list_find (fun p : value * value => p.1 = v) d ≫= fun p => Some p.2.2).

(** [df.groupby(k)[c].first().reset_index()]: per non-null key, the
    first non-null cell of [c].  pandas sorts the groups by key; here
    they stay in order of first appearance, which no caller observes
    (the frame is only looked up by key). *)
Definition groupby_first (k c : string) (df : DataFrame) : result DataFrame :=
  if negb (has_column df k) then Raise (KeyError k)
  else if negb (has_column df c) then Raise (KeyError ("Column not found: " +:+ c))
  else
    let keys := unique (series_dropna ((fun r => cell r k) <$> rows df)) in
    Ok (mkDF [k; c]
          ((fun kv : value =>
              let grp := List.filter (fun r => bool_decide (cell r k = kv)) (rows df) in
              let firsts := series_dropna ((fun r => cell r c) <$> grp) in
              ({[ k := kv ]} : Row) ∪ {[ c := default VNull (head firsts) ]})
           <$> keys)).

End pd.

(** ** Scalar conversions of pandas

    The conversions of single cells that the transformer asks of pandas
    are an interface: date and number parsing is not code of this
    repository. *)
Class Pandas := {
  (** [pd.to_datetime(x, errors='coerce')]: [None] is NaT. *)
  to_datetime : value -> option (Z * Z);
  (** [pd.to_numeric(x, errors='coerce')]: null where it fails. *)
  to_numeric : value -> value;
  (** [x.astype('int64')]: [None] where it raises. *)
  astype_int64 : value -> option value;
  astype_int64_int : forall n, astype_int64 (VInt n) = Some (VInt n);
  astype_int64_null : astype_int64 VNull = None
}.

(** ** The proleptic Gregorian calendar of [Series.dt] *)

Module calendar.

(** Year, month and day of the day number [z] (days since 1970-01-01). *)
Definition civil_from_days (z : Z) : Z * Z * Z :=
  let z := z + 719468 in
  let era := z / 146097 in
  let doe := z - era * 146097 in
  let yoe := (doe - doe / 1460 + doe / 36524 - doe / 146096) / 365 in
  let doy := doe - (365 * yoe + yoe / 4 - yoe / 100) in
  let mp := (5 * doy + 2) / 153 in
  let d := doy - (153 * mp + 2) / 5 + 1 in
  let m := if mp <? 10 then mp + 3 else mp - 9 in
  let y := yoe + era * 400 + (if m <=? 2 then 1 else 0) in
  (y, m, d).

Definition year (z : Z) : Z := (civil_from_days z).1.1.
Definition month (z : Z) : Z := (civil_from_days z).1.2.
Definition day (z : Z) : Z := (civil_from_days z).2.

(** [dt.quarter] *)
Definition quarter (z : Z) : Z := (month z - 1) / 3 + 1.

(** [dt.dayofweek]: Monday is 0; 1970-01-01 was a Thursday. *)
Definition dayofweek (z : Z) : Z := (z + 3) mod 7.

(** The day number of a civil date, the inverse direction; used to write
    dates down in examples. *)
Definition days_from_civil (y m d : Z) : Z :=
  let y := if m <=? 2 then y - 1 else y in
  let era := y / 400 in
  let yoe := y - era * 400 in
  let doy := (153 * (if m >? 2 then m - 3 else m + 9) + 2) / 5 + d - 1 in
  let doe := yoe * 365 + yoe / 4 - yoe / 100 + doy in
  era * 146097 + doe - 719468.

End calendar.

(** ** Python floats *)

(** A Python [float] is an IEEE 754 binary64 number; its arithmetic
    rounds to nearest, ties to even. *)
Module float64.

Definition prec : Z := 53.
Definition emax : Z := 1024.

(** An integer as an operand that is not rounded. *)
Definition exact (n : Z) : spec_float :=
  match n with
  | Z0 => S754_zero false
  | Zpos p => S754_finite false p 0
  | Zneg p => S754_finite true p 0
  end.

(** [float(n)] *)
Definition of_int (n : Z) : spec_float := binary_normalize prec emax n 0 false.

(** [a / b] for two [int]s, [b] not zero: the float nearest to the
    quotient (Python rounds the quotient of the integers once, whatever
    their size). *)
Definition truediv (a b : Z) : spec_float := SFdiv prec emax (exact a) (exact b).

(** [x * y] *)
Definition mul (x y : spec_float) : spec_float := SFmul prec emax x y.

(** The number that a finite float is (a percentage is finite). *)
Definition to_Q (x : spec_float) : Q :=
  match x with
  | S754_finite s m e =>
      let n := if s then Zneg m else Zpos m in
      Qred (if 0 <=? e then inject_Z (n * 2 ^ e) else n # Z.to_pos (2 ^ (- e)))
  | _ => 0%Q
  end.

End float64.

Arguments float64.truediv : simpl never.
Arguments float64.mul : simpl never.
Arguments float64.of_int : simpl never.
Arguments float64.to_Q : simpl never.

(** ** The transformer object *)

Import pd.

(** The WARNING and ERROR records the logger receives (INFO records are
    not tracked). *)
Inductive log_record :=
  | WarnInsufficientDatasets
      (* "Datasets insuficientes para reconciliación de huérfanos" *)
  | WarnOrphans (count : nat) (pct : Q)
      (* "Detectados {count} AVISOIDs huerfanos en competencias ({pct}%)" *)
  | WarnDatasetUnavailable (name : string)
      (* "Dataset {name} no disponible" *)
  | WarnColumnMissing (col : string)
      (* "Columna {col} no encontrada" *)
  | ErrorTransform (e : exn).
      (* "Error durante la transformacion: {e}" *)

Record DataTransformer := mkTransformer {
  datasets : gmap string DataFrame;
  dimensions : gmap string DataFrame;
  facts : gmap string DataFrame;
  orphan_stats : gmap string Q;   (* a number ([int] or [float]) by its value *)
  log : list log_record
}.

(** [DataTransformer(datasets)] *)
Definition __init__ (ds : gmap string DataFrame) : DataTransformer :=
  mkTransformer ds ∅ ∅ ∅ [].

(** A method of the object: it may change [self] and then return or
    raise; what it changed before raising stays changed. *)
Definition M (A : Type) : Type := DataTransformer -> DataTransformer * result A.

Definition ret {A} (a : A) : M A := fun self => (self, Ok a).

Definition bind {A B} (m : M A) (k : A -> M B) : M B :=
  fun self =>
    match m self with
    | (self', Ok a) => k a self'
    | (self', Raise e) => (self', Raise e)
    end.

Declare Scope method_scope.
Delimit Scope method_scope with method.
Notation "x <- m ;; k" := (bind m (fun x => k))
  (at level 100, m at next level, right associativity) : method_scope.
Notation "m ;; k" := (bind m (fun _ => k))
  (at level 100, right associativity) : method_scope.

(** A pandas call inside a method: its exception is the method's. *)
Definition lift {A} (r : result A) : M A := fun self => (self, r).

Definition get : M DataTransformer := fun self => (self, Ok self).

Definition warning (w : log_record) : M unit :=
  fun self =>
    (mkTransformer (datasets self) (dimensions self) (facts self)
       (orphan_stats self) (log self ++ [w]), Ok tt).

Definition set_dataset (name : string) (df : DataFrame) : M unit :=
  fun self =>
    (mkTransformer (<[name := df]> (datasets self)) (dimensions self)
       (facts self) (orphan_stats self) (log self), Ok tt).

Definition set_dimension (name : string) (df : DataFrame) : M unit :=
  fun self =>
    (mkTransformer (datasets self) (<[name := df]> (dimensions self))
       (facts self) (orphan_stats self) (log self), Ok tt).

Definition set_fact (name : string) (df : DataFrame) : M unit :=
  fun self =>
    (mkTransformer (datasets self) (dimensions self)
       (<[name := df]> (facts self)) (orphan_stats self) (log self), Ok tt).

Definition set_orphan_stat (name : string) (q : Q) : M unit :=
  fun self =>
    (mkTransformer (datasets self) (dimensions self) (facts self)
       (<[name := q]> (orphan_stats self)) (log self), Ok tt).

(** [self.dimensions[name]] *)
Definition get_dimension (name : string) : M DataFrame :=
  fun self =>
    match dimensions self !! name with
    | Some df => (self, Ok df)
    | None => (self, Raise (KeyError name))
    end.

Section Transformer.

Context `{Pandas}.

Local Open Scope method_scope.

(** [s.astype('int64')] on the column [c] of a frame. *)
Definition astype_int64_column (c : string) (df : DataFrame) : result DataFrame :=
  if has_column df c then
    match mapM (fun r => v ← astype_int64 (cell r c); Some (<[c := v]> r)) (rows df) with
    | Some rs => Ok (mkDF (columns df) rs)
    | None => Raise (ValueError "cannot convert to int64")
    end
  else Raise (KeyError c).

(** [pd.to_datetime(df[col], errors='coerce').dropna().tolist()] *)
Definition column_dates (df : DataFrame) (col : string) : list (Z * Z) :=
  omap (fun r => to_datetime (cell r col)) (rows df).

(** The dates of the columns [cols] of the dataset [name], where both
    the dataset and the column exist. *)
Definition dataset_dates (ds : gmap string DataFrame) (name : string)
    (cols : list string) : list (Z * Z) :=
  match ds !! name with
  | None => []
  | Some df =>
      List.filter (fun col => has_column df col) cols ≫= column_dates df
  end.

Definition dt_field (f : Z -> Z) (v : value) : value :=
  match v with
  | VStamp d _ => VInt (f d)
  | _ => VNull
  end.

Definition meses_es : list (value * value) :=
  [ (VInt 1, VStr "Enero"); (VInt 2, VStr "Febrero"); (VInt 3, VStr "Marzo");
    (VInt 4, VStr "Abril"); (VInt 5, VStr "Mayo"); (VInt 6, VStr "Junio");
    (VInt 7, VStr "Julio"); (VInt 8, VStr "Agosto");
    (VInt 9, VStr "Septiembre"); (VInt 10, VStr "Octubre");
    (VInt 11, VStr "Noviembre"); (VInt 12, VStr "Diciembre") ].

Definition dias_es : list (value * value) :=
  [ (VInt 1, VStr "Lunes"); (VInt 2, VStr "Martes"); (VInt 3, VStr "Miércoles");
    (VInt 4, VStr "Jueves"); (VInt 5, VStr "Viernes"); (VInt 6, VStr "Sábado");
    (VInt 7, VStr "Domingo") ].

(** [sorted(set(fechas_normalizadas))], where a normalized date is a day
    number. *)
Definition fechas_unicas (fechas : list (Z * Z)) : list Z :=
  merge_sort Z.le (elements (list_to_set (C := gset Z) (fst <$> fechas))).

Definition _build_dim_tiempo : M unit :=
  self <- get ;;
  let fechas :=
    dataset_dates (datasets self) "vacantes"
      ["FECHAINICIO"; "FECHAFIN"; "FECHACREACION"]
    ++ dataset_dates (datasets self) "educacion" ["FECHAINICIO"; "FECHAFIN"] in
  let unicas := fechas_unicas fechas in
  let dim_tiempo :=
    mkDF ["fecha_sk"; "fecha"]
      (zip_with (fun i d => <["fecha_sk" := VInt i]> ({[ "fecha" := VStamp d 0 ]} : Row))
         (range1 (length unicas)) unicas) in
  (* an empty list makes an object column, which has no [.dt] *)
  (if decide (unicas = [])
   then lift (Raise (AttributeError "Can only use .dt accessor with datetimelike values"))
   else ret tt) ;;
  let dim_tiempo := assign "anio" (fun r => dt_field calendar.year (cell r "fecha")) dim_tiempo in
  let dim_tiempo := assign "mes" (fun r => dt_field calendar.month (cell r "fecha")) dim_tiempo in
  let dim_tiempo := assign "dia" (fun r => dt_field calendar.day (cell r "fecha")) dim_tiempo in
  let dim_tiempo := assign "trimestre" (fun r => dt_field calendar.quarter (cell r "fecha")) dim_tiempo in
  let dim_tiempo :=
    assign "semestre"
      (fun r => match cell r "trimestre" with
                | VInt q => if q <=? 2 then VInt 1 else VInt 2
                | _ => VInt 2
                end) dim_tiempo in
  let dim_tiempo :=
    assign "dia_semana"
      (fun r => dt_field (fun d => calendar.dayofweek d + 1) (cell r "fecha")) dim_tiempo in
  let dim_tiempo := assign "nombre_mes" (fun r => map_dict meses_es (cell r "mes")) dim_tiempo in
  let dim_tiempo := assign "nombre_dia" (fun r => map_dict dias_es (cell r "dia_semana")) dim_tiempo in
  let dim_tiempo :=
    assign "es_fin_semana"
      (fun r => VBool (bool_decide (cell r "dia_semana" ∈ [VInt 6; VInt 7]))) dim_tiempo in
  set_dimension "dim_tiempo" dim_tiempo.

Definition ubicacion_cols : list string :=
  ["DEPARTAMENTO"; "PROVINCIA"; "DISTRITO"; "UBIGEO"].

(** The location sub-frame of one dataset, tagged with its source, when
    the dataset has the four location columns. *)
Definition ubicaciones_de (ds : gmap string DataFrame) (name fuente : string)
    : M (list DataFrame) :=
  match ds !! name with
  | None => ret []
  | Some df =>
      if forallb (has_column df) ubicacion_cols then
        ub <- lift (select df ubicacion_cols) ;;
        ret [assign "fuente" (fun _ => VStr fuente) ub]
      else ret []
  end.

Definition _build_dim_ubicacion : M unit :=
  self <- get ;;
  u1 <- ubicaciones_de (datasets self) "postulante" "postulante" ;;
  u2 <- ubicaciones_de (datasets self) "vacantes" "vacante" ;;
  let ubicaciones := u1 ++ u2 in
  dim_ubicacion <- lift (concat ubicaciones) ;;
  dim_ubicacion <- lift (drop_duplicates (Some ["UBIGEO"]) dim_ubicacion) ;;
  let sin := fillna (VStr "SIN_ESPECIFICAR") in
  let dim_ubicacion := assign "DISTRITO" (fun r => sin (cell r "DISTRITO")) dim_ubicacion in
  let dim_ubicacion := assign "DEPARTAMENTO" (fun r => sin (cell r "DEPARTAMENTO")) dim_ubicacion in
  let dim_ubicacion := assign "PROVINCIA" (fun r => sin (cell r "PROVINCIA")) dim_ubicacion in
  dim_ubicacion <- lift (insert_range "ubicacion_sk" dim_ubicacion) ;;
  dim_ubicacion <- lift (set_columns
    ["ubicacion_sk"; "departamento"; "provincia"; "distrito"; "ubigeo"; "fuente"]
    dim_ubicacion) ;;
  set_dimension "dim_ubicacion" dim_ubicacion.

(** The applicant columns and the labels dim_postulante gives them. *)
Definition postulante_labels : list (string * string) :=
  [ ("ID_POSTULANTE", "id_postulante_original"); ("EDAD", "edad");
    ("SEXO", "sexo"); ("UBIGEO", "ubigeo"); ("ESTADO_CONADIS", "estado_conadis") ].

Definition _build_dim_postulante : M unit :=
  self <- get ;;
  match datasets self !! "postulante" with
  | None => warning (WarnDatasetUnavailable "postulante")
  | Some df_post =>
      let cols_needed := ["ID_POSTULANTE"; "EDAD"; "SEXO"; "UBIGEO"; "ESTADO_CONADIS"] in
      let cols_available := List.filter (has_column df_post) cols_needed in
      dim_postulante <- lift (select df_post cols_available) ;;
      dim_postulante <- lift (drop_duplicates (Some ["ID_POSTULANTE"]) dim_postulante) ;;
      dim_postulante <- lift (insert_range "postulante_sk" dim_postulante) ;;
      let dim_postulante := rename postulante_labels dim_postulante in
      set_dimension "dim_postulante" dim_postulante
  end.

Definition _build_dim_empresa : M unit :=
  self <- get ;;
  match datasets self !! "vacantes" with
  | None => warning (WarnDatasetUnavailable "vacantes")
  | Some df =>
      if negb (has_column df "IDEMPRESA") then warning (WarnColumnMissing "IDEMPRESA")
      else
        dim_empresa <- lift (select df ["IDEMPRESA"]) ;;
        dim_empresa <- lift (drop_duplicates None dim_empresa) ;;
        dim_empresa <- lift (insert_range "empresa_sk" dim_empresa) ;;
        let dim_empresa := rename [("IDEMPRESA", "id_empresa_original")] dim_empresa in
        set_dimension "dim_empresa" dim_empresa
  end.

(** The dict that [_build_dim_vacante] maps SINEXPERIENCIA through.  A
    Python [True]/[False] cell hashes and compares as the keys 1 and 0. *)
Definition sinexperiencia_map : list (value * value) :=
  [ (VStr "SI", VBool true); (VStr "NO", VBool false);
    (VStr "S", VBool true); (VStr "N", VBool false);
    (VInt 1, VBool true); (VInt 0, VBool false);
    (VStr "1", VBool true); (VStr "0", VBool false);
    (VBool true, VBool true); (VBool false, VBool false) ].

Definition _build_dim_vacante : M unit :=
  self <- get ;;
  match datasets self !! "vacantes" with
  | None => warning (WarnDatasetUnavailable "vacantes")
  | Some df_vac =>
      dim_vacante <- lift (select df_vac ["AVISOID"]) ;;
      dim_vacante <- lift (drop_duplicates None dim_vacante) ;;
      dim_vacante <- lift (set_columns ["id_vacante_original"] dim_vacante) ;;
      dim_vacante <- lift (insert_range "vacante_sk" dim_vacante) ;;
      dim_vacante <- lift (merge Left dim_vacante df_vac "id_vacante_original" "AVISOID") ;;
      let optional_cols :=
        ["NOMBREAVISO"; "VACANTES"; "SECTOR"; "UBIGEO"; "SINEXPERIENCIA"; "TIEMPOEXPERIENCIA"] in
      let cols_to_keep :=
        ["vacante_sk"; "id_vacante_original"]
        ++ List.filter (has_column dim_vacante) optional_cols in
      dim_vacante <- lift (select dim_vacante cols_to_keep) ;;
      let dim_vacante :=
        if has_column dim_vacante "TIEMPOEXPERIENCIA" then
          assign "TIEMPOEXPERIENCIA"
            (fun r => fillna (VInt 0) (to_numeric (cell r "TIEMPOEXPERIENCIA"))) dim_vacante
        else dim_vacante in
      let dim_vacante :=
        if has_column dim_vacante "SINEXPERIENCIA" then
          assign "SINEXPERIENCIA"
            (fun r => fillna (VBool false)
                        (map_dict sinexperiencia_map (cell r "SINEXPERIENCIA"))) dim_vacante
        else dim_vacante in
      let dim_vacante :=
        rename [ ("NOMBREAVISO", "nombre_aviso"); ("VACANTES", "num_vacantes");
                 ("SECTOR", "sector"); ("UBIGEO", "ubigeo");
                 ("SINEXPERIENCIA", "sin_experiencia");
                 ("TIEMPOEXPERIENCIA", "tiempo_experiencia") ] dim_vacante in
      set_dimension "dim_vacante" dim_vacante
  end.

Definition _build_dim_competencia : M unit :=
  self <- get ;;
  match datasets self !! "competencias" with
  | None => warning (WarnDatasetUnavailable "competencias")
  | Some df =>
      if negb (has_column df "NOMBRECOMPETENCIA")
      then warning (WarnColumnMissing "NOMBRECOMPETENCIA")
      else
        dim_competencia <- lift (select df ["NOMBRECOMPETENCIA"]) ;;
        dim_competencia <- lift (drop_duplicates None dim_competencia) ;;
        dim_competencia <- lift (insert_range "competencia_sk" dim_competencia) ;;
        let dim_competencia :=
          rename [("NOMBRECOMPETENCIA", "nombre_competencia")] dim_competencia in
        set_dimension "dim_competencia" dim_competencia
  end.

Definition _build_dim_carrera : M unit :=
  self <- get ;;
  match datasets self !! "educacion" with
  | None => warning (WarnDatasetUnavailable "educacion")
  | Some df =>
      if negb (has_column df "CARRERA") then warning (WarnColumnMissing "CARRERA")
      else
        dim_carrera <- lift (select df ["CARRERA"]) ;;
        dim_carrera <- lift (drop_duplicates None dim_carrera) ;;
        dim_carrera <- lift (dropna None dim_carrera) ;;
        dim_carrera <- lift (insert_range "carrera_sk" dim_carrera) ;;
        let dim_carrera := rename [("CARRERA", "nombre_carrera")] dim_carrera in
        dim_carrera <-
          (if has_column df "GRADO" then
             grado_por_carrera <- lift (groupby_first "CARRERA" "GRADO" df) ;;
             dim_carrera <- lift (merge Left dim_carrera grado_por_carrera
                                    "nombre_carrera" "CARRERA") ;;
             lift (drop_column "CARRERA" dim_carrera)
           else ret dim_carrera) ;;
        set_dimension "dim_carrera" dim_carrera
  end.

Definition _build_dim_institucion : M unit :=
  self <- get ;;
  match datasets self !! "educacion" with
  | None => warning (WarnDatasetUnavailable "educacion")
  | Some df =>
      if negb (has_column df "INSTITUCION") then warning (WarnColumnMissing "INSTITUCION")
      else
        dim_institucion <- lift (select df ["INSTITUCION"]) ;;
        dim_institucion <- lift (drop_duplicates None dim_institucion) ;;
        dim_institucion <- lift (dropna None dim_institucion) ;;
        dim_institucion <- lift (insert_range "institucion_sk" dim_institucion) ;;
        let dim_institucion :=
          rename [("INSTITUCION", "nombre_institucion")] dim_institucion in
        set_dimension "dim_institucion" dim_institucion
  end.

Definition _build_all_dimensions : M unit :=
  _build_dim_tiempo ;;
  _build_dim_ubicacion ;;
  _build_dim_postulante ;;
  _build_dim_empresa ;;
  _build_dim_vacante ;;
  _build_dim_competencia ;;
  _build_dim_carrera ;;
  _build_dim_institucion.

(** [set(df['AVISOID'].dropna().unique())] *)
Definition avisos (s : list value) : gset value :=
  list_to_set (unique (series_dropna s)).

(** The frame of placeholder postings for the identifiers [ids], every
    other field a constant. *)
Definition vacante_placeholder (ids : list value) (fecha_placeholder : Z) : DataFrame :=
  mkDF [ "AVISOID"; "NOMBREAVISO"; "VACANTES"; "SECTOR"; "UBIGEO"; "SINEXPERIENCIA";
         "TIEMPOEXPERIENCIA"; "IDEMPRESA"; "DEPARTAMENTO"; "PROVINCIA"; "DISTRITO";
         "FECHAINICIO"; "FECHAFIN"; "FECHACREACION"; "ACTIVO" ]
    ((fun id : value =>
        (list_to_map
           [ ("AVISOID", id);
             ("NOMBREAVISO", VStr "REGISTRO_HUERFANO_PRESERVADO");
             ("VACANTES", VInt 0);
             ("SECTOR", VStr "SIN_CLASIFICAR");
             ("UBIGEO", VStr "000000");
             ("SINEXPERIENCIA", VStr "NO");
             ("TIEMPOEXPERIENCIA", VInt 0);
             ("IDEMPRESA", VInt 0);
             ("DEPARTAMENTO", VStr "SIN_ESPECIFICAR");
             ("PROVINCIA", VStr "SIN_ESPECIFICAR");
             ("DISTRITO", VStr "SIN_ESPECIFICAR");
             ("FECHAINICIO", VDate fecha_placeholder);
             ("FECHAFIN", VDate fecha_placeholder);
             ("FECHACREACION", VDate fecha_placeholder);
             ("ACTIVO", VBool false) ] : Row)) <$> ids).

(** [today] is what [datetime.datetime.now().date()] returns during the
    call.  [list(huerfanos)] enumerates a set; its order is the one of
    [elements], as unspecified as Python's. *)
Definition _reconcile_orphans (today : Z) : M unit :=
  self <- get ;;
  match datasets self !! "competencias", datasets self !! "vacantes" with
  | Some df_comp, Some df_vac =>
      comp_ids <- lift (getitem df_comp "AVISOID") ;;
      vac_ids <- lift (getitem df_vac "AVISOID") ;;
      let avisos_comp := avisos comp_ids in
      let avisos_vac := avisos vac_ids in
      let huerfanos := avisos_comp ∖ avisos_vac in
      let huerfanos_count := size huerfanos in
      let total_comp := size avisos_comp in
      let pct_huerfanos : Q :=
        if decide (0 < total_comp)%nat
        then float64.to_Q
               (float64.mul
                  (float64.truediv (Z.of_nat huerfanos_count) (Z.of_nat total_comp))
                  (float64.of_int 100))
        else 0%Q in
      (if decide (0 < huerfanos_count)%nat then
         warning (WarnOrphans huerfanos_count pct_huerfanos) ;;
         let fecha_placeholder := today in
         let placeholder := vacante_placeholder (elements huerfanos) fecha_placeholder in
         vacantes <- lift (concat [df_vac; placeholder]) ;;
         set_dataset "vacantes" vacantes
       else ret tt) ;;
      set_orphan_stat "competencias_huerfanos" (inject_Z (Z.of_nat huerfanos_count)) ;;
      set_orphan_stat "competencias_total" (inject_Z (Z.of_nat total_comp)) ;;
      set_orphan_stat "competencias_pct" pct_huerfanos
  | _, _ => warning WarnInsufficientDatasets
  end.

(** [hechos[[col for col in cols_final if col in hechos.columns]]] *)
Definition select_present (df : DataFrame) (cols_final : list string) : result DataFrame :=
  select df (List.filter (has_column df) cols_final).

(** [self.dimensions['dim_tiempo']['fecha_sk'].min()] *)
Definition primera_fecha (dim_tiempo : DataFrame) : result value :=
  (s <- getitem dim_tiempo "fecha_sk" ;; Ok (series_min s))%py.

(** A left merge with the columns [cols] of the dimension [name], done
    only when the dimension exists and [hechos] has the column [on]. *)
Definition merge_optional (hechos : DataFrame) (name : string)
    (cols : list string) (on right_on : string) : M DataFrame :=
  self <- get ;;
  match dimensions self !! name with
  | Some dim =>
      if has_column hechos on then
        dim <- lift (select dim cols) ;;
        lift (merge Left hechos dim on right_on)
      else ret hechos
  | None => ret hechos
  end.

Definition _build_hechos_postulante : M unit :=
  self <- get ;;
  match datasets self !! "postulante" with
  | None => warning (WarnDatasetUnavailable "postulante")
  | Some df_post =>
      dim_post <- get_dimension "dim_postulante" ;;
      dim_post <- lift (select dim_post ["postulante_sk"; "id_postulante_original"]) ;;
      hechos <- lift (merge Left df_post dim_post "ID_POSTULANTE" "id_postulante_original") ;;
      hechos <- merge_optional hechos "dim_ubicacion" ["ubicacion_sk"; "ubigeo"]
                  "UBIGEO" "ubigeo" ;;
      let cols_final :=
        ["postulante_sk"] ++ (if has_column hechos "ubicacion_sk" then ["ubicacion_sk"] else []) in
      self <- get ;;
      con_fecha <-
        match dimensions self !! "dim_tiempo" with
        | Some dim_tiempo =>
            primera_fecha_sk <- lift (primera_fecha dim_tiempo) ;;
            ret (assign "fecha_registro_sk" (fun _ => primera_fecha_sk) hechos,
                 cols_final ++ ["fecha_registro_sk"])
        | None => ret (hechos, cols_final)
        end ;;
      let '(hechos, cols_final) := con_fecha in
      hechos <- lift (select_present hechos cols_final) ;;
      hechos <- lift (drop_duplicates None hechos) ;;
      set_fact "hechos_postulante" hechos
  end.

Definition _build_hechos_formacion : M unit :=
  self <- get ;;
  match datasets self !! "educacion" with
  | None => warning (WarnDatasetUnavailable "educacion")
  | Some df_edu =>
      dim_post <- get_dimension "dim_postulante" ;;
      dim_post <- lift (select dim_post ["postulante_sk"; "id_postulante_original"]) ;;
      hechos <- lift (merge Inner df_edu dim_post "ID_POSTULANTE" "id_postulante_original") ;;
      hechos <- merge_optional hechos "dim_carrera" ["carrera_sk"; "nombre_carrera"]
                  "CARRERA" "nombre_carrera" ;;
      hechos <- merge_optional hechos "dim_institucion"
                  ["institucion_sk"; "nombre_institucion"]
                  "INSTITUCION" "nombre_institucion" ;;
      let cols_final :=
        ["postulante_sk"]
        ++ (if has_column hechos "carrera_sk" then ["carrera_sk"] else [])
        ++ (if has_column hechos "institucion_sk" then ["institucion_sk"] else []) in
      hechos <- lift (select_present hechos cols_final) ;;
      hechos <- lift (drop_duplicates None hechos) ;;
      set_fact "hechos_formacion" hechos
  end.

Definition _build_hechos_experiencia : M unit :=
  self <- get ;;
  match datasets self !! "experiencias" with
  | None => warning (WarnDatasetUnavailable "experiencias")
  | Some df_exp =>
      dim_post <- get_dimension "dim_postulante" ;;
      dim_post <- lift (select dim_post ["postulante_sk"; "id_postulante_original"]) ;;
      hechos <- lift (merge Inner df_exp dim_post "ID_POSTULANTE" "id_postulante_original") ;;
      hechos <- lift (select hechos ["postulante_sk"]) ;;
      hechos <- lift (drop_duplicates None hechos) ;;
      hechos <- lift (dropna (Some ["postulante_sk"]) hechos) ;;
      hechos <- lift (astype_int64_column "postulante_sk" hechos) ;;
      set_fact "hechos_experiencia" hechos
  end.

(** [Series.dt.normalize()] on a cell. *)
Definition normalize (v : value) : value :=
  match v with
  | VStamp d _ => VStamp d 0
  | _ => VNull
  end.

Definition stamp (t : option (Z * Z)) : value :=
  match t with
  | Some (d, ns) => VStamp d ns
  | None => VNull
  end.

(** [astype('int64')] on the column, when the frame has it. *)
Definition astype_if_present (c : string) (df : DataFrame) : result DataFrame :=
  if has_column df c then astype_int64_column c df else Ok df.

Definition _build_hechos_vacante : M unit :=
  self <- get ;;
  match datasets self !! "vacantes" with
  | None => warning (WarnDatasetUnavailable "vacantes")
  | Some df_vac =>
      dim_vac <- get_dimension "dim_vacante" ;;
      dim_vac <- lift (select dim_vac ["vacante_sk"; "id_vacante_original"]) ;;
      hechos <- lift (merge Inner df_vac dim_vac "AVISOID" "id_vacante_original") ;;
      hechos <- merge_optional hechos "dim_ubicacion" ["ubicacion_sk"; "ubigeo"]
                  "UBIGEO" "ubigeo" ;;
      hechos <- merge_optional hechos "dim_empresa" ["empresa_sk"; "id_empresa_original"]
                  "IDEMPRESA" "id_empresa_original" ;;
      let cols_final :=
        ["vacante_sk"]
        ++ (if has_column hechos "ubicacion_sk" then ["ubicacion_sk"] else [])
        ++ (if has_column hechos "empresa_sk" then ["empresa_sk"] else []) in
      self <- get ;;
      con_fecha <-
        match dimensions self !! "dim_tiempo" with
        | Some dim_tiempo =>
            if has_column hechos "FECHACREACION" then
              let hechos :=
                assign "FECHACREACION"
                  (fun r => stamp (to_datetime (cell r "FECHACREACION"))) hechos in
              let hechos :=
                assign "fecha_normalizada"
                  (fun r => normalize (cell r "FECHACREACION")) hechos in
              fechas <- lift (select dim_tiempo ["fecha_sk"; "fecha"]) ;;
              hechos <- lift (merge Left hechos fechas "fecha_normalizada" "fecha") ;;
              primera_fecha_sk <- lift (primera_fecha dim_tiempo) ;;
              lift (getitem hechos "fecha_sk") ;;
              let hechos :=
                assign "fecha_publicacion_sk"
                  (fun r => fillna primera_fecha_sk (cell r "fecha_sk")) hechos in
              hechos <- lift (astype_int64_column "fecha_publicacion_sk" hechos) ;;
              ret (hechos, cols_final ++ ["fecha_publicacion_sk"])
            else ret (hechos, cols_final)
        | None => ret (hechos, cols_final)
        end ;;
      let '(hechos, cols_final) := con_fecha in
      let '(hechos, cols_final) :=
        if has_column hechos "ACTIVO"
        then (rename [("ACTIVO", "activo")] hechos, cols_final ++ ["ACTIVO"])
        else (assign "activo" (fun _ => VBool true) hechos, cols_final ++ ["activo"]) in
      hechos <- lift (select_present hechos cols_final) ;;
      hechos <- lift (drop_duplicates None hechos) ;;
      hechos <- lift (dropna None hechos) ;;
      hechos <- lift (astype_if_present "vacante_sk" hechos) ;;
      hechos <- lift (astype_if_present "ubicacion_sk" hechos) ;;
      hechos <- lift (astype_if_present "empresa_sk" hechos) ;;
      set_fact "hechos_vacante" hechos
  end.

Definition _build_hechos_competencia_requerida : M unit :=
  self <- get ;;
  match datasets self !! "competencias" with
  | None => warning (WarnDatasetUnavailable "competencias")
  | Some df_comp =>
      dim_vac <- get_dimension "dim_vacante" ;;
      dim_vac <- lift (select dim_vac ["vacante_sk"; "id_vacante_original"]) ;;
      hechos <- lift (merge Inner df_comp dim_vac "AVISOID" "id_vacante_original") ;;
      self <- get ;;
      hechos <-
        match dimensions self !! "dim_competencia" with
        | Some dim_comp =>
            if has_column hechos "NOMBRECOMPETENCIA"
            then lift (merge Inner hechos dim_comp "NOMBRECOMPETENCIA" "nombre_competencia")
            else ret hechos
        | None => ret hechos
        end ;;
      hechos <- lift (select hechos ["vacante_sk"; "competencia_sk"]) ;;
      hechos <- lift (dropna None hechos) ;;
      hechos <- lift (astype_int64_column "vacante_sk" hechos) ;;
      hechos <- lift (astype_int64_column "competencia_sk" hechos) ;;
      set_fact "hechos_competencia_requerida" hechos
  end.

Definition _build_all_facts : M unit :=
  _build_hechos_postulante ;;
  _build_hechos_formacion ;;
  _build_hechos_experiencia ;;
  _build_hechos_vacante ;;
  _build_hechos_competencia_requerida.

(** [transform_all]: the three phases in the order of the source; an
    exception of any phase is logged and turned into [(None, None)]. *)
Definition transform_all (today : Z)
    : DataTransformer ->
      DataTransformer * option (gmap string DataFrame * gmap string DataFrame) :=
  fun self =>
    match (_build_all_dimensions ;;
           _reconcile_orphans today ;;
           _build_all_facts) self with
    | (self', Ok _) => (self', Some (dimensions self', facts self'))
    | (self', Raise e) =>
        (mkTransformer (datasets self') (dimensions self') (facts self')
           (orphan_stats self') (log self' ++ [ErrorTransform e]), None)
    end.

End Transformer.

(** ** A concrete pandas for running the pipeline on fixtures

    It reads ISO dates ("YYYY-MM-DD") and unsigned decimal numbers, which
    is all the fixtures below contain. *)

Module fixture.

Definition digit (a : Ascii.ascii) : option Z :=
  let n := Z.of_N (Ascii.N_of_ascii a) in
  if (48 <=? n) && (n <=? 57) then Some (n - 48) else None.

Fixpoint digits (acc : Z) (s : string) : option Z :=
  match s with
  | EmptyString => Some acc
  | String a s' => d ← digit a; digits (10 * acc + d) s'
  end.

Definition parse_nat (s : string) : option Z :=
  match s with
  | EmptyString => None
  | _ => digits 0 s
  end.

Definition parse_iso_date (s : string) : option (Z * Z) :=
  if decide (String.length s = 10%nat) then
    if decide (String.substring 4 1 s = "-" ∧ String.substring 7 1 s = "-") then
      y ← parse_nat (String.substring 0 4 s);
      m ← parse_nat (String.substring 5 2 s);
      d ← parse_nat (String.substring 8 2 s);
      Some (calendar.days_from_civil y m d, 0)
    else None
  else None.

Definition iso_datetime (v : value) : option (Z * Z) :=
  match v with
  | VStamp d ns => Some (d, ns)
  | VDate d => Some (d, 0)
  | VStr s => parse_iso_date s
  | _ => None
  end.

Definition int64_of (v : value) : option value :=
  match v with
  | VInt n => Some (VInt n)
  | VBool b => Some (VInt (if b then 1 else 0))
  | VStr s => VInt <$> parse_nat s
  | _ => None
  end.

Definition numeric_of (v : value) : value :=
  default VNull (int64_of v).

#[export] Instance pandas : Pandas := {|
  to_datetime := iso_datetime;
  to_numeric := numeric_of;
  astype_int64 := int64_of;
  astype_int64_int := fun n => eq_refl;
  astype_int64_null := eq_refl
|}.

(** A frame written row by row; every row lists the cells in the order
    of the labels. *)
Definition frame (cols : list string) (cells : list (list value)) : DataFrame :=
  mkDF cols ((fun vs => list_to_map (zip cols vs)) <$> cells).

(** The rows of a frame as lists of cells, in the order of its labels. *)
Definition table (df : DataFrame) : list (list value) :=
  key_of (columns df) <$> rows df.

Definition postulante : DataFrame :=
  frame ["ID_POSTULANTE"; "EDAD"; "SEXO"; "UBIGEO"; "ESTADO_CONADIS";
         "DEPARTAMENTO"; "PROVINCIA"; "DISTRITO"]
    [ [VInt 10; VInt 30; VStr "F"; VStr "150101"; VStr "NO"; VStr "LIMA"; VStr "LIMA"; VStr "LIMA"];
      [VInt 11; VInt 41; VStr "M"; VStr "040101"; VStr "SI"; VStr "AREQUIPA"; VStr "AREQUIPA"; VNull] ].

Definition discapacidad : DataFrame :=
  frame ["ID_POSTULANTE"; "CAUSA"] [ [VInt 11; VStr "VISUAL"] ].

Definition educacion : DataFrame :=
  frame ["ID_POSTULANTE"; "CARRERA"; "INSTITUCION"; "GRADO"; "FECHAINICIO"; "FECHAFIN"]
    [ [VInt 10; VStr "DERECHO"; VStr "UNMSM"; VStr "BACHILLER"; VStr "2015-03-01"; VStr "2019-12-15"] ].

Definition experiencias : DataFrame :=
  frame ["ID_POSTULANTE"; "EMPRESA"] [ [VInt 10; VStr "ACME"] ].

Definition vacantes_cols : list string :=
  ["AVISOID"; "NOMBREAVISO"; "VACANTES"; "SECTOR"; "UBIGEO"; "SINEXPERIENCIA";
   "TIEMPOEXPERIENCIA"; "IDEMPRESA"; "DEPARTAMENTO"; "PROVINCIA"; "DISTRITO";
   "FECHAINICIO"; "FECHAFIN"; "FECHACREACION"].

(** Postings 1 and 2. *)
Definition vacantes : DataFrame :=
  frame vacantes_cols
    [ [VInt 1; VStr "ANALISTA"; VInt 2; VStr "SERVICIOS"; VStr "150101"; VStr "SI";
       VInt 0; VInt 500; VStr "LIMA"; VStr "LIMA"; VStr "LIMA";
       VStr "2023-01-02"; VStr "2023-02-01"; VStr "2023-01-01"];
      [VInt 2; VStr "CONTADOR"; VInt 1; VStr "COMERCIO"; VStr "040101"; VStr "NO";
       VInt 12; VInt 501; VStr "AREQUIPA"; VStr "AREQUIPA"; VStr "AREQUIPA";
       VStr "2023-01-07"; VStr "2023-02-07"; VStr "2023-01-07"] ].

(** Competencies of the postings 1, 2 and 3; posting 3 is an orphan. *)
Definition competencias : DataFrame :=
  frame ["AVISOID"; "NOMBRECOMPETENCIA"]
    [ [VInt 1; VStr "EXCEL"]; [VInt 2; VStr "CONTABILIDAD"]; [VInt 3; VStr "LIDERAZGO"] ].

(** Posting 1 listed twice, with different vacancy counts: the
    transformer takes the frames it is given, and the extractor checks
    no key. *)
Definition vacantes_repetida : DataFrame :=
  frame vacantes_cols
    [ [VInt 1; VStr "ANALISTA"; VInt 2; VStr "SERVICIOS"; VStr "150101"; VStr "SI";
       VInt 0; VInt 500; VStr "LIMA"; VStr "LIMA"; VStr "LIMA";
       VStr "2023-01-02"; VStr "2023-02-01"; VStr "2023-01-01"];
      [VInt 1; VStr "ANALISTA"; VInt 5; VStr "SERVICIOS"; VStr "150101"; VStr "SI";
       VInt 0; VInt 500; VStr "LIMA"; VStr "LIMA"; VStr "LIMA";
       VStr "2023-03-02"; VStr "2023-04-01"; VStr "2023-03-01"] ].

(** An applicant dataset of 105 rows: the identifiers 1 to 100, aged 30,
    and then the identifiers 1 to 5 again, aged 99. *)
Definition postulante_105 : DataFrame :=
  frame ["ID_POSTULANTE"; "EDAD"; "SEXO"; "UBIGEO"; "ESTADO_CONADIS"]
    (((fun id => [VInt id; VInt 30; VStr "F"; VStr "150101"; VStr "NO"]) <$> seqZ 1 100)
     ++ ((fun id => [VInt id; VInt 99; VStr "F"; VStr "150101"; VStr "NO"]) <$> seqZ 1 5)).

(** The applicant dataset without its ID_POSTULANTE column. *)
Definition postulante_sin_id : DataFrame :=
  frame ["EDAD"; "SEXO"; "UBIGEO"; "ESTADO_CONADIS"; "DEPARTAMENTO"; "PROVINCIA"; "DISTRITO"]
    [ [VInt 30; VStr "F"; VStr "150101"; VStr "NO"; VStr "LIMA"; VStr "LIMA"; VStr "LIMA"] ].

(** The job-posting and education datasets with their date columns
    there and no date in them: the fields are empty, or hold a text
    that is not a date. *)
Definition vacantes_sin_fechas : DataFrame :=
  frame vacantes_cols
    [ [VInt 1; VStr "ANALISTA"; VInt 2; VStr "SERVICIOS"; VStr "150101"; VStr "SI";
       VInt 0; VInt 500; VStr "LIMA"; VStr "LIMA"; VStr "LIMA";
       VNull; VNull; VNull];
      [VInt 2; VStr "CONTADOR"; VInt 1; VStr "COMERCIO"; VStr "040101"; VStr "NO";
       VInt 12; VInt 501; VStr "AREQUIPA"; VStr "AREQUIPA"; VStr "AREQUIPA";
       VNull; VNull; VNull] ].

Definition educacion_sin_fechas : DataFrame :=
  frame ["ID_POSTULANTE"; "CARRERA"; "INSTITUCION"; "GRADO"; "FECHAINICIO"; "FECHAFIN"]
    [ [VInt 10; VStr "DERECHO"; VStr "UNMSM"; VStr "BACHILLER"; VNull; VStr "EN CURSO"] ].

Definition six (post disc edu exp vac comp : DataFrame) : gmap string DataFrame :=
  <["postulante" := post]> (<["discapacidad" := disc]> (<["educacion" := edu]>
    (<["experiencias" := exp]> (<["vacantes" := vac]> (<["competencias" := comp]> ∅))))).

Definition extracted : gmap string DataFrame :=
  six postulante discapacidad educacion experiencias vacantes competencias.

Definition extracted_repetida : gmap string DataFrame :=
  six postulante discapacidad educacion experiencias vacantes_repetida competencias.

Definition extracted_sin_id : gmap string DataFrame :=
  six postulante_sin_id discapacidad educacion experiencias vacantes competencias.

Definition extracted_sin_fechas : gmap string DataFrame :=
  six postulante discapacidad educacion_sin_fechas experiencias vacantes_sin_fechas
    competencias.

(** The mapping without the job-posting dataset. *)
Definition extracted_sin_vacantes : gmap string DataFrame :=
  delete "vacantes" extracted.

(** The column [c] of the table [name] of a dictionary of frames. *)
Definition column_of (tables : gmap string DataFrame) (name c : string)
    : option (list value) :=
  df ← tables !! name; Some ((fun r => cell r c) <$> rows df).

(** 2024-05-06, a day on which the pipeline runs. *)
Definition today : Z := calendar.days_from_civil 2024 5 6.

(** [DataTransformer(ds).transform_all()] on that day: the object after
    the call and what the call returned. *)
Definition run (ds : gmap string DataFrame)
    : DataTransformer * option (gmap string DataFrame * gmap string DataFrame) :=
  transform_all today (__init__ ds).

(** The table [name] among the returned dimensions, as rows of cells. *)
Definition dimension (ds : gmap string DataFrame) (name : string)
    : option (list (list value)) :=
  table <$> ((run ds).2 ≫= fun p => p.1 !! name).

(** The table [name] among the returned facts, as rows of cells. *)
Definition fact (ds : gmap string DataFrame) (name : string)
    : option (list (list value)) :=
  table <$> ((run ds).2 ≫= fun p => p.2 !! name).

End fixture.

(** ** The extractor *)

Module extract.

(** What the extractor asks of the file system and of [pd.read_csv]. *)
Class FileSystem := {
  (** [Path(p).exists()] *)
  path_exists : string -> bool;
  (** [pd.read_csv(p, encoding='utf-8-sig')] *)
  read_csv : string -> result DataFrame;
  (** [Path(__file__).parent.parent.parent.parent / 'data' / 'cleaned'] *)
  default_cleaned_path : string
}.

Definition EXPECTED_FILES : list (string * string) :=
  [ ("postulante", "postulante_clean.csv");
    ("discapacidad", "discapacidad_clean.csv");
    ("educacion", "educacion_clean.csv");
    ("experiencias", "experiencias_clean.csv");
    ("vacantes", "vacantes_clean.csv");
    ("competencias", "competencias_clean.csv") ].

Record DataExtractor := mkExtractor {
  cleaned_path : string;
  datasets : gmap string DataFrame
}.

Section Extractor.

Context `{FileSystem}.

(** [self.cleaned_path / filename] *)
Definition joinpath (dir filename : string) : string := dir +:+ "/" +:+ filename.

Definition _validate_paths (self : DataExtractor) : result unit :=
  if negb (path_exists (cleaned_path self))
  then Raise (FileNotFoundError (cleaned_path self))
  else Ok tt.

(** [DataExtractor(cleaned_path)]: the constructor raises when the
    directory is missing. *)
Definition __init__ (path : option string) : result DataExtractor :=
  let self := mkExtractor (default default_cleaned_path path) ∅ in
  (_ <- _validate_paths self ;; Ok self)%py.

Definition _load_csv (self : DataExtractor) (filename dataset_name : string)
    : result DataFrame :=
  let filepath := joinpath (cleaned_path self) filename in
  if negb (path_exists filepath) then Raise (FileNotFoundError filepath)
  else
    (df <- read_csv filepath ;;
     if empty df then Raise (ValueError ("Dataset " +:+ dataset_name +:+ " esta vacio"))
     else Ok df)%py.

(** The loop of [extract_all]: every loaded dataset is stored in [self]
    before the next file is read. *)
Fixpoint load_files (files : list (string * string)) (self : DataExtractor)
    : DataExtractor * result unit :=
  match files with
  | [] => (self, Ok tt)
  | (name, filename) :: files' =>
      match _load_csv self filename name with
      | Ok df => load_files files' (mkExtractor (cleaned_path self) (<[name := df]> (datasets self)))
      | Raise e => (self, Raise e)
      end
  end.

Fixpoint validate_names (names : list string) (self : DataExtractor) : result unit :=
  match names with
  | [] => Ok tt
  | name :: names' =>
      match datasets self !! name with
      | None => Raise (ValueError ("Dataset " +:+ name +:+ " no fue cargado"))
      | Some df =>
          if empty df then Raise (ValueError ("Dataset " +:+ name +:+ " esta vacio"))
          else validate_names names' self
      end
  end.

Definition _validate_extraction (self : DataExtractor) : result unit :=
  validate_names (EXPECTED_FILES.*1) self.

(** [extract_all]: the mapping, or [None] after any exception. *)
Definition extract_all (self : DataExtractor)
    : DataExtractor * option (gmap string DataFrame) :=
  match load_files EXPECTED_FILES self with
  | (self', Ok _) =>
      match _validate_extraction self' with
      | Ok _ => (self', Some (datasets self'))
      | Raise _ => (self', None)
      end
  | (self', Raise _) => (self', None)
  end.

(** [get_dataset]: [self.datasets.get(name)] *)
Definition get_dataset (self : DataExtractor) (name : string) : option DataFrame :=
  datasets self !! name.

(** [main] of the module: the exit code and the mapping.  The extractor
    is made for the default directory; a mapping counts when it is not
    empty ([if datasets:]), and any exception gives [(1, None)]. *)
Definition main : Z * option (gmap string DataFrame) :=
  match __init__ None with
  | Raise _ => (1, None)
  | Ok extractor =>
      match (extract_all extractor).2 with
      | Some ds => if decide (size ds = 0%nat) then (1, None) else (0, Some ds)
      | None => (1, None)
      end
  end.

End Extractor.

End extract.

(** A directory for running the extractor: "data/cleaned" with the six
    files, every file holding one row. *)
Module disk.

Import extract.

Definition one_row : DataFrame := fixture.frame ["ID"] [[VInt 1]].

#[export] Instance complete : FileSystem := {|
  path_exists p :=
    bool_decide (p ∈ "data/cleaned"
                     :: (joinpath "data/cleaned" <$> EXPECTED_FILES.*2));
  read_csv p := Ok one_row;
  default_cleaned_path := "data/cleaned"
|}.

(** The same directory where every file has a header and no row. *)
Definition headers_only : FileSystem := {|
  path_exists p :=
    bool_decide (p ∈ "data/cleaned"
                     :: (joinpath "data/cleaned" <$> EXPECTED_FILES.*2));
  read_csv p := Ok (mkDF ["ID"] []);
  default_cleaned_path := "data/cleaned"
|}.

(** The directory without the competency file. *)
Definition without_competencias : FileSystem := {|
  path_exists p :=
    bool_decide (p ∈ "data/cleaned"
                     :: (joinpath "data/cleaned" <$> take 5 EXPECTED_FILES.*2));
  read_csv p := Ok one_row;
  default_cleaned_path := "data/cleaned"
|}.

(** No directory at all. *)
Definition nothing : FileSystem := {|
  path_exists p := false;
  read_csv p := Raise (FileNotFoundError p);
  default_cleaned_path := "data/cleaned"
|}.

End disk.

(** ** The loader's table list

    From [2_ETL_INTEGRATION/src/load/load_to_neondb.py]: the tables
    the loader reads from disk and loads, dimensions before facts. *)

Module load.

Definition EXPECTED_TABLES : nat := 13.
Definition EXPECTED_DIMENSIONS : nat := 8.
Definition EXPECTED_FACTS : nat := 5.

Definition LOAD_ORDER : list (string * list string) :=
  [ ("dimensiones",
     [ "dim_tiempo"; "dim_ubicacion"; "dim_postulante"; "dim_carrera";
       "dim_institucion"; "dim_vacante"; "dim_empresa"; "dim_competencia" ]);
    ("hechos",
     [ "hechos_postulante"; "hechos_formacion"; "hechos_experiencia";
       "hechos_vacante"; "hechos_competencia_requerida" ]) ].

(** [LOAD_ORDER[tipo]] *)
Definition tablas (tipo : string) : list string :=
  default [] (list_to_map (M := gmap string (list string)) LOAD_ORDER !! tipo).

End load.

(** ** Notions the properties are stated with *)

Module notions.

(** If the frame has the column [c], every cell of it satisfies [S]. *)
Definition col_in (S : value -> Prop) (c : string) (df : DataFrame) : Prop :=
  c ∈ columns df -> forall r, r ∈ rows df -> S (cell r c).

Definition is_int (v : value) : Prop := exists n, v = VInt n.

(** A label that [merge] cannot have made by suffixing. *)
Definition unsuffixed (c : string) : Prop :=
  ends_with "_x" c = false /\ ends_with "_y" c = false.

(** The method [m] never changes the part [proj] of the object, whether
    it returns or raises. *)
Definition keeps {X A} (proj : DataTransformer -> X) (m : M A) : Prop :=
  forall self, proj (m self).1 = proj self.

(** A cell that is null or an integer surrogate key of the dimension
    table [D], found in its column [c]. *)
Definition fk_of (D : DataFrame) (c : string) (v : value) : Prop :=
  v = VNull \/ (is_int v /\ exists d, d ∈ rows D /\ cell d c = v).

(** What the fact builders need of the dimensions they join against:
    the key columns hold integers, and dim_competencia has its two
    columns and was made from a dataset with competency names. *)
Definition dims_ok (self : DataTransformer) : Prop :=
  (forall D, dimensions self !! "dim_postulante" = Some D ->
     col_in is_int "postulante_sk" D)
  /\ (forall D, dimensions self !! "dim_vacante" = Some D ->
       col_in is_int "vacante_sk" D)
  /\ (forall D, dimensions self !! "dim_competencia" = Some D ->
       columns D = ["competencia_sk"; "nombre_competencia"]
       /\ col_in is_int "competencia_sk" D
       /\ exists df, datasets self !! "competencias" = Some df
                     /\ "NOMBRECOMPETENCIA" ∈ columns df).

(** Which column of which fact table refers to which dimension through
    an inner join. *)
Definition fk_links : list (string * string * string) :=
  [ ("hechos_formacion", "dim_postulante", "postulante_sk");
    ("hechos_experiencia", "dim_postulante", "postulante_sk");
    ("hechos_vacante", "dim_vacante", "vacante_sk");
    ("hechos_competencia_requerida", "dim_vacante", "vacante_sk");
    ("hechos_competencia_requerida", "dim_competencia", "competencia_sk") ].

Definition facts_ok (self : DataTransformer) : Prop :=
  forall fact dim fk, (fact, dim, fk) ∈ fk_links ->
    forall F D, facts self !! fact = Some F -> dimensions self !! dim = Some D ->
      col_in (fk_of D fk) fk F.

End notions.

Module dimension_notions.

(** The table [dim] numbers the values [vals]: it has one row per value,
    in their order, and row [i] (from 0) holds the surrogate key [i + 1]
    under [sk] and the [i]-th value under [c]. *)
Definition numbers (sk c : string) (vals : list value) (dim : DataFrame) : Prop :=
  (fun r => cell r sk) <$> rows dim = VInt <$> range1 (length vals)
  /\ (fun r => cell r c) <$> rows dim = vals.

(** The cells of the column [c] of a frame. *)
Definition column (c : string) (df : DataFrame) : list value :=
  (fun r => cell r c) <$> rows df.

End dimension_notions.

Module extract_notions.

Import extract.

Section Extractor.

Context `{FileSystem}.

(** The file [filename] of the directory [dir] is one that [_load_csv]
    accepts, and [df] is what it returns for it: the file exists and
    parses to the non-empty frame [df]. *)
Definition loads (dir filename : string) (df : DataFrame) : Prop :=
  path_exists (joinpath dir filename) = true
  /\ read_csv (joinpath dir filename) = Ok df /\ empty df = false.

End Extractor.

End extract_notions.

Module key_notions.

Import notions.

(** The surrogate key column of the dimensions that fact tables are
    left-joined with. *)
Definition dimension_keys : list (string * string) :=
  [ ("dim_ubicacion", "ubicacion_sk"); ("dim_empresa", "empresa_sk");
    ("dim_carrera", "carrera_sk"); ("dim_institucion", "institucion_sk") ].

Definition keys_int (self : DataTransformer) : Prop :=
  forall dim sk, (dim, sk) ∈ dimension_keys ->
    forall D, dimensions self !! dim = Some D -> col_in is_int sk D.

(** Which column of which fact table, made from which dataset, refers to
    which dimension through a left join. *)
Definition left_links : list (string * string * string * string) :=
  [ ("hechos_postulante", "postulante", "dim_postulante", "postulante_sk");
    ("hechos_postulante", "postulante", "dim_ubicacion", "ubicacion_sk");
    ("hechos_formacion", "educacion", "dim_carrera", "carrera_sk");
    ("hechos_formacion", "educacion", "dim_institucion", "institucion_sk");
    ("hechos_vacante", "vacantes", "dim_ubicacion", "ubicacion_sk");
    ("hechos_vacante", "vacantes", "dim_empresa", "empresa_sk") ].

(** The dataset has no column of the name of the key; only the join with
    dim_postulante, which is always made, can do without. *)
Definition key_is_new (fk : string) (df : DataFrame) : Prop :=
  fk ∈ columns df -> fk = "postulante_sk".

Definition left_ok (self : DataTransformer) : Prop :=
  forall fact src dim fk, (fact, src, dim, fk) ∈ left_links ->
    forall F D df, facts self !! fact = Some F -> dimensions self !! dim = Some D ->
      datasets self !! src = Some df -> key_is_new fk df ->
      col_in (fk_of D fk) fk F.

(** An integer surrogate key of the table [D], found in its column [c]. *)
Definition sk_of (D : DataFrame) (c : string) (v : value) : Prop :=
  is_int v /\ exists d, d ∈ rows D /\ cell d c = v.

(** The date keys of the fact tables; both refer to dim_tiempo. *)
Definition date_links : list (string * string) :=
  [ ("hechos_postulante", "fecha_registro_sk");
    ("hechos_vacante", "fecha_publicacion_sk") ].

Definition dates_ok (self : DataTransformer) : Prop :=
  forall fact fk, (fact, fk) ∈ date_links ->
    forall F T, facts self !! fact = Some F -> dimensions self !! "dim_tiempo" = Some T ->
      col_in (sk_of T "fecha_sk") fk F.

End key_notions.

Module join_notions.

(** The surrogate key that a dimension numbering the natural keys [vals]
    gives to the natural key [k]: its position counted from 1, or null
    when [k] is none of them. *)
Definition resolve (vals : list value) (k : value) : value :=
  match list_find (fun v => v = k) vals with
  | Some (i, _) => VInt (Z.of_nat i + 1)
  | None => VNull
  end.

(** A key column that pandas holds as numbers, int64 or float64 (with a
    null it is float64): some cell is an integer, and every cell is null
    or an integer that a float holds exactly, at most 2^53 in absolute
    value.  Compared as floats, which pandas does when one side is
    float64, such cells compare as the integers they are. *)
Definition numeric_keys (s : list value) : bool :=
  existsb (fun v => match v with VInt _ => true | _ => false end) s
  && forallb (fun v => match v with
                       | VInt n => (- 2 ^ 53 <=? n) && (n <=? 2 ^ 53)
                       | VNull => true
                       | _ => false
                       end) s.

(** A key column that pandas holds as objects: some cell is a string,
    and every cell is a string or null. *)
Definition object_keys (s : list value) : bool :=
  existsb (fun v => match v with VStr _ => true | _ => false end) s
  && forallb (fun v => match v with VStr _ | VNull => true | _ => false end) s.

(** Two key columns of one kind, which pandas joins cell by cell as
    [merge] does: numbers with numbers, or strings with strings. *)
Definition same_dtype (l r : list value) : Prop :=
  numeric_keys l && numeric_keys r || object_keys l && object_keys r = true.

End join_notions.

(** * Properties *)

(** ** The pipeline on the fixtures *)

Module on_fixtures.

Import fixture.

(** C1 (the code departs from it).  The competency row of posting 3 has a
    posting identifier and a competency name, and its name is in
    dim_competencia; yet hechos_competencia_requerida holds only the rows
    of postings 1 and 2: [transform_all] builds dim_vacante before
    [_reconcile_orphans] adds the placeholder, so the inner join against
    dim_vacante drops the row. *)
Theorem orphan_competency_is_dropped :
  table competencias
    = [ [VInt 1; VStr "EXCEL"]; [VInt 2; VStr "CONTABILIDAD"]; [VInt 3; VStr "LIDERAZGO"] ]
  /\ dimension extracted "dim_competencia"
    = Some [ [VInt 1; VStr "EXCEL"]; [VInt 2; VStr "CONTABILIDAD"]; [VInt 3; VStr "LIDERAZGO"] ]
  /\ column_of (dimensions (run extracted).1) "dim_vacante" "id_vacante_original"
    = Some [VInt 1; VInt 2]
  /\ fact extracted "hechos_competencia_requerida"
    = Some [ [VInt 1; VInt 1]; [VInt 2; VInt 2] ].
Proof. vm_compute. repeat split; reflexivity. Qed.

(** C2 (the code departs from it).  Competencies reference the postings
    1, 2 and 3 and the job-posting dataset holds 1 and 2.  After
    [transform_all] the job-posting dataset of the object does end with a
    placeholder for posting 3 with zero vacancies, but dim_vacante has two
    rows, not three: it was built before the placeholder existed. *)
Theorem dim_vacante_lacks_placeholder :
  column_of extracted "competencias" "AVISOID" = Some [VInt 1; VInt 2; VInt 3]
  /\ column_of extracted "vacantes" "AVISOID" = Some [VInt 1; VInt 2]
  /\ column_of (datasets (run extracted).1) "vacantes" "AVISOID"
    = Some [VInt 1; VInt 2; VInt 3]
  /\ column_of (datasets (run extracted).1) "vacantes" "NOMBREAVISO"
    = Some [VStr "ANALISTA"; VStr "CONTADOR"; VStr "REGISTRO_HUERFANO_PRESERVADO"]
  /\ column_of (datasets (run extracted).1) "vacantes" "VACANTES"
    = Some [VInt 2; VInt 1; VInt 0]
  /\ (length <$> dimension extracted "dim_vacante") = Some 2%nat
  /\ column_of (dimensions (run extracted).1) "dim_vacante" "vacante_sk"
    = Some [VInt 1; VInt 2].
Proof. vm_compute. repeat split; reflexivity. Qed.

(** C3 (the code departs from it).  When a posting identifier occurs in
    two rows of the job-posting dataset, the left join of
    [_build_dim_vacante] back onto the dataset repeats the surrogate key:
    dim_vacante has two rows with vacante_sk 1. *)
Theorem dim_vacante_repeats_surrogate_key :
  column_of extracted_repetida "vacantes" "AVISOID" = Some [VInt 1; VInt 1]
  /\ column_of (dimensions (run extracted_repetida).1) "dim_vacante" "vacante_sk"
    = Some [VInt 1; VInt 1]
  /\ column_of (dimensions (run extracted_repetida).1) "dim_vacante" "num_vacantes"
    = Some [VInt 2; VInt 5].
Proof. vm_compute. repeat split; reflexivity. Qed.

(** C7 (the code departs from it).  The applicant dataset lacks its
    ID_POSTULANTE column: [_build_dim_postulante] raises KeyError instead
    of skipping the dimension, no warning is recorded, and
    [transform_all] gives up and returns nothing. *)
Theorem missing_column_aborts :
  (columns <$> extracted_sin_id !! "postulante")
    = Some ["EDAD"; "SEXO"; "UBIGEO"; "ESTADO_CONADIS"; "DEPARTAMENTO"; "PROVINCIA"; "DISTRITO"]
  /\ (run extracted_sin_id).2 = None
  /\ log (run extracted_sin_id).1 = [ErrorTransform (KeyError "ID_POSTULANTE")]
  /\ dimensions (run extracted_sin_id).1 !! "dim_postulante" = None.
Proof. vm_compute. repeat split; reflexivity. Qed.

(** The same abort with a dataset missing: without the job-posting
    dataset dim_empresa and dim_vacante are skipped with a warning each,
    and then [_build_hechos_competencia_requerida] raises KeyError on the
    dimension that was skipped. *)
Lemma missing_dataset_aborts :
  extracted_sin_vacantes !! "vacantes" = None
  /\ (run extracted_sin_vacantes).2 = None
  /\ log (run extracted_sin_vacantes).1
    = [ WarnDatasetUnavailable "vacantes"; WarnDatasetUnavailable "vacantes";
        WarnInsufficientDatasets; WarnDatasetUnavailable "vacantes";
        ErrorTransform (KeyError "dim_vacante") ].
Proof. vm_compute. repeat split; reflexivity. Qed.

(** C8 (the code departs from it).  The date columns of both datasets
    are there and hold no date.  The claim asks for a dim_tiempo without
    rows; [_build_dim_tiempo] raises AttributeError instead, on the [.dt]
    accessor of its empty column, and [transform_all] gives up: it
    returns nothing and no table is built. *)
Theorem no_date_aborts :
  column_of extracted_sin_fechas "vacantes" "FECHAINICIO" = Some [VNull; VNull]
  /\ column_of extracted_sin_fechas "vacantes" "FECHAFIN" = Some [VNull; VNull]
  /\ column_of extracted_sin_fechas "vacantes" "FECHACREACION" = Some [VNull; VNull]
  /\ column_of extracted_sin_fechas "educacion" "FECHAINICIO" = Some [VNull]
  /\ column_of extracted_sin_fechas "educacion" "FECHAFIN" = Some [VStr "EN CURSO"]
  /\ (_build_dim_tiempo (__init__ extracted_sin_fechas)).2
     = Raise (AttributeError "Can only use .dt accessor with datetimelike values")
  /\ (run extracted_sin_fechas).2 = None
  /\ log (run extracted_sin_fechas).1
     = [ErrorTransform
          (AttributeError "Can only use .dt accessor with datetimelike values")]
  /\ dimensions (run extracted_sin_fechas).1 = ∅
  /\ facts (run extracted_sin_fechas).1 = ∅.
Proof. vm_compute. repeat split; reflexivity. Qed.

End on_fixtures.
(** ** The extractor *)

Module extract_facts.

Import extract.

Section Extractor.

Context `{FileSystem}.

Lemma load_csv_ok self filename name df :
  _load_csv self filename name = Ok df ->
  path_exists (joinpath (cleaned_path self) filename) = true
  /\ read_csv (joinpath (cleaned_path self) filename) = Ok df
  /\ empty df = false.
Proof.
  unfold _load_csv.
  destruct (path_exists _); simpl; [|discriminate].
  destruct (read_csv _) as [df'|]; simpl; [|discriminate].
  destruct (empty df') eqn:He; [discriminate|].
  intros [= ->]. auto.
Qed.

(** What a loop that ran to its end has done: every file was there and
    parsed to a non-empty frame, and the mapping holds these frames next
    to what it held before. *)
Lemma load_files_ok files : forall self self',
  load_files files self = (self', Ok tt) ->
  cleaned_path self' = cleaned_path self
  /\ (forall name filename, (name, filename) ∈ files ->
        path_exists (joinpath (cleaned_path self) filename) = true
        /\ exists df, read_csv (joinpath (cleaned_path self) filename) = Ok df
                      /\ empty df = false)
  /\ (forall name, name ∈ files.*1 \/ is_Some (datasets self !! name) ->
        is_Some (datasets self' !! name))
  /\ (forall name df, datasets self' !! name = Some df ->
        (name ∈ files.*1 /\ empty df = false) \/ datasets self !! name = Some df).
Proof.
  induction files as [|[name filename] files IH]; intros self self' Hrun.
  - injection Hrun as <-. split; [done|]. split; [|split].
    + intros ? ? Hin. inversion Hin.
    + intros ? [Hin|Hs]; [inversion Hin|done].
    + intros ? ? ?. by right.
  - simpl in Hrun.
    destruct (_load_csv self filename name) as [df|] eqn:Hload; [|discriminate].
    apply load_csv_ok in Hload as (Hex & Hread & Hne).
    apply IH in Hrun as (Hpath & Hfiles & Hdom & Hget). simpl in *.
    split; [assumption|]. split; [|split].
    + intros n f Hin. apply elem_of_cons in Hin as [[= -> ->]|Hin]; eauto.
    + intros n Hin. apply Hdom.
      destruct (decide (n = name)) as [->|Hneq].
      * right. rewrite lookup_insert_eq. eauto.
      * destruct Hin as [Hin|Hs].
        -- apply elem_of_cons in Hin as [?|Hin]; [done|by left].
        -- right. by rewrite lookup_insert_ne.
    + intros n d Hd. apply Hget in Hd as [[Hin Hd]|Hd].
      * left. split; [|assumption]. by apply elem_of_cons; right.
      * destruct (decide (name = n)) as [->|Hneq].
        -- rewrite lookup_insert_eq in Hd. injection Hd as <-.
           left. split; [apply elem_of_cons; by left|assumption].
        -- rewrite lookup_insert_ne in Hd by assumption. by right.
Qed.

(** A loop that stops at a file leaves no result. *)
Lemma load_files_raise files self :
  (exists name filename, (name, filename) ∈ files
     /\ forall df, _load_csv self filename name <> Ok df) ->
  exists self' e, load_files files self = (self', Raise e).
Proof.
  revert self. induction files as [|[n f] files IH]; intros self (name & filename & Hin & Hbad).
  - inversion Hin.
  - simpl. destruct (_load_csv self f n) as [df|e] eqn:Hload; [|eauto].
    apply elem_of_cons in Hin as [[= -> ->]|Hin]; [by destruct (Hbad df)|].
    apply IH. exists name, filename. split; [assumption|].
    intros df'. apply Hbad.
Qed.

Lemma empty_no_rows (df : DataFrame) : rows df = [] -> empty df = true.
Proof. unfold empty. intros ->. by destruct (columns df). Qed.

Lemma empty_false_rows (df : DataFrame) : empty df = false -> rows df <> [].
Proof. intros He Hr. apply empty_no_rows in Hr. congruence. Qed.

Lemma init_ok path self :
  __init__ path = Ok self ->
  cleaned_path self = default default_cleaned_path path /\ datasets self = ∅.
Proof.
  unfold __init__, _validate_paths. simpl.
  destruct (path_exists _); simpl; [|discriminate]. by intros [= <-].
Qed.

(** C6.  Extraction fails when the directory is missing (the constructor
    raises FileNotFoundError), when one of the six expected files is
    missing, or when one of them loads to a frame without rows (both make
    [extract_all] return None).  A failure returns no mapping at all; a
    mapping that is returned has exactly the six expected names, each
    bound to a frame with at least one row. *)
Theorem extraction_is_all_or_nothing (path : option string) :
  let dir := default default_cleaned_path path in
  (path_exists dir = false -> __init__ path = Raise (FileNotFoundError dir))
  /\ forall self, __init__ path = Ok self ->
       (forall name filename, (name, filename) ∈ EXPECTED_FILES ->
          path_exists (joinpath dir filename) = false ->
          (extract_all self).2 = None)
       /\ (forall name filename df, (name, filename) ∈ EXPECTED_FILES ->
            read_csv (joinpath dir filename) = Ok df -> rows df = [] ->
            (extract_all self).2 = None)
       /\ (forall ds, (extract_all self).2 = Some ds ->
            (forall name, is_Some (ds !! name) <-> name ∈ EXPECTED_FILES.*1)
            /\ forall name df, ds !! name = Some df -> rows df <> []).
Proof.
  intros dir. split.
  { intros Hno. unfold __init__, _validate_paths. simpl. fold dir. by rewrite Hno. }
  intros self Hinit. apply init_ok in Hinit as [Hdir Hempty]. fold dir in Hdir.
  assert (Hfail : forall name filename, (name, filename) ∈ EXPECTED_FILES ->
            (forall df, _load_csv self filename name <> Ok df) ->
            (extract_all self).2 = None).
  { intros name filename Hin Hbad. unfold extract_all.
    destruct (load_files_raise EXPECTED_FILES self) as (self' & e & ->); [eauto|done]. }
  split; [|split].
  - intros name filename Hin Hno. apply (Hfail name filename Hin).
    intros df Hload. apply load_csv_ok in Hload as (Hex & _). congruence.
  - intros name filename df Hin Hread Hrows. apply (Hfail name filename Hin).
    intros df' Hload. apply load_csv_ok in Hload as (_ & Hread' & Hne).
    rewrite Hdir, Hread in Hread'. injection Hread' as <-.
    apply empty_no_rows in Hrows. congruence.
  - intros ds. unfold extract_all.
    destruct (load_files EXPECTED_FILES self) as [self' [[]|e]] eqn:Hrun; [|discriminate].
    destruct (_validate_extraction self'); [|discriminate]. simpl. intros [= <-].
    apply load_files_ok in Hrun as (_ & _ & Hdom & Hget). split.
    + intros name. split.
      * intros [df Hdf]. apply Hget in Hdf as [[Hin _]|Hold]; [assumption|].
        rewrite Hempty, lookup_empty in Hold. discriminate.
      * intros Hin. apply Hdom. by left.
    + intros name df Hdf. apply Hget in Hdf as [[_ Hne]|Hold].
      * by apply empty_false_rows.
      * rewrite Hempty, lookup_empty in Hold. discriminate.
Qed.

End Extractor.

(** The theorem at work: without a directory the constructor raises; in
    the complete directory extraction returns the six datasets; without
    the competency file, or with files that hold only a header, it
    returns None. *)
Lemma extraction_is_all_or_nothing_witness :
  __init__ (H := disk.nothing) None = Raise (FileNotFoundError "data/cleaned")
  /\ (exists ds,
        (extract_all (H := disk.complete) (mkExtractor "data/cleaned" ∅)).2 = Some ds
        /\ (forall name, is_Some (ds !! name) <-> name ∈ EXPECTED_FILES.*1)
        /\ forall name df, ds !! name = Some df -> rows df <> [])
  /\ (extract_all (H := disk.without_competencias) (mkExtractor "data/cleaned" ∅)).2 = None
  /\ (extract_all (H := disk.headers_only) (mkExtractor "data/cleaned" ∅)).2 = None.
Proof.
  split; [|split; [|split]].
  - apply (extraction_is_all_or_nothing (H := disk.nothing) None). reflexivity.
  - destruct (extraction_is_all_or_nothing (H := disk.complete) None) as [_ Hok].
    destruct (Hok (mkExtractor "data/cleaned" ∅) eq_refl) as (_ & _ & Hsome).
    eexists. split; [reflexivity|]. apply Hsome. reflexivity.
  - destruct (extraction_is_all_or_nothing (H := disk.without_competencias) None) as [_ Hok].
    destruct (Hok (mkExtractor "data/cleaned" ∅) eq_refl) as (Hfile & _ & _).
    apply (Hfile "competencias" "competencias_clean.csv"); [|reflexivity].
    unfold EXPECTED_FILES. repeat constructor.
  - destruct (extraction_is_all_or_nothing (H := disk.headers_only) None) as [_ Hok].
    destruct (Hok (mkExtractor "data/cleaned" ∅) eq_refl) as (_ & Hrows & _).
    apply (Hrows "postulante" "postulante_clean.csv" (mkDF ["ID"] []));
      [|reflexivity|reflexivity].
    unfold EXPECTED_FILES. repeat constructor.
Defined.

End extract_facts.
(** ** Cells and records *)

Module pd_facts.

Lemma cell_insert (r : Row) (c c' : string) (v : value) :
  cell (<[c := v]> r) c' = if decide (c = c') then v else cell r c'.
Proof.
  unfold cell. destruct (decide (c = c')) as [->|Hne].
  - by rewrite lookup_insert_eq.
  - by rewrite lookup_insert_ne.
Qed.

Lemma cell_insert_eq (r : Row) (c : string) (v : value) : cell (<[c := v]> r) c = v.
Proof. rewrite cell_insert. by destruct (decide (c = c)). Qed.

Lemma cell_insert_ne (r : Row) (c c' : string) (v : value) :
  c <> c' -> cell (<[c := v]> r) c' = cell r c'.
Proof. intros Hne. rewrite cell_insert. by destruct (decide (c = c')). Qed.

Lemma lookup_project (cs : list string) (r : Row) (c : string) :
  project cs r !! c = if decide (c ∈ cs) then Some (cell r c) else None.
Proof.
  unfold project. induction cs as [|c0 cs IH].
  - simpl. rewrite lookup_empty. destruct (decide (c ∈ [])) as [Hin|]; [inversion Hin|done].
  - rewrite fmap_cons, list_to_map_cons.
    destruct (decide (c0 = c)) as [->|Hne].
    + rewrite lookup_insert_eq. destruct (decide (c ∈ c :: cs)) as [|Hn]; [done|].
      destruct Hn. constructor.
    + rewrite lookup_insert_ne by done. rewrite IH.
      destruct (decide (c ∈ cs)) as [Hin|Hn], (decide (c ∈ c0 :: cs)) as [Hin'|Hn']; try done.
      * destruct Hn'. by constructor.
      * apply elem_of_cons in Hin' as [->|?]; done.
Qed.

Lemma cell_project (cs : list string) (r : Row) (c : string) :
  cell (project cs r) c = if decide (c ∈ cs) then cell r c else VNull.
Proof. unfold cell at 1. rewrite lookup_project. by destruct (decide (c ∈ cs)). Qed.

Lemma cell_project_in (cs : list string) (r : Row) (c : string) :
  c ∈ cs -> cell (project cs r) c = cell r c.
Proof. intros Hin. rewrite cell_project. by destruct (decide (c ∈ cs)). Qed.

Lemma has_column_true (df : DataFrame) (c : string) :
  has_column df c = true <-> c ∈ columns df.
Proof. unfold has_column. apply bool_decide_eq_true. Qed.

Lemma has_column_false (df : DataFrame) (c : string) :
  has_column df c = false <-> c ∉ columns df.
Proof. unfold has_column. apply bool_decide_eq_false. Qed.

(** ** Keeping first occurrences *)

Section KeepFirst.

Context {A K : Type} `{EqDecision K} (key : A -> K).

Lemma keep_first_sublist (l : list A) : forall seen,
  keep_first key seen l `sublist_of` l.
Proof.
  induction l as [|x l IH]; intros seen; simpl; [constructor|].
  destruct (decide (key x ∈ seen)).
  - by apply sublist_cons.
  - by apply sublist_skip.
Qed.

Lemma keep_first_elem (l : list A) : forall seen x,
  x ∈ keep_first key seen l -> x ∈ l /\ key x ∉ seen.
Proof.
  induction l as [|y l IH]; intros seen x; simpl; [by inversion 1|].
  destruct (decide (key y ∈ seen)) as [Hs|Hs].
  - intros Hin. apply IH in Hin as [Hin Hk]. split; [by right|done].
  - intros Hin. apply elem_of_cons in Hin as [->|Hin]; [split; [by left|done]|].
    apply IH in Hin as [Hin Hk]. split; [by right|].
    intros Hx. apply Hk. by right.
Qed.

(** The kept elements have pairwise different keys. *)
Lemma keep_first_NoDup (l : list A) : forall seen,
  NoDup (key <$> keep_first key seen l).
Proof.
  induction l as [|x l IH]; intros seen; simpl; [constructor|].
  destruct (decide (key x ∈ seen)); [apply IH|].
  simpl. constructor; [|apply IH].
  intros Hin. apply list_elem_of_fmap in Hin as (y & Hy & Hin).
  apply keep_first_elem in Hin as [_ Hk]. apply Hk. rewrite <- Hy. by left.
Qed.

(** Every key of the source that was not seen before is kept. *)
Lemma keep_first_covers (l : list A) : forall seen x,
  x ∈ l -> key x ∉ seen -> key x ∈ key <$> keep_first key seen l.
Proof.
  induction l as [|y l IH]; intros seen x Hin Hk; [by inversion Hin|]. simpl.
  apply elem_of_cons in Hin as [->|Hin].
  - destruct (decide (key y ∈ seen)); [done|]. simpl. by left.
  - destruct (decide (key y ∈ seen)); [by apply IH|]. simpl.
    destruct (decide (key x = key y)) as [->|Hne]; [by left|].
    right. apply IH; [done|]. intros Hx. apply elem_of_cons in Hx as [?|?]; done.
Qed.

(** A kept element is the first of the source with its key. *)
Lemma keep_first_is_first (l : list A) : forall seen x,
  x ∈ keep_first key seen l ->
  exists i, list_find (fun y => key y = key x) l = Some (i, x).
Proof.
  induction l as [|y l IH]; intros seen x; simpl; [by inversion 1|].
  destruct (decide (key y ∈ seen)) as [Hs|Hs]; intros Hin.
  - destruct (IH _ _ Hin) as [i Hi].
    apply keep_first_elem in Hin as [_ Hk].
    destruct (decide (key y = key x)) as [Heq|Hne]; [congruence|].
    exists (S i). by rewrite Hi.
  - apply elem_of_cons in Hin as [->|Hin].
    + exists 0%nat. by destruct (decide (key y = key y)).
    + destruct (IH _ _ Hin) as [i Hi].
      apply keep_first_elem in Hin as [_ Hk].
      destruct (decide (key y = key x)) as [Heq|Hne].
      * destruct Hk. rewrite Heq. by left.
      * exists (S i). by rewrite Hi.
Qed.

End KeepFirst.

Lemma elem_of_keep_first_id {A} `{EqDecision A} (l : list A) (x : A) :
  x ∈ keep_first id [] l <-> x ∈ l.
Proof.
  split.
  - intros Hin. by apply keep_first_elem in Hin as [? _].
  - intros Hin. pose proof (keep_first_covers id l [] x Hin) as Hc.
    rewrite list_fmap_id in Hc. apply Hc. by inversion 1.
Qed.

Lemma NoDup_keep_first_id {A} `{EqDecision A} (l : list A) :
  NoDup (keep_first id [] l).
Proof.
  pose proof (keep_first_NoDup id l []) as Hn. by rewrite list_fmap_id in Hn.
Qed.

Lemma elem_of_unique (s : list value) (v : value) : v ∈ unique s <-> v ∈ s.
Proof. apply elem_of_keep_first_id. Qed.

Lemma NoDup_unique (s : list value) : NoDup (unique s).
Proof. apply NoDup_keep_first_id. Qed.

Lemma elem_of_series_dropna (s : list value) (v : value) :
  v ∈ series_dropna s <-> v ∈ s /\ v <> VNull.
Proof.
  unfold series_dropna. rewrite !list_elem_of_In, filter_In.
  unfold notna. destruct v; simpl; intuition congruence.
Qed.

Lemma elem_of_union_columns (dfs : list DataFrame) (c : string) :
  c ∈ union_columns dfs <-> exists df, df ∈ dfs /\ c ∈ columns df.
Proof.
  unfold union_columns. rewrite elem_of_keep_first_id, list_elem_of_bind.
  split; intros (df & H1 & H2); eauto.
Qed.

Lemma concat_two (a b : DataFrame) :
  concat [a; b]
  = Ok (mkDF (union_columns [a; b])
          (((fun r => project (union_columns [a; b]) (project (columns a) r)) <$> rows a)
           ++ ((fun r => project (union_columns [a; b]) (project (columns b) r)) <$> rows b))).
Proof.
  unfold concat. f_equal. f_equal. simpl.
  by rewrite app_nil_r, <- !list_fmap_compose.
Qed.

Lemma elem_of_avisos (s : list value) (v : value) :
  v ∈ avisos s <-> v ∈ s /\ v <> VNull.
Proof.
  unfold avisos. by rewrite elem_of_list_to_set, elem_of_unique, elem_of_series_dropna.
Qed.

End pd_facts.
Module reconcile_facts.
Import pd_facts.

(** The state after a reconciliation that found both AVISOID columns. *)
Lemma reconcile_run today self df_comp df_vac :
  datasets self !! "competencias" = Some df_comp ->
  datasets self !! "vacantes" = Some df_vac ->
  "AVISOID" ∈ columns df_comp ->
  "AVISOID" ∈ columns df_vac ->
  let avisos_comp := avisos ((fun r => cell r "AVISOID") <$> rows df_comp) in
  let avisos_vac := avisos ((fun r => cell r "AVISOID") <$> rows df_vac) in
  let huerfanos := avisos_comp ∖ avisos_vac in
  let pct : Q :=
    if decide (0 < size avisos_comp)%nat
    then float64.to_Q
           (float64.mul
              (float64.truediv (Z.of_nat (size huerfanos)) (Z.of_nat (size avisos_comp)))
              (float64.of_int 100))
    else 0%Q in
  let stats :=
    <["competencias_pct" := pct]>
      (<["competencias_total" := inject_Z (Z.of_nat (size avisos_comp))]>
         (<["competencias_huerfanos" := inject_Z (Z.of_nat (size huerfanos))]>
            (orphan_stats self))) in
  _reconcile_orphans today self =
    if decide (0 < size huerfanos)%nat then
      match concat [df_vac; vacante_placeholder (elements huerfanos) today] with
      | Ok vacantes =>
          (mkTransformer (<["vacantes" := vacantes]> (datasets self)) (dimensions self)
             (facts self) stats (log self ++ [WarnOrphans (size huerfanos) pct]), Ok tt)
      | Raise e =>
          (mkTransformer (datasets self) (dimensions self)
             (facts self) (orphan_stats self)
             (log self ++ [WarnOrphans (size huerfanos) pct]), Raise e)
      end
    else
      (mkTransformer (datasets self) (dimensions self) (facts self) stats (log self), Ok tt).
Proof.
  intros Hcomp Hvac Hc Hv. intros.
  unfold _reconcile_orphans, bind, get. rewrite Hcomp, Hvac.
  unfold lift, getitem.
  apply has_column_true in Hc, Hv. rewrite Hc, Hv.
  fold avisos_comp avisos_vac. fold huerfanos. fold pct.
  destruct (decide (0 < size huerfanos)%nat).
  - unfold warning, set_dataset, set_orphan_stat, ret. simpl.
    reflexivity.
  - unfold ret, set_orphan_stat. simpl. reflexivity.
Qed.




(** The percentage is a float.  For the one orphan among the three
    postings of the fixture the record holds 33.33333333333333, which is
    2345624805922133 / 2^46 and not 100/3; for 7 orphans among 25
    postings Python computes 28.000000000000004, which is 28 + 2^-48;
    for 3 among 5 it computes 60. *)
Lemma percentage_is_a_float :
  orphan_stats (_reconcile_orphans fixture.today (__init__ fixture.extracted)).1
    !! "competencias_pct"
  = Some (2345624805922133 # 70368744177664)
  /\ ~ (2345624805922133 # 70368744177664 == 100 # 3)%Q
  /\ float64.to_Q (float64.mul (float64.truediv 7 25) (float64.of_int 100))
     = 7881299347898369 # 281474976710656
  /\ (7881299347898369 # 281474976710656 == 28 + (1 # 281474976710656))%Q
  /\ float64.to_Q (float64.mul (float64.truediv 3 5) (float64.of_int 100)) = 60%Q.
Proof.
  split; [vm_compute; reflexivity|].
  split; [intros Heq; vm_compute in Heq; discriminate|].
  split; [vm_compute; reflexivity|].
  split; vm_compute; reflexivity.
Qed.

Lemma avisos_subset (comp_ids vac_ids : list value) :
  (forall id, id ∈ comp_ids -> id <> VNull -> id ∈ vac_ids) ->
  size (avisos comp_ids ∖ avisos vac_ids) = 0%nat.
Proof.
  intros Hsub. apply size_empty_iff. intros id.
  rewrite elem_of_difference, !elem_of_avisos. split; [|by inversion 1].
  intros [[Hin Hnn] Hout]. destruct Hout. auto.
Qed.

(** C10.  [_reconcile_orphans] leaves every dataset but the job-posting
    one as it was, and the dimensions and the facts too.  When both
    datasets are there and every non-null posting identifier of the
    competency dataset occurs in the job-posting dataset, the whole
    dataset mapping and the log are as before: the call writes the
    statistics record and nothing else. *)
Theorem reconcile_frame today self :
  let self' := (_reconcile_orphans today self).1 in
  (forall name, name <> "vacantes" -> datasets self' !! name = datasets self !! name)
  /\ dimensions self' = dimensions self
  /\ facts self' = facts self
  /\ (forall df_comp df_vac,
        datasets self !! "competencias" = Some df_comp ->
        datasets self !! "vacantes" = Some df_vac ->
        (forall id, id ∈ (fun r => cell r "AVISOID") <$> rows df_comp -> id <> VNull ->
                    id ∈ (fun r => cell r "AVISOID") <$> rows df_vac) ->
        datasets self' = datasets self /\ log self' = log self).
Proof.
  intros self'. subst self'.
  destruct (datasets self !! "competencias") as [df_comp|] eqn:Hcomp;
    [destruct (datasets self !! "vacantes") as [df_vac|] eqn:Hvac|].
  - destruct (has_column df_comp "AVISOID") eqn:Hc;
      [destruct (has_column df_vac "AVISOID") eqn:Hv|].
    + apply has_column_true in Hc, Hv.
      rewrite (reconcile_run today self df_comp df_vac Hcomp Hvac Hc Hv).
      rewrite concat_two.
      destruct (decide _) as [Hpos|Hzero]; cbn [fst datasets dimensions facts log].
      * split; [intros name Hne; by rewrite lookup_insert_ne|].
        split; [done|]. split; [done|].
        intros ? ? [= <-] [= <-] Hsub. apply avisos_subset in Hsub. lia.
      * repeat split; done.
    + unfold _reconcile_orphans, bind, get, lift, getitem. rewrite Hcomp, Hvac, Hc, Hv.
      repeat split; done.
    + unfold _reconcile_orphans, bind, get, lift, getitem. rewrite Hcomp, Hvac, Hc.
      repeat split; done.
  - unfold _reconcile_orphans, bind, get, warning. rewrite Hcomp, Hvac.
    cbn [fst datasets dimensions facts]. repeat split; done.
  - unfold _reconcile_orphans, bind, get, warning. rewrite Hcomp.
    cbn [fst datasets dimensions facts]. repeat split; done.
Qed.

(** The theorem on the fixture (the datasets other than the job-posting
    one after an orphan was found) and on the fixture whose competency
    dataset is the job-posting dataset itself (no orphan). *)
Lemma reconcile_frame_witness :
  datasets (_reconcile_orphans fixture.today (__init__ fixture.extracted)).1 !! "competencias"
    = Some fixture.competencias
  /\ datasets (_reconcile_orphans fixture.today
                (__init__ (<["competencias" := fixture.vacantes]> fixture.extracted))).1
     = <["competencias" := fixture.vacantes]> fixture.extracted.
Proof.
  split.
  - etransitivity;
      [apply (reconcile_frame fixture.today (__init__ fixture.extracted)); discriminate|].
    reflexivity.
  - destruct (reconcile_frame fixture.today
             (__init__ (<["competencias" := fixture.vacantes]> fixture.extracted)))
      as (_ & _ & _ & Hsame).
    apply (Hsame fixture.vacantes fixture.vacantes).
    + reflexivity.
    + reflexivity.
    + intros id Hin _. exact Hin.
Defined.

End reconcile_facts.
(** ** What the frame operations return *)

Module pd_results.

Import pd_facts.

Lemma missing_label_None (df : DataFrame) (cs : list string) :
  (forall c, c ∈ cs -> c ∈ columns df) -> missing_label df cs = None.
Proof.
  intros Hall. unfold missing_label.
  destruct (list_find _ cs) as [[i c]|] eqn:Hfind; [|done].
  apply list_find_Some in Hfind as (Hi & Hmiss & _).
  destruct Hmiss. apply Hall. by eapply list_elem_of_lookup_2.
Qed.

Lemma missing_label_Some (df : DataFrame) (cs : list string) (c : string) :
  missing_label df cs = Some c -> c ∈ cs /\ c ∉ columns df.
Proof.
  unfold missing_label.
  destruct (list_find _ cs) as [[i c']|] eqn:Hfind; [|done].
  intros [= <-]. apply list_find_Some in Hfind as (Hi & Hmiss & _).
  split; [by eapply list_elem_of_lookup_2|done].
Qed.

Lemma missing_label_None_inv (df : DataFrame) (cs : list string) :
  missing_label df cs = None -> forall c, c ∈ cs -> c ∈ columns df.
Proof.
  unfold missing_label.
  destruct (list_find _ cs) as [[i c']|] eqn:Hfind; [done|]. intros _ c Hin.
  apply list_find_None in Hfind. rewrite Forall_forall in Hfind.
  specialize (Hfind c Hin). by apply dec_stable.
Qed.

Lemma select_ok (df : DataFrame) (cs : list string) :
  (forall c, c ∈ cs -> c ∈ columns df) ->
  select df cs = Ok (mkDF cs (project cs <$> rows df)).
Proof. intros Hall. unfold select. by rewrite missing_label_None. Qed.

Lemma select_inv (df df' : DataFrame) (cs : list string) :
  select df cs = Ok df' ->
  (forall c, c ∈ cs -> c ∈ columns df) /\ df' = mkDF cs (project cs <$> rows df).
Proof.
  unfold select. destruct (missing_label df cs) eqn:Hm; [done|]. intros [= <-].
  split; [by apply missing_label_None_inv|done].
Qed.

(** Dropping duplicates under a non-empty subset that the frame has:
    the first row of every key, whether or not the frame is empty. *)
Lemma drop_duplicates_subset (df : DataFrame) (c : string) (cs : list string) :
  (forall c', c' ∈ c :: cs -> c' ∈ columns df) ->
  exists df', drop_duplicates (Some (c :: cs)) df = Ok df'
    /\ columns df' = columns df
    /\ rows df' = keep_first (key_of (c :: cs)) [] (rows df).
Proof.
  intros Hall. unfold drop_duplicates.
  destruct (empty df) eqn:He.
  - exists df. repeat split. unfold empty in He.
    destruct (columns df) eqn:Hc.
    + specialize (Hall c (list_elem_of_here _ _)). inversion Hall.
    + destruct (rows df); [done|discriminate].
  - simpl. rewrite missing_label_None by done. eexists. repeat split.
Qed.

Lemma insert_range_ok (df : DataFrame) (name : string) :
  name ∉ columns df ->
  insert_range name df
  = Ok (mkDF (name :: columns df)
          (zip_with (fun i r => <[name := VInt i]> r) (range1 (len df)) (rows df))).
Proof.
  intros Hn. unfold insert_range. apply has_column_false in Hn. by rewrite Hn.
Qed.

Lemma lookup_range1 (n i : nat) :
  (i < n)%nat -> range1 n !! i = Some (Z.of_nat i + 1).
Proof.
  intros Hi. unfold range1. rewrite list_lookup_fmap, lookup_seq_lt by done.
  simpl. f_equal. lia.
Qed.

Lemma length_range1 (n : nat) : length (range1 n) = n.
Proof. unfold range1. by rewrite length_fmap, length_seq. Qed.

(** Row [i] of a frame after [insert_range]: the old row with [i + 1]
    under the new label. *)
Lemma lookup_numbered (name : string) (rs : list Row) (i : nat) (r : Row) :
  zip_with (fun i r => <[name := VInt i]> r) (range1 (length rs)) rs !! i = Some r
  <-> exists r0, rs !! i = Some r0 /\ r = <[name := VInt (Z.of_nat i + 1)]> r0.
Proof.
  rewrite lookup_zip_with_Some. split.
  - intros (z & r0 & -> & Hz & Hr). exists r0. split; [done|].
    rewrite lookup_range1 in Hz by (by eapply lookup_lt_Some). by injection Hz as <-.
  - intros (r0 & Hr & ->). exists (Z.of_nat i + 1), r0. split; [done|].
    split; [|done]. apply lookup_range1. by eapply lookup_lt_Some.
Qed.

(** Records relabelled by a function of the labels. *)
Lemma lookup_relabel_fmap (f : string -> string) (old : list string) (r : Row) (c : string) :
  c ∈ old -> (forall c', c' ∈ old -> f c' = f c -> c' = c) ->
  cell (relabel old (f <$> old) r) (f c) = cell r c.
Proof.
  intros Hin Hinj. unfold relabel, cell at 1.
  induction old as [|c0 old IH]; [inversion Hin|].
  rewrite !fmap_cons. cbn [zip zip_with]. rewrite list_to_map_cons.
  destruct (decide (f c0 = f c)) as [Heq|Hne].
  - rewrite Heq, lookup_insert_eq. simpl. f_equal. f_equal.
    apply Hinj; [by left|done].
  - rewrite lookup_insert_ne by done. apply IH.
    + apply elem_of_cons in Hin as [->|?]; done.
    + intros c' Hc'. apply Hinj. by right.
Qed.

Lemma keep_first_fmap {A B K} `{EqDecision K} (key : B -> K) (g : A -> B) (l : list A) :
  forall seen, keep_first key seen (g <$> l) = g <$> keep_first (key ∘ g) seen l.
Proof.
  induction l as [|x l IH]; intros seen; [done|]. rewrite fmap_cons. simpl.
  destruct (decide (key (g x) ∈ seen)); [apply IH|]. rewrite fmap_cons. f_equal. apply IH.
Qed.

Lemma keep_first_ext {A K} `{EqDecision K} (key key' : A -> K) (l : list A) :
  (forall x, key x = key' x) -> forall seen, keep_first key seen l = keep_first key' seen l.
Proof.
  intros Hext. induction l as [|x l IH]; intros seen; [done|]. simpl.
  rewrite Hext. destruct (decide _); [apply IH|]. f_equal. apply IH.
Qed.

Lemma keep_first_inj {A K K'} `{EqDecision K, EqDecision K'}
    (h : K -> K') `{!Inj (=) (=) h} (key : A -> K) (l : list A) :
  forall seen, keep_first (h ∘ key) (h <$> seen) l = keep_first key seen l.
Proof.
  induction l as [|x l IH]; intros seen; [done|]. simpl.
  destruct (decide (h (key x) ∈ h <$> seen)) as [Hin|Hn],
           (decide (key x ∈ seen)) as [Hin'|Hn'].
  - apply IH.
  - destruct Hn'. apply list_elem_of_fmap in Hin as (k & Hk & Hin).
    apply (inj h) in Hk. by subst.
  - destruct Hn. apply list_elem_of_fmap. eauto.
  - f_equal. apply (IH (key x :: seen)).
Qed.

(** The keys of what is kept are the distinct keys of the source, in
    order of first appearance. *)
Lemma keys_keep_first {A K} `{EqDecision K} (key : A -> K) (l : list A) :
  forall seen, key <$> keep_first key seen l = keep_first id seen (key <$> l).
Proof.
  induction l as [|x l IH]; intros seen; [done|]. rewrite fmap_cons. simpl.
  destruct (decide (key x ∈ seen)); [apply IH|]. rewrite fmap_cons. f_equal. apply IH.
Qed.

End pd_results.
(** ** Running a method step by step *)

Module method_facts.

Lemma bind_get {B} (k : DataTransformer -> M B) self : bind get k self = k self self.
Proof. reflexivity. Qed.

Lemma bind_ret {A B} (a : A) (k : A -> M B) self : bind (ret a) k self = k a self.
Proof. reflexivity. Qed.

Lemma bind_lift {A B} (r : result A) (k : A -> M B) self :
  bind (lift r) k self
  = match r with Ok a => k a self | Raise e => (self, Raise e) end.
Proof. unfold bind, lift. by destruct r. Qed.

Lemma bind_assoc {A B C} (m : M A) (k : A -> M B) (k' : B -> M C) self :
  bind (bind m k) k' self = bind m (fun a => bind (k a) k') self.
Proof. unfold bind. destruct (m self) as [self1 [a|e]]; [|done]. done. Qed.

(** A method that returned went through each of its two halves. *)
Lemma bind_ok {A B} (m : M A) (k : A -> M B) self self' b :
  bind m k self = (self', Ok b) ->
  exists a self1, m self = (self1, Ok a) /\ k a self1 = (self', Ok b).
Proof.
  unfold bind. destruct (m self) as [self1 [a|e]]; [eauto|discriminate].
Qed.

Lemma lift_ok {A} (r : result A) self self' a :
  lift r self = (self', Ok a) -> self' = self /\ r = Ok a.
Proof. unfold lift. by intros [= -> ->]. Qed.

End method_facts.

(** ** dim_postulante *)

Module dim_postulante_facts.

Import pd_facts pd_results method_facts.

Abbreviation new_label := (renamed_label postulante_labels).

Lemma new_label_inj (c c' : string) :
  c ∈ "postulante_sk" :: postulante_labels.*1 -> c' ∈ "postulante_sk" :: postulante_labels.*1 ->
  new_label c' = new_label c -> c' = c.
Proof.
  intros Hc Hc'. unfold postulante_labels in *. simpl in Hc, Hc'.
  repeat (apply elem_of_cons in Hc as [->|Hc]);
    repeat (apply elem_of_cons in Hc' as [->|Hc']);
    try (by inversion Hc); try (by inversion Hc');
    vm_compute; congruence.
Qed.

(** C9.  With the applicant dataset and its ID_POSTULANTE column there,
    [_build_dim_postulante] returns normally; the natural keys of
    dim_postulante are the distinct applicant identifiers of the
    dataset, each once, in order of first appearance, so there are as
    many rows as distinct identifiers; row [i] (counted from 0) has the
    surrogate key [i + 1]; and the attributes of a row are those of the
    first row of the dataset with its identifier. *)
Theorem dim_postulante_keeps_first_row_per_applicant self df_post :
  datasets self !! "postulante" = Some df_post ->
  "ID_POSTULANTE" ∈ columns df_post ->
  let ids := (fun r => cell r "ID_POSTULANTE") <$> rows df_post in
  exists self' dim,
    _build_dim_postulante self = (self', Ok tt)
    /\ dimensions self' !! "dim_postulante" = Some dim
    /\ (fun d => cell d "id_postulante_original") <$> rows dim = unique ids
    /\ NoDup (unique ids)
    /\ (forall id, id ∈ unique ids <-> id ∈ ids)
    /\ length (rows dim) = size (list_to_set (C := gset value) ids)
    /\ forall i d, rows dim !! i = Some d ->
         cell d "postulante_sk" = VInt (Z.of_nat i + 1)
         /\ exists j r,
              list_find (fun r => cell r "ID_POSTULANTE" = cell d "id_postulante_original")
                (rows df_post) = Some (j, r)
              /\ forall src dst, (src, dst) ∈ postulante_labels -> src ∈ columns df_post ->
                   cell d dst = cell r src.
Proof.
  intros Hpost Hid ids.
  set (cols_needed := ["ID_POSTULANTE"; "EDAD"; "SEXO"; "UBIGEO"; "ESTADO_CONADIS"]).
  set (cols := List.filter (has_column df_post) cols_needed).
  assert (Hcols : forall c, c ∈ cols <-> c ∈ cols_needed /\ c ∈ columns df_post).
  { intros c. unfold cols. rewrite !list_elem_of_In, filter_In, <- !list_elem_of_In.
    by rewrite has_column_true. }
  assert (Hidc : "ID_POSTULANTE" ∈ cols) by (apply Hcols; split; [by left|done]).
  assert (Hsk : "postulante_sk" ∉ cols).
  { intros Hin. apply Hcols in Hin as [Hin _].
    unfold cols_needed in Hin. repeat (apply elem_of_cons in Hin as [?|Hin]; [done|]).
    inversion Hin. }
  set (d1 := mkDF cols (project cols <$> rows df_post)).
  destruct (drop_duplicates_subset d1 "ID_POSTULANTE" []) as (d2 & Hdd & Hc2 & Hr2).
  { intros c Hc. apply elem_of_cons in Hc as [->|Hc]; [done|inversion Hc]. }
  set (kept := keep_first (fun r => cell r "ID_POSTULANTE") [] (rows df_post)).
  assert (Hrows2 : rows d2 = project cols <$> kept).
  { rewrite Hr2. unfold d1. cbn [rows]. rewrite keep_first_fmap.
    f_equal. unfold kept.
    rewrite <- (keep_first_inj (fun v : value => [v]) (fun r => cell r "ID_POSTULANTE")).
    apply keep_first_ext. intros r. unfold key_of. simpl. by rewrite cell_project_in. }
  set (old := "postulante_sk" :: cols).
  set (numbered := zip_with (fun i r => <["postulante_sk" := VInt i]> r)
                     (range1 (len d2)) (rows d2)).
  set (dim := mkDF (new_label <$> old) (relabel old (new_label <$> old) <$> numbered)).
  assert (Hrun : _build_dim_postulante self
                 = (mkTransformer (datasets self) (<["dim_postulante" := dim]> (dimensions self))
                      (facts self) (orphan_stats self) (log self), Ok tt)).
  { unfold _build_dim_postulante. rewrite bind_get, Hpost.
    fold cols_needed. fold cols. rewrite bind_lift, select_ok by (intros c Hc; by apply Hcols).
    fold d1. rewrite bind_lift, Hdd. rewrite bind_lift, insert_range_ok by (by rewrite Hc2).
    rewrite Hc2. reflexivity. }
  assert (Hold : forall c, c ∈ old -> c ∈ "postulante_sk" :: postulante_labels.*1).
  { intros c Hc. apply elem_of_cons in Hc as [->|Hc]; [by left|].
    right. by apply Hcols in Hc as [Hc _]. }
  assert (Hrow : forall i d, rows dim !! i = Some d ->
            exists r, kept !! i = Some r
              /\ cell d "postulante_sk" = VInt (Z.of_nat i + 1)
              /\ forall c, c ∈ cols -> cell d (new_label c) = cell r c).
  { intros i d Hd. unfold dim in Hd. cbn [rows] in Hd.
    rewrite list_lookup_fmap in Hd.
    destruct (numbered !! i) as [r3|] eqn:Hr3; [|discriminate]. injection Hd as <-.
    unfold numbered, len in Hr3. apply lookup_numbered in Hr3 as (r2 & Hr2' & ->).
    rewrite Hrows2, list_lookup_fmap in Hr2'.
    destruct (kept !! i) as [r|] eqn:Hr; [|discriminate]. injection Hr2' as <-.
    exists r. split; [done|]. split.
    - etransitivity; [apply (lookup_relabel_fmap new_label old _ "postulante_sk")|].
      + by left.
      + intros c' Hc'. apply new_label_inj; [by left|by apply Hold].
      + by rewrite cell_insert_eq.
    - intros c Hc.
      etransitivity; [apply (lookup_relabel_fmap new_label old _ c)|].
      + by right.
      + intros c' Hc'. apply new_label_inj; apply Hold; [by right|done].
      + rewrite cell_insert_ne by (by intros <-). by rewrite cell_project_in. }
  assert (Hkeys : (fun d => cell d "id_postulante_original") <$> rows dim = unique ids).
  { unfold unique, ids. rewrite <- keys_keep_first. fold kept.
    apply list_eq. intros i. rewrite !list_lookup_fmap.
    destruct (rows dim !! i) as [d|] eqn:Hd.
    - destruct (Hrow i d Hd) as (r & -> & _ & Hcell). simpl. f_equal.
      apply (Hcell "ID_POSTULANTE" Hidc).
    - destruct (kept !! i) as [r|] eqn:Hr; [|done]. exfalso.
      apply lookup_ge_None in Hd. apply lookup_lt_Some in Hr.
      unfold dim in Hd. cbn [rows] in Hd. rewrite length_fmap in Hd.
      unfold numbered in Hd. rewrite length_zip_with, length_range1 in Hd.
      unfold len in Hd. rewrite Hrows2, length_fmap in Hd. lia. }
  exists (mkTransformer (datasets self) (<["dim_postulante" := dim]> (dimensions self))
            (facts self) (orphan_stats self) (log self)), dim.
  split; [exact Hrun|]. split; [apply lookup_insert_eq|].
  split; [exact Hkeys|]. split; [apply NoDup_unique|].
  split; [apply elem_of_unique|]. split.
  { rewrite <- (length_fmap (fun d => cell d "id_postulante_original")), Hkeys.
    rewrite <- (size_list_to_set (C := gset value) (unique ids)) by apply NoDup_unique.
    f_equal. apply set_eq. intros v. by rewrite !elem_of_list_to_set, elem_of_unique. }
  intros i d Hd. destruct (Hrow i d Hd) as (r & Hr & Hsk' & Hcell).
  split; [exact Hsk'|].
  destruct (keep_first_is_first (fun r => cell r "ID_POSTULANTE") (rows df_post) [] r)
    as [j Hj]; [by eapply list_elem_of_lookup_2|].
  exists j, r. split.
  - rewrite <- Hj. f_equal. change "id_postulante_original" with (new_label "ID_POSTULANTE").
    by rewrite (Hcell "ID_POSTULANTE" Hidc).
  - intros src dst Hin Hsrc.
    assert (Hc : src ∈ cols).
    { apply Hcols. split; [|done]. unfold postulante_labels in Hin.
      repeat (apply elem_of_cons in Hin as [[= -> ->]|Hin]; [repeat constructor|]).
      inversion Hin. }
    rewrite <- (Hcell src Hc). f_equal. unfold postulante_labels in Hin.
    repeat (apply elem_of_cons in Hin as [[= -> ->]|Hin]; [reflexivity|]).
    inversion Hin.
Qed.

(** The theorem on an applicant dataset with 100 identifiers and five
    of them repeated: dim_postulante has 100 rows. *)
Lemma dim_postulante_keeps_first_row_per_applicant_witness :
  exists self' dim,
    _build_dim_postulante (__init__ {[ "postulante" := fixture.postulante_105 ]})
      = (self', Ok tt)
    /\ dimensions self' !! "dim_postulante" = Some dim
    /\ length (rows fixture.postulante_105) = 105%nat
    /\ length (rows dim) = 100%nat.
Proof.
  destruct (dim_postulante_keeps_first_row_per_applicant
              (__init__ {[ "postulante" := fixture.postulante_105 ]})
              fixture.postulante_105)
    as (self' & dim & Hrun & Hdim & _ & _ & _ & Hlen & _).
  - reflexivity.
  - apply list_elem_of_here.
  - exists self', dim. split; [exact Hrun|]. split; [exact Hdim|].
    split; [reflexivity|]. rewrite Hlen. vm_compute. reflexivity.
Defined.

End dim_postulante_facts.
(** ** The calendar *)

Module calendar_facts.

Import calendar.

Lemma month_range (z : Z) : 1 <= month z <= 12.
Proof.
  unfold month, civil_from_days. cbn [fst snd].
  set (z' := z + 719468).
  set (doe := z' - z' / 146097 * 146097).
  assert (Hdoe : 0 <= doe < 146097) by (subst doe; Z.div_mod_to_equations; lia).
  set (yoe := (doe - doe / 1460 + doe / 36524 - doe / 146096) / 365).
  set (doy := doe - (365 * yoe + yoe / 4 - yoe / 100)).
  assert (Hdoy : 0 <= doy <= 672).
  { subst doy yoe. Z.div_mod_to_equations. lia. }
  set (mp := (5 * doy + 2) / 153).
  assert (0 <= mp <= 21) by (subst mp; Z.div_mod_to_equations; lia).
  destruct (mp <? 10) eqn:Hlt; lia.
Qed.

Lemma quarter_range (z : Z) : 1 <= quarter z <= 4.
Proof.
  unfold quarter. pose proof (month_range z) as Hm.
  Z.div_mod_to_equations. lia.
Qed.

(** [dayofweek + 1] counts the days since the last Monday, from 1:
    day 4 (1970-01-05) was a Monday. *)
Lemma iso_weekday (z : Z) :
  1 <= dayofweek z + 1 <= 7 /\ (dayofweek z + 1) - 1 = (z - 4) mod 7.
Proof. unfold dayofweek. Z.div_mod_to_equations. lia. Qed.

End calendar_facts.
(** ** dim_tiempo *)

Module dim_tiempo_facts.

Import pd_facts pd_results method_facts calendar_facts.

Lemma cell_singleton (c c' : string) (v : value) :
  cell ({[ c := v ]} : Row) c' = if decide (c = c') then v else VNull.
Proof.
  unfold cell. destruct (decide (c = c')) as [->|Hne].
  - by rewrite lookup_singleton_eq.
  - by rewrite lookup_singleton_ne.
Qed.

Lemma rows_assign (c : string) (f : Row -> value) (df : DataFrame) :
  rows (assign c f df) = set_cell c f <$> rows df.
Proof. reflexivity. Qed.

Lemma cell_set_cell_eq (c : string) (f : Row -> value) (r : Row) :
  cell (set_cell c f r) c = f r.
Proof. apply cell_insert_eq. Qed.

Lemma cell_set_cell_ne (c c' : string) (f : Row -> value) (r : Row) :
  c <> c' -> cell (set_cell c f r) c' = cell r c'.
Proof. apply cell_insert_ne. Qed.

(** A column that an assignment does not touch. *)
Lemma column_set_cell_ne (c c' : string) (f : Row -> value) (l : list Row) :
  c <> c' -> (fun r => cell r c') <$> (set_cell c f <$> l) = (fun r => cell r c') <$> l.
Proof.
  intros Hne. rewrite <- list_fmap_compose. apply list_fmap_ext.
  intros _ r _. simpl. by apply cell_set_cell_ne.
Qed.

Lemma StronglySorted_le_lt (l : list Z) :
  StronglySorted Z.le l -> NoDup l -> StronglySorted Z.lt l.
Proof.
  induction 1 as [|x l Hs IH Hall]; intros Hnd; [constructor|].
  apply NoDup_cons in Hnd as [Hx Hnd]. constructor; [by apply IH|].
  rewrite Forall_forall in *. intros y Hy. specialize (Hall y Hy).
  assert (x <> y) by (by intros ->). lia.
Qed.

Lemma fechas_unicas_sorted (fechas : list (Z * Z)) :
  StronglySorted Z.lt (fechas_unicas fechas).
Proof.
  unfold fechas_unicas. apply StronglySorted_le_lt.
  - apply StronglySorted_merge_sort; apply _.
  - rewrite merge_sort_Permutation. apply NoDup_elements.
Qed.

Lemma elem_of_fechas_unicas (fechas : list (Z * Z)) (d : Z) :
  d ∈ fechas_unicas fechas <-> exists ns, (d, ns) ∈ fechas.
Proof.
  unfold fechas_unicas.
  rewrite merge_sort_Permutation, elem_of_elements, elem_of_list_to_set, list_elem_of_fmap.
  split.
  - intros ([d' ns] & -> & Hin). eauto.
  - intros (ns & Hin). by exists (d, ns).
Qed.

Section DimTiempo.

Context `{Pandas}.

Lemma elem_of_dataset_dates ds name cols (t : Z * Z) :
  t ∈ dataset_dates ds name cols
  <-> exists df col r, ds !! name = Some df /\ col ∈ cols /\ col ∈ columns df
                       /\ r ∈ rows df /\ to_datetime (cell r col) = Some t.
Proof.
  unfold dataset_dates. destruct (ds !! name) as [df|].
  - rewrite list_elem_of_bind. split.
    + intros (col & Ht & Hcol).
      rewrite list_elem_of_In, filter_In, <- list_elem_of_In, has_column_true in Hcol.
      destruct Hcol as [Hcol Hhas].
      unfold column_dates in Ht. apply list_elem_of_omap in Ht as (r & Hr & Ht).
      exists df, col, r. eauto.
    + intros (df' & col & r & [= <-] & Hcol & Hhas & Hr & Ht).
      exists col. split.
      * unfold column_dates. apply list_elem_of_omap. eauto.
      * rewrite list_elem_of_In, filter_In, <- list_elem_of_In, has_column_true. eauto.
  - split; [inversion 1|]. intros (df' & ? & ? & [=] & _).
Qed.

(** C8.  When some date of the job-posting or education datasets
    parses, [_build_dim_tiempo] returns normally, and dim_tiempo has one
    row per calendar day that a date column of the two datasets holds
    (the time of day does not count, what does not parse is left out),
    the days strictly ascending and fecha_sk counting them from 1.  In
    every row trimestre is a quarter from 1 to 4, semestre is 1 exactly
    when it is 1 or 2 and 2 otherwise, dia_semana runs from 1 (Monday) to
    7 (Sunday), and es_fin_semana holds exactly when it is 6 or 7. *)
Theorem dim_tiempo_one_row_per_day (self : DataTransformer) :
  let fechas :=
    dataset_dates (datasets self) "vacantes" ["FECHAINICIO"; "FECHAFIN"; "FECHACREACION"]
    ++ dataset_dates (datasets self) "educacion" ["FECHAINICIO"; "FECHAFIN"] in
  fechas <> [] ->
  exists self' dim (days : list Z),
    _build_dim_tiempo self = (self', Ok tt)
    /\ dimensions self' !! "dim_tiempo" = Some dim
    /\ StronglySorted Z.lt days
    /\ (forall d, d ∈ days <->
          exists name col df r ns,
            (name, col) ∈ [ ("vacantes", "FECHAINICIO"); ("vacantes", "FECHAFIN");
                            ("vacantes", "FECHACREACION");
                            ("educacion", "FECHAINICIO"); ("educacion", "FECHAFIN") ]
            /\ datasets self !! name = Some df /\ col ∈ columns df /\ r ∈ rows df
            /\ to_datetime (cell r col) = Some (d, ns))
    /\ (fun r => cell r "fecha") <$> rows dim = (fun d => VStamp d 0) <$> days
    /\ (fun r => cell r "fecha_sk") <$> rows dim = VInt <$> range1 (length days)
    /\ Forall (fun r =>
         exists d q w,
           cell r "fecha" = VStamp d 0
           /\ cell r "trimestre" = VInt q /\ q = calendar.quarter d /\ 1 <= q <= 4
           /\ cell r "semestre" = VInt (if decide (q = 1 \/ q = 2) then 1 else 2)
           /\ cell r "dia_semana" = VInt w /\ 1 <= w <= 7 /\ w - 1 = (d - 4) mod 7
           /\ cell r "es_fin_semana" = VBool (bool_decide (w = 6 \/ w = 7)))
         (rows dim).
Proof.
  intros fechas Hsome.
  set (unicas := fechas_unicas fechas).
  assert (Hne : unicas <> []).
  { destruct fechas as [|[d ns] fechas'] eqn:Hf; [done|].
    assert (Hin : d ∈ unicas) by (apply elem_of_fechas_unicas; exists ns; by left).
    intros Hnil. rewrite Hnil in Hin. inversion Hin. }
  unfold _build_dim_tiempo. rewrite bind_get. cbv zeta. fold fechas. fold unicas.
  destruct (decide (unicas = [])) as [|_]; [done|].
  rewrite bind_ret. unfold set_dimension.
  eexists _, _, unicas. split; [reflexivity|]. cbn [dimensions].
  split; [apply lookup_insert_eq|].
  split; [apply fechas_unicas_sorted|].
  split.
  { intros d. unfold unicas. rewrite elem_of_fechas_unicas. unfold fechas. split.
    - intros (ns & Hin). apply elem_of_app in Hin as [Hin|Hin];
        apply elem_of_dataset_dates in Hin as (df & col & r & Hdf & Hcol & Hhas & Hr & Ht).
      + exists "vacantes", col, df, r, ns. split; [|done].
        repeat (apply elem_of_cons in Hcol as [->|Hcol]; [repeat constructor|]).
        inversion Hcol.
      + exists "educacion", col, df, r, ns. split; [|done].
        repeat (apply elem_of_cons in Hcol as [->|Hcol]; [repeat constructor|]).
        inversion Hcol.
    - intros (name & col & df & r & ns & Hin & Hdf & Hhas & Hr & Ht). exists ns.
      assert (Hcase : (name = "vacantes" /\ col ∈ ["FECHAINICIO"; "FECHAFIN"; "FECHACREACION"])
                      \/ (name = "educacion" /\ col ∈ ["FECHAINICIO"; "FECHAFIN"])).
      { repeat (apply elem_of_cons in Hin as [[= -> ->]|Hin];
                [first [ left; split; [reflexivity|repeat constructor]
                       | right; split; [reflexivity|repeat constructor] ]|]).
        inversion Hin. }
      apply elem_of_app.
      destruct Hcase as [[-> Hcol]|[-> Hcol]]; [left|right];
        apply elem_of_dataset_dates; exists df, col, r; auto. }
  rewrite !rows_assign. cbn [rows].
  set (base := zip_with (fun i d => <["fecha_sk" := VInt i]> ({[ "fecha" := VStamp d 0 ]} : Row))
                 (range1 (length unicas)) unicas).
  assert (Hbase : forall r, r ∈ base -> exists i d,
            r = <["fecha_sk" := VInt i]> ({[ "fecha" := VStamp d 0 ]} : Row)).
  { intros r Hr. apply list_elem_of_lookup in Hr as [k Hk].
    apply lookup_zip_with_Some in Hk as (i & d & -> & _ & _). eauto. }
  split; [|split].
  - repeat (rewrite column_set_cell_ne by discriminate). unfold base.
    apply list_eq. intros k. rewrite !list_lookup_fmap.
    destruct (unicas !! k) as [d|] eqn:Hd.
    + erewrite (proj2 (lookup_zip_with_Some _ _ _ _ _)); [|
        exists (Z.of_nat k + 1), d; split; [reflexivity|split; [|done]];
        apply lookup_range1; by eapply lookup_lt_Some].
      cbn [fmap option_fmap option_map]. rewrite cell_insert_ne by discriminate.
      by rewrite cell_singleton.
    + rewrite (proj2 (lookup_zip_with_None _ _ _ _)); [done|]. by right.
  - repeat (rewrite column_set_cell_ne by discriminate). unfold base.
    apply list_eq. intros k. rewrite !list_lookup_fmap.
    destruct (unicas !! k) as [d|] eqn:Hd.
    + erewrite (proj2 (lookup_zip_with_Some _ _ _ _ _)); [|
        exists (Z.of_nat k + 1), d; split; [reflexivity|split; [|done]];
        apply lookup_range1; by eapply lookup_lt_Some].
      rewrite lookup_range1 by (by eapply lookup_lt_Some).
      cbn [fmap option_fmap option_map]. by rewrite cell_insert_eq.
    + rewrite (proj2 (lookup_zip_with_None _ _ _ _)); [|by right].
      rewrite lookup_ge_None_2; [done|].
      rewrite length_range1. by apply lookup_ge_None.
  - rewrite !Forall_fmap. apply Forall_forall. intros r Hr.
    destruct (Hbase r Hr) as (i & d & ->). unfold compose.
    exists d, (calendar.quarter d), (calendar.dayofweek d + 1).
    pose proof (quarter_range d) as Hq. pose proof (iso_weekday d) as [Hw Hw'].
    assert (Hfecha : cell (<["fecha_sk" := VInt i]> ({[ "fecha" := VStamp d 0 ]} : Row)) "fecha"
                     = VStamp d 0).
    { rewrite cell_insert_ne by discriminate. by rewrite cell_singleton. }
    repeat (first [ rewrite cell_set_cell_eq
                  | rewrite cell_set_cell_ne by discriminate ]).
    rewrite Hfecha. cbn [dt_field].
    split; [done|]. split; [done|]. split; [done|]. split; [done|].
    split.
    { destruct (calendar.quarter d <=? 2) eqn:Hle, (decide _) as [Hd|Hd]; try done; lia. }
    split; [done|]. split; [done|]. split; [done|].
    f_equal. apply bool_decide_ext. rewrite !elem_of_cons, elem_of_nil.
    split.
    + intros [[= ->]|[[= ->]|[]]]; lia.
    + intros [->| ->]; auto.
Qed.

End DimTiempo.

(** The theorem on the fixture, whose date columns hold seven days. *)
Lemma dim_tiempo_one_row_per_day_witness :
  exists self' dim (days : list Z),
    _build_dim_tiempo (H := fixture.pandas) (__init__ fixture.extracted) = (self', Ok tt)
    /\ dimensions self' !! "dim_tiempo" = Some dim
    /\ StronglySorted Z.lt days
    /\ (fun r => cell r "fecha") <$> rows dim = (fun d => VStamp d 0) <$> days
    /\ (fun r => cell r "fecha_sk") <$> rows dim = VInt <$> range1 (length days).
Proof.
  destruct (dim_tiempo_one_row_per_day (H := fixture.pandas) (__init__ fixture.extracted))
    as (self' & dim & days & Hrun & Hdim & Hsorted & _ & Hfecha & Hsk & _).
  - vm_compute. discriminate.
  - exists self', dim, days. repeat (split; [assumption|]). assumption.
Defined.

End dim_tiempo_facts.

(** ** Where the cells of a column come from *)

Module pd_columns.

Import notions pd_facts pd_results.

Lemma col_in_absent S c df : c ∉ columns df -> col_in S c df.
Proof. intros Hn Hc. done. Qed.

Lemma col_in_mono (S S' : value -> Prop) c df :
  (forall v, S v -> S' v) -> col_in S c df -> col_in S' c df.
Proof. intros Himp Hin Hc r Hr. apply Himp. by apply Hin. Qed.

Lemma col_in_select S c df df' cs :
  select df cs = Ok df' -> col_in S c df -> col_in S c df'.
Proof.
  intros Hsel Hin. apply select_inv in Hsel as [Hall ->]. intros Hc r Hr.
  cbn [columns rows] in *. apply list_elem_of_fmap in Hr as (r0 & -> & Hr0).
  rewrite cell_project_in by done. apply Hin; auto.
Qed.

Lemma elem_of_keep_first {A K} `{EqDecision K} (key : A -> K) seen l x :
  x ∈ keep_first key seen l -> x ∈ l.
Proof. intros Hx. by apply keep_first_elem in Hx as [? _]. Qed.

Lemma drop_duplicates_inv subset df df' :
  drop_duplicates subset df = Ok df' ->
  columns df' = columns df /\ forall r, r ∈ rows df' -> r ∈ rows df.
Proof.
  unfold drop_duplicates. destruct (empty df); [by intros [= <-]|].
  destruct (missing_label _ _); [done|]. intros [= <-]. cbn [columns rows].
  split; [done|]. intros r. apply elem_of_keep_first.
Qed.

Lemma col_in_drop_duplicates S c subset df df' :
  drop_duplicates subset df = Ok df' -> col_in S c df -> col_in S c df'.
Proof.
  intros Hdd Hin. apply drop_duplicates_inv in Hdd as [Hcols Hrows].
  intros Hc r Hr. rewrite Hcols in Hc. auto.
Qed.

Lemma dropna_inv subset df df' :
  dropna subset df = Ok df' ->
  columns df' = columns df /\ forall r, r ∈ rows df' -> r ∈ rows df.
Proof.
  unfold dropna. destruct (missing_label _ _); [done|]. intros [= <-].
  cbn [columns rows]. split; [done|]. intros r.
  rewrite !list_elem_of_In, filter_In. tauto.
Qed.

Lemma col_in_dropna S c subset df df' :
  dropna subset df = Ok df' -> col_in S c df -> col_in S c df'.
Proof.
  intros Hdd Hin. apply dropna_inv in Hdd as [Hcols Hrows].
  intros Hc r Hr. rewrite Hcols in Hc. auto.
Qed.

Lemma insert_range_inv name df df' :
  insert_range name df = Ok df' ->
  (name ∉ columns df)
  /\ columns df' = name :: columns df
  /\ forall r, r ∈ rows df' -> exists i r0, r0 ∈ rows df /\ r = <[name := VInt i]> r0.
Proof.
  unfold insert_range. destruct (has_column df name) eqn:Hhas; [done|].
  intros [= <-]. apply has_column_false in Hhas. cbn [columns rows].
  split; [done|]. split; [done|]. intros r Hr.
  apply list_elem_of_lookup in Hr as [k Hk].
  apply lookup_zip_with_Some in Hk as (i & r0 & -> & _ & Hr0).
  exists i, r0. split; [by eapply list_elem_of_lookup_2|done].
Qed.

Lemma col_in_insert_range S c name df df' :
  insert_range name df = Ok df' -> name <> c -> col_in S c df -> col_in S c df'.
Proof.
  intros Hins Hne Hin. apply insert_range_inv in Hins as (_ & Hcols & Hrows).
  intros Hc r Hr. rewrite Hcols in Hc. apply elem_of_cons in Hc as [->|Hc]; [done|].
  destruct (Hrows r Hr) as (i & r0 & Hr0 & ->).
  rewrite cell_insert_ne by done. auto.
Qed.

(** The inserted column holds integers. *)
Lemma col_in_inserted name df df' :
  insert_range name df = Ok df' -> col_in is_int name df'.
Proof.
  intros Hins. apply insert_range_inv in Hins as (_ & Hcols & Hrows).
  intros _ r Hr. destruct (Hrows r Hr) as (i & r0 & Hr0 & ->).
  rewrite cell_insert_eq. by exists i.
Qed.

Lemma col_in_set_columns S c names df df' :
  set_columns names df = Ok df' -> c ∉ names -> col_in S c df'.
Proof.
  unfold set_columns. destruct (decide _); [|done]. intros [= <-] Hn.
  by apply col_in_absent.
Qed.

Lemma renamed_label_id mapping c :
  c ∉ mapping.*1 -> renamed_label mapping c = c.
Proof.
  intros Hn. unfold renamed_label. by rewrite (not_elem_of_list_to_map_1 _ _ Hn).
Qed.

Lemma renamed_label_inv mapping c0 c :
  renamed_label mapping c0 = c -> c ∉ mapping.*2 -> c0 = c.
Proof.
  unfold renamed_label. intros Heq Hn.
  destruct (list_to_map (M := gmap string string) mapping !! c0) as [t|] eqn:Hl; [|done].
  simpl in Heq. subst t. apply elem_of_list_to_map_2 in Hl.
  destruct Hn. apply list_elem_of_fmap. by exists (c0, c).
Qed.

Lemma col_in_rename S c mapping df :
  c ∉ mapping.*1 -> c ∉ mapping.*2 -> col_in S c df -> col_in S c (rename mapping df).
Proof.
  intros Hsrc Htgt Hin Hc r Hr. unfold rename in *. cbn [columns rows] in *.
  apply list_elem_of_fmap in Hc as (c0 & Hc0 & Hin0).
  symmetry in Hc0. apply renamed_label_inv in Hc0; [|done]. subst c0.
  apply list_elem_of_fmap in Hr as (r0 & -> & Hr0).
  rewrite <- (renamed_label_id mapping c Hsrc) at 1.
  rewrite lookup_relabel_fmap; [by apply Hin|done|].
  intros c' _ Heq. rewrite (renamed_label_id mapping c Hsrc) in Heq.
  by apply renamed_label_inv in Heq.
Qed.

Lemma columns_assign c f df c' :
  c' ∈ columns (assign c f df) <-> c' ∈ columns df \/ c' = c.
Proof.
  unfold assign. cbn [columns]. destruct (has_column df c) eqn:Hhas.
  - apply has_column_true in Hhas. split; [auto|]. by intros [?| ->].
  - rewrite elem_of_app, list_elem_of_singleton. tauto.
Qed.

Lemma col_in_assign S c c' f df :
  c' <> c -> col_in S c df -> col_in S c (assign c' f df).
Proof.
  intros Hne Hin Hc r Hr. apply columns_assign in Hc as [Hc|Hc]; [|done].
  unfold assign in Hr. cbn [rows] in Hr.
  apply list_elem_of_fmap in Hr as (r0 & -> & Hr0).
  unfold set_cell. rewrite cell_insert_ne by done. auto.
Qed.

Section Astype.

Context `{Pandas}.

Lemma astype_int64_column_inv c df df' :
  astype_int64_column c df = Ok df' ->
  columns df' = columns df
  /\ forall r, r ∈ rows df' ->
       exists r0 v, r0 ∈ rows df /\ astype_int64 (cell r0 c) = Some v /\ r = <[c := v]> r0.
Proof.
  unfold astype_int64_column. destruct (has_column df c); [|done].
  destruct (mapM _ (rows df)) as [rs|] eqn:Hm; [|done]. intros [= <-].
  cbn [columns rows]. split; [done|]. intros r Hr.
  apply mapM_Some in Hm.
  apply list_elem_of_lookup in Hr as [k Hk].
  destruct (Forall2_lookup_r _ _ _ _ _ Hm Hk) as (r0 & Hr0 & Hconv).
  exists r0. destruct (astype_int64 (cell r0 c)) as [v|]; [|done].
  simpl in Hconv. injection Hconv as <-.
  exists v. split; [by eapply list_elem_of_lookup_2|done].
Qed.

(** Converting a column of nulls and integers that did not raise left
    its cells as they were. *)
Lemma col_in_astype (S : value -> Prop) c c' df df' :
  astype_int64_column c' df = Ok df' ->
  (forall v, S v -> v = VNull \/ is_int v) ->
  col_in S c df -> col_in S c df'.
Proof.
  intros Hast Hshape Hin. apply astype_int64_column_inv in Hast as [Hcols Hrows].
  intros Hc r Hr. rewrite Hcols in Hc.
  destruct (Hrows r Hr) as (r0 & v & Hr0 & Hv & ->).
  destruct (decide (c' = c)) as [->|Hne].
  - rewrite cell_insert_eq. specialize (Hin Hc r0 Hr0).
    destruct (Hshape _ Hin) as [Hnull|[n Hn]].
    + rewrite Hnull, astype_int64_null in Hv. discriminate.
    + rewrite Hn, astype_int64_int in Hv. injection Hv as <-. by rewrite <- Hn.
  - rewrite cell_insert_ne by done. auto.
Qed.

Lemma col_in_astype_if_present (S : value -> Prop) c c' df df' :
  astype_if_present c' df = Ok df' ->
  (forall v, S v -> v = VNull \/ is_int v) ->
  col_in S c df -> col_in S c df'.
Proof.
  unfold astype_if_present. destruct (has_column df c'); [apply col_in_astype|].
  by intros [= <-].
Qed.

End Astype.

(** *** Merging *)

Lemma ends_with_app (p sfx : string) : ends_with sfx (p +:+ sfx) = true.
Proof.
  induction p as [|a p IH]; simpl.
  - destruct sfx; simpl; [done|]. by rewrite Ascii.eqb_refl, String.eqb_refl.
  - rewrite IH. by repeat case_match.
Qed.

Lemma suffixed_unsuffixed overlap sfx c0 c :
  ends_with sfx c = false -> suffixed overlap sfx c0 = c -> c0 = c /\ c ∉ overlap.
Proof.
  unfold suffixed. intros Hends. destruct (bool_decide (c0 ∈ overlap)) eqn:Hov.
  - intros <-. by rewrite ends_with_app in Hends.
  - intros <-. apply bool_decide_eq_false in Hov. done.
Qed.

Lemma lookup_relabel_None old new (r : Row) c :
  c ∉ new -> relabel old new r !! c = None.
Proof.
  intros Hn. unfold relabel. apply not_elem_of_list_to_map_1.
  intros Hin. apply Hn. apply list_elem_of_fmap in Hin as ([c' v] & -> & Hin).
  simpl. apply elem_of_zip_l in Hin. done.
Qed.

(** What [merge] returns, read off its definition. *)
Lemma merge_inv h left right left_on right_on df :
  merge h left right left_on right_on = Ok df ->
  let overlap := List.filter (fun c => bool_decide (c ∈ columns right)) (columns left) in
  let lcols := suffixed overlap "_x" <$> columns left in
  let rcols := suffixed overlap "_y" <$> columns right in
  columns df = lcols ++ rcols
  /\ forall row, row ∈ rows df ->
       exists l, l ∈ rows left
         /\ ((exists r, r ∈ rows right
                /\ row = relabel (columns left) lcols l ∪ relabel (columns right) rcols r)
             \/ (h = Left /\ row = relabel (columns left) lcols l ∪ project rcols ∅)).
Proof.
  unfold merge. destruct (has_column left left_on); [|done].
  destruct (has_column right right_on); [|done]. cbn [negb].
  destruct (_ || _); [done|]. intros [= <-]. cbv zeta. cbn [columns rows].
  split; [done|]. intros row Hrow.
  apply list_elem_of_bind in Hrow as (l & Hrow & Hl). exists l. split; [done|].
  destruct (matches right right_on (cell l left_on)) as [|m ms] eqn:Hm.
  - destruct h; [inversion Hrow|]. apply list_elem_of_singleton in Hrow. by right.
  - left.
    assert (Hrow' : row ∈ (fun r => relabel (columns left)
                                      (suffixed (List.filter
                                         (fun c => bool_decide (c ∈ columns right))
                                         (columns left)) "_x" <$> columns left) l
                                    ∪ relabel (columns right)
                                        (suffixed (List.filter
                                           (fun c => bool_decide (c ∈ columns right))
                                           (columns left)) "_y" <$> columns right) r)
                            <$> (m :: ms)) by (destruct h; exact Hrow).
    apply list_elem_of_fmap in Hrow' as (r & -> & Hr). exists r. split; [|done].
    rewrite <- Hm in Hr. unfold matches in Hr.
    rewrite list_elem_of_In, filter_In, <- list_elem_of_In in Hr. tauto.
Qed.

(** A column of a merged frame under a label that is not a suffixed one
    comes from exactly one side, and its cells are cells of that side, or
    nulls where a left join found no match. *)
Lemma col_in_merge (S : value -> Prop) c h left right left_on right_on df :
  merge h left right left_on right_on = Ok df ->
  unsuffixed c ->
  (c ∉ columns right -> col_in S c left) ->
  (c ∉ columns left -> col_in S c right) ->
  (h = Left -> c ∉ columns left -> S VNull) ->
  col_in S c df.
Proof.
  intros Hmerge [Hx Hy] Hleft Hright Hnull.
  apply merge_inv in Hmerge. cbv zeta in Hmerge.
  set (overlap := List.filter (fun c => bool_decide (c ∈ columns right)) (columns left)) in *.
  set (lcols := suffixed overlap "_x" <$> columns left) in *.
  set (rcols := suffixed overlap "_y" <$> columns right) in *.
  destruct Hmerge as [Hcols Hrows].
  assert (Hov : forall c', c' ∈ overlap <-> c' ∈ columns left /\ c' ∈ columns right).
  { intros c'. unfold overlap.
    rewrite list_elem_of_In, filter_In, <- list_elem_of_In, bool_decide_eq_true. tauto. }
  assert (Hl : c ∈ lcols -> c ∈ columns left /\ c ∉ columns right).
  { intros Hin. apply list_elem_of_fmap in Hin as (c0 & Hc0 & Hin0).
    symmetry in Hc0. apply suffixed_unsuffixed in Hc0 as [-> Hno]; [|done].
    split; [done|]. intros Hr. apply Hno, Hov. done. }
  assert (Hr : c ∈ rcols -> c ∈ columns right /\ c ∉ columns left).
  { intros Hin. apply list_elem_of_fmap in Hin as (c0 & Hc0 & Hin0).
    symmetry in Hc0. apply suffixed_unsuffixed in Hc0 as [-> Hno]; [|done].
    split; [done|]. intros Hr. apply Hno, Hov. done. }
  assert (Hlcell : forall l, c ∈ columns left -> c ∉ columns right ->
            relabel (columns left) lcols l !! c = Some (cell l c)).
  { intros l Hin Hout.
    assert (Hsame : suffixed overlap "_x" c = c).
    { unfold suffixed. rewrite bool_decide_eq_false_2; [done|]. rewrite Hov. tauto. }
    pose proof (lookup_relabel_fmap (suffixed overlap "_x") (columns left) l c Hin) as Hcell.
    rewrite Hsame in Hcell. unfold cell at 1 in Hcell. fold lcols in Hcell.
    destruct (relabel (columns left) lcols l !! c) as [v|] eqn:Hv.
    - simpl in Hcell. rewrite Hcell; [done|].
      intros c' Hc' Heq. by apply suffixed_unsuffixed in Heq as [-> _].
    - exfalso. apply not_elem_of_list_to_map in Hv. apply Hv.
      unfold lcols. rewrite fst_zip by (by rewrite !length_fmap).
      apply list_elem_of_fmap. by exists c. }
  assert (Hrcell : forall r, c ∈ columns right -> c ∉ columns left ->
            relabel (columns right) rcols r !! c = Some (cell r c)).
  { intros r Hin Hout.
    assert (Hsame : suffixed overlap "_y" c = c).
    { unfold suffixed. rewrite bool_decide_eq_false_2; [done|]. rewrite Hov. tauto. }
    pose proof (lookup_relabel_fmap (suffixed overlap "_y") (columns right) r c Hin) as Hcell.
    rewrite Hsame in Hcell. unfold cell at 1 in Hcell. fold rcols in Hcell.
    destruct (relabel (columns right) rcols r !! c) as [v|] eqn:Hv.
    - simpl in Hcell. rewrite Hcell; [done|].
      intros c' Hc' Heq. by apply suffixed_unsuffixed in Heq as [-> _].
    - exfalso. apply not_elem_of_list_to_map in Hv. apply Hv.
      unfold rcols. rewrite fst_zip by (by rewrite !length_fmap).
      apply list_elem_of_fmap. by exists c. }
  intros Hc row Hrow. rewrite Hcols in Hc.
  destruct (Hrows row Hrow) as (l & Hlrow & Hcase).
  apply elem_of_app in Hc as [Hc|Hc].
  - destruct (Hl Hc) as [Hin Hout].
    assert (Hcell : cell row c = cell l c).
    { unfold cell at 1.
      destruct Hcase as [(r & _ & ->)|[_ ->]];
        by rewrite (lookup_union_Some_l _ _ _ _ (Hlcell l Hin Hout)). }
    rewrite Hcell. by apply Hleft.
  - destruct (Hr Hc) as [Hin Hout].
    assert (Hnone : forall l, relabel (columns left) lcols l !! c = None).
    { intros l'. apply lookup_relabel_None. intros Hin'. by apply Hl in Hin' as [? _]. }
    destruct Hcase as [(r & Hrrow & ->)|[-> ->]].
    + unfold cell at 1. rewrite lookup_union_r by apply Hnone.
      rewrite (Hrcell r Hin Hout). simpl. by apply Hright.
    + unfold cell at 1. rewrite lookup_union_r by apply Hnone.
      rewrite lookup_project. destruct (decide (c ∈ rcols)); [|done].
      simpl. unfold cell. rewrite lookup_empty. simpl. by apply Hnull.
Qed.

(** A label that only the left frame has is a label of the merged
    frame. *)
Lemma merge_keeps_left_label h left right left_on right_on df c :
  merge h left right left_on right_on = Ok df ->
  c ∈ columns left -> c ∉ columns right -> c ∈ columns df.
Proof.
  intros Hmerge Hin Hout. apply merge_inv in Hmerge as [-> _].
  apply elem_of_app. left. apply list_elem_of_fmap. exists c. split; [|done].
  unfold suffixed. rewrite bool_decide_eq_false_2; [done|].
  rewrite list_elem_of_In, filter_In, <- list_elem_of_In, bool_decide_eq_true. tauto.
Qed.

End pd_columns.

(** ** What a method leaves alone *)

Module frame_facts.

Import notions pd_facts pd_results method_facts.

Section Keeps.

Context {X : Type} (proj : DataTransformer -> X).

Lemma keeps_ret {A} (a : A) : keeps proj (ret a).
Proof. done. Qed.

Lemma keeps_get : keeps proj get.
Proof. done. Qed.

Lemma keeps_lift {A} (r : result A) : keeps proj (lift r).
Proof. done. Qed.

Lemma keeps_get_dimension name : keeps proj (get_dimension name).
Proof. intros self. unfold get_dimension. by destruct (dimensions self !! name). Qed.

Lemma keeps_bind {A B} (m : M A) (k : A -> M B) :
  keeps proj m -> (forall a, keeps proj (k a)) -> keeps proj (bind m k).
Proof.
  intros Hm Hk self. unfold bind. specialize (Hm self).
  destruct (m self) as [self1 [a|e]]; simpl in *; [|done].
  by rewrite Hk.
Qed.

Lemma keeps_warning w :
  (forall self, proj (mkTransformer (datasets self) (dimensions self) (facts self)
                        (orphan_stats self) (log self ++ [w])) = proj self) ->
  keeps proj (warning w).
Proof. intros Hp self. apply Hp. Qed.

Lemma keeps_set_dataset name df :
  (forall self, proj (mkTransformer (<[name := df]> (datasets self)) (dimensions self)
                        (facts self) (orphan_stats self) (log self)) = proj self) ->
  keeps proj (set_dataset name df).
Proof. intros Hp self. apply Hp. Qed.

Lemma keeps_set_dimension name df :
  (forall self, proj (mkTransformer (datasets self) (<[name := df]> (dimensions self))
                        (facts self) (orphan_stats self) (log self)) = proj self) ->
  keeps proj (set_dimension name df).
Proof. intros Hp self. apply Hp. Qed.

Lemma keeps_set_fact name df :
  (forall self, proj (mkTransformer (datasets self) (dimensions self)
                        (<[name := df]> (facts self)) (orphan_stats self) (log self))
                = proj self) ->
  keeps proj (set_fact name df).
Proof. intros Hp self. apply Hp. Qed.

Lemma keeps_set_orphan_stat name q :
  (forall self, proj (mkTransformer (datasets self) (dimensions self) (facts self)
                        (<[name := q]> (orphan_stats self)) (log self)) = proj self) ->
  keeps proj (set_orphan_stat name q).
Proof. intros Hp self. apply Hp. Qed.

End Keeps.

(** One step towards [keeps proj m], by the shape of [m]. *)
Ltac keeps_step :=
  first
    [ apply keeps_ret | apply keeps_get | apply keeps_lift | apply keeps_get_dimension
    | apply keeps_bind; [|intros ?]
    | apply keeps_warning; intros ?; reflexivity
    | apply keeps_set_dataset; intros ?; first [reflexivity | by apply lookup_insert_ne]
    | apply keeps_set_dimension; intros ?; first [reflexivity | by apply lookup_insert_ne]
    | apply keeps_set_fact; intros ?; first [reflexivity | by apply lookup_insert_ne]
    | apply keeps_set_orphan_stat; intros ?; reflexivity
    | match goal with
      | |- keeps _ (match ?x with _ => _ end) => destruct x
      end ].

Ltac keeps_all := repeat keeps_step.

Section Builders.

Context `{Pandas}.

Lemma merge_optional_keeps {X} (proj : DataTransformer -> X) hechos name cols on right_on :
  keeps proj (merge_optional hechos name cols on right_on).
Proof. unfold merge_optional. keeps_all. Qed.

Lemma ubicaciones_de_keeps {X} (proj : DataTransformer -> X) ds name fuente :
  keeps proj (ubicaciones_de ds name fuente).
Proof. unfold ubicaciones_de. keeps_all. Qed.

(** The dimension builders leave the facts and the datasets alone, and
    each one only writes the dimension of its name. *)
Lemma dimension_builders_keep_facts :
  keeps facts _build_all_dimensions.
Proof.
  unfold _build_all_dimensions, _build_dim_tiempo, _build_dim_ubicacion,
    _build_dim_postulante, _build_dim_empresa, _build_dim_vacante,
    _build_dim_competencia, _build_dim_carrera, _build_dim_institucion.
  repeat first [apply ubicaciones_de_keeps | keeps_step].
Qed.

Lemma fact_builders_keep_dimensions :
  keeps dimensions _build_hechos_postulante
  /\ keeps dimensions _build_hechos_formacion
  /\ keeps dimensions _build_hechos_experiencia
  /\ keeps dimensions _build_hechos_vacante
  /\ keeps dimensions _build_hechos_competencia_requerida.
Proof.
  unfold _build_hechos_postulante, _build_hechos_formacion, _build_hechos_experiencia,
    _build_hechos_vacante, _build_hechos_competencia_requerida.
  repeat split; repeat first [apply merge_optional_keeps | keeps_step].
Qed.

Lemma fact_builders_keep_datasets :
  keeps datasets _build_hechos_postulante
  /\ keeps datasets _build_hechos_formacion
  /\ keeps datasets _build_hechos_experiencia
  /\ keeps datasets _build_hechos_vacante
  /\ keeps datasets _build_hechos_competencia_requerida.
Proof.
  unfold _build_hechos_postulante, _build_hechos_formacion, _build_hechos_experiencia,
    _build_hechos_vacante, _build_hechos_competencia_requerida.
  repeat split; repeat first [apply merge_optional_keeps | keeps_step].
Qed.

(** [_build_hechos_postulante] writes no fact table but its own. *)
Lemma hechos_postulante_keeps_other_facts name :
  "hechos_postulante" <> name ->
  keeps (fun self => facts self !! name) _build_hechos_postulante.
Proof.
  intros Hne. unfold _build_hechos_postulante.
  repeat first [apply merge_optional_keeps | keeps_step].
Qed.

End Builders.

(** Reconciliation leaves the dimensions, the facts and every dataset
    but the job-posting one alone. *)
Lemma reconcile_keeps_dimensions today : keeps dimensions (_reconcile_orphans today).
Proof. unfold _reconcile_orphans. keeps_all. Qed.

Lemma reconcile_keeps_facts today : keeps facts (_reconcile_orphans today).
Proof. unfold _reconcile_orphans. keeps_all. Qed.

Lemma reconcile_keeps_dataset today name :
  "vacantes" <> name ->
  keeps (fun self => datasets self !! name) (_reconcile_orphans today).
Proof. intros Hne. unfold _reconcile_orphans. keeps_all. Qed.


End frame_facts.

(** ** Foreign keys of the fact tables *)

Module foreign_keys.

Import notions pd_facts pd_results method_facts pd_columns frame_facts.

Lemma fk_of_shape D c v : fk_of D c v -> v = VNull \/ is_int v.
Proof. intros [?|[? _]]; auto. Qed.

(** The key column of a dimension table, seen as foreign keys into the
    table itself. *)
Lemma col_in_own_keys D c : col_in is_int c D -> col_in (fk_of D c) c D.
Proof. intros Hint Hc r Hr. right. split; [by apply Hint|]. by exists r. Qed.

Lemma bind_get_dimension {B} name (k : DataFrame -> M B) self :
  bind (get_dimension name) k self
  = match dimensions self !! name with
    | Some df => k df self
    | None => (self, Raise (KeyError name))
    end.
Proof. unfold bind, get_dimension. by destruct (dimensions self !! name). Qed.

Lemma set_fact_ok name df self self' :
  set_fact name df self = (self', Ok tt) ->
  facts self' = <[name := df]> (facts self).
Proof. unfold set_fact. by intros [= <-]. Qed.

Lemma set_dimension_ok name df self self' :
  set_dimension name df self = (self', Ok tt) ->
  dimensions self' = <[name := df]> (dimensions self)
  /\ datasets self' = datasets self.
Proof. unfold set_dimension. by intros [= <-]. Qed.

Lemma warning_ok w self self' :
  warning w self = (self', Ok tt) ->
  facts self' = facts self /\ dimensions self' = dimensions self
  /\ datasets self' = datasets self.
Proof. unfold warning. by intros [= <-]. Qed.

(** One step of a method that is known to have returned: the step
    returned too, with the equation [E] on what it returned. *)
Ltac run_step H :=
  lazymatch type of H with
  | bind get _ _ = _ => rewrite bind_get in H
  | bind (ret _) _ _ = _ => rewrite bind_ret in H
  | bind (bind _ _) _ _ = _ => rewrite bind_assoc in H
  | bind (lift ?r) _ _ = _ =>
      rewrite bind_lift in H;
      let E := fresh "E" in destruct r eqn:E; [try discriminate E|discriminate H]
  | bind (get_dimension ?n) _ ?s = _ =>
      rewrite bind_get_dimension in H;
      let E := fresh "E" in destruct (dimensions s !! n) eqn:E; [|discriminate H]
  | bind (merge_optional _ _ _ _ _) _ _ = _ => unfold merge_optional in H
  | bind (match ?x with _ => _ end) _ _ = _ =>
      let E := fresh "E" in destruct x eqn:E
  | (match ?x with _ => _ end) _ = _ =>
      lazymatch x with
      | (_, _) => cbv beta iota in H
      | (if ?b then _ else _) => let E := fresh "E" in destruct b eqn:E
      | _ => let E := fresh "E" in destruct x eqn:E
      end
  | (_, Raise _) = (_, Ok _) => discriminate H
  end.

Ltac unsuffixed_label := split; vm_compute; reflexivity.

Lemma select_columns df cs df' : select df cs = Ok df' -> columns df' = cs.
Proof. intros Hsel. by apply select_inv in Hsel as [_ ->]. Qed.

Ltac not_in_list :=
  let Hin := fresh in
  intros Hin; repeat (apply elem_of_cons in Hin as [Hin|Hin]; [discriminate Hin|]);
  inversion Hin.

(** The frame, a selection, has no column [c]. *)
Ltac side_absent :=
  apply col_in_absent; erewrite select_columns by eassumption; not_in_list.

(** The frame, a selection, does have the column that [Hout] denies. *)
Ltac side_contra Hout :=
  exfalso; apply Hout; erewrite select_columns by eassumption; repeat constructor.

(** Backwards through the frame operations that made a frame. *)
Ltac col_in_back :=
  repeat first
    [ assumption
    | by apply col_in_own_keys
    | eapply col_in_select; [eassumption|]
    | eapply col_in_drop_duplicates; [eassumption|]
    | eapply col_in_dropna; [eassumption|]
    | eapply col_in_astype; [eassumption|apply fk_of_shape|]
    | eapply col_in_astype_if_present; [eassumption|apply fk_of_shape|]
    | apply col_in_assign; [discriminate|]
    | eapply col_in_inserted; eassumption
    | eapply col_in_insert_range; [eassumption|discriminate|]
    | match goal with
      | |- col_in _ _ (if ?b then _ else _) => destruct b
      end
    | apply col_in_rename; [not_in_list|not_in_list|]
    | eapply col_in_merge;
        [ eassumption | unsuffixed_label
        | let Hout := fresh "Hout" in intros Hout; try (solve [side_contra Hout])
        | let Hout := fresh "Hout" in intros Hout; try (solve [side_absent])
        | intros; by left ] ].

Section Facts.

Context `{Pandas}.

Lemma hechos_formacion_built self self' :
  _build_hechos_formacion self = (self', Ok tt) ->
  facts self' = facts self
  \/ exists F,
       facts self' = <["hechos_formacion" := F]> (facts self)
       /\ forall D, dimensions self !! "dim_postulante" = Some D ->
            col_in is_int "postulante_sk" D ->
            col_in (fk_of D "postulante_sk") "postulante_sk" F.
Proof.
  intros Hrun. unfold _build_hechos_formacion in Hrun.
  run_step Hrun. run_step Hrun.
  2: { left. by apply warning_ok in Hrun as (? & _). }
  repeat run_step Hrun;
    (apply set_fact_ok in Hrun; right; eexists; split; [exact Hrun|];
     intros D [= <-] Hints; unfold select_present in *; col_in_back).
Qed.

Lemma hechos_experiencia_built self self' :
  _build_hechos_experiencia self = (self', Ok tt) ->
  facts self' = facts self
  \/ exists F,
       facts self' = <["hechos_experiencia" := F]> (facts self)
       /\ forall D, dimensions self !! "dim_postulante" = Some D ->
            col_in is_int "postulante_sk" D ->
            col_in (fk_of D "postulante_sk") "postulante_sk" F.
Proof.
  intros Hrun. unfold _build_hechos_experiencia in Hrun.
  run_step Hrun. run_step Hrun.
  2: { left. by apply warning_ok in Hrun as (? & _). }
  repeat run_step Hrun;
    (apply set_fact_ok in Hrun; right; eexists; split; [exact Hrun|];
     intros D [= <-] Hints; col_in_back).
Qed.

Lemma hechos_vacante_built self self' :
  _build_hechos_vacante self = (self', Ok tt) ->
  facts self' = facts self
  \/ exists F,
       facts self' = <["hechos_vacante" := F]> (facts self)
       /\ forall D, dimensions self !! "dim_vacante" = Some D ->
            col_in is_int "vacante_sk" D ->
            col_in (fk_of D "vacante_sk") "vacante_sk" F.
Proof.
  intros Hrun. unfold _build_hechos_vacante in Hrun.
  run_step Hrun. run_step Hrun.
  2: { left. by apply warning_ok in Hrun as (? & _). }
  repeat run_step Hrun;
    (apply set_fact_ok in Hrun; right; eexists; split; [exact Hrun|];
     intros D [= <-] Hints; unfold select_present in *; col_in_back).
Qed.

Lemma hechos_competencia_requerida_built self self' :
  _build_hechos_competencia_requerida self = (self', Ok tt) ->
  facts self' = facts self
  \/ exists F,
       facts self' = <["hechos_competencia_requerida" := F]> (facts self)
       /\ (forall D, dimensions self !! "dim_vacante" = Some D ->
             col_in is_int "vacante_sk" D ->
             (forall D', dimensions self !! "dim_competencia" = Some D' ->
                "vacante_sk" ∉ columns D') ->
             col_in (fk_of D "vacante_sk") "vacante_sk" F)
       /\ (forall D, dimensions self !! "dim_competencia" = Some D ->
             "competencia_sk" ∈ columns D ->
             col_in is_int "competencia_sk" D ->
             (forall df, datasets self !! "competencias" = Some df ->
                "NOMBRECOMPETENCIA" ∈ columns df) ->
             col_in (fk_of D "competencia_sk") "competencia_sk" F).
Proof.
  intros Hrun. unfold _build_hechos_competencia_requerida in Hrun.
  run_step Hrun. run_step Hrun.
  2: { left. by apply warning_ok in Hrun as (? & _). }
  repeat run_step Hrun;
    (apply set_fact_ok in Hrun; right; eexists; split; [exact Hrun|]; split;
     [ intros D [= <-] Hints Hcomp | intros D HD Hcol Hints Hname ]);
    try discriminate HD; try (injection HD as <-); col_in_back.
  - apply col_in_absent. by apply Hcomp.
  - by destruct Hout.
  - exfalso. apply has_column_false in E4. apply E4.
    eapply merge_keeps_left_label; [eassumption|by apply Hname|].
    erewrite select_columns by eassumption. not_in_list.
Qed.

(** *** The surrogate keys of the three dimensions *)

Lemma dims_ok_same self self' :
  dimensions self' = dimensions self ->
  datasets self' !! "competencias" = datasets self !! "competencias" ->
  dims_ok self -> dims_ok self'.
Proof. intros Hd Hc. unfold dims_ok. by rewrite Hd, Hc. Qed.

Lemma dims_ok_other self self' name D :
  dimensions self' = <[name := D]> (dimensions self) ->
  datasets self' = datasets self ->
  name <> "dim_postulante" -> name <> "dim_vacante" -> name <> "dim_competencia" ->
  dims_ok self -> dims_ok self'.
Proof.
  intros Hd Hs H1 H2 H3. unfold dims_ok. rewrite Hd, Hs.
  by rewrite !lookup_insert_ne.
Qed.

Lemma dim_tiempo_dims_ok self self' :
  _build_dim_tiempo self = (self', Ok tt) -> dims_ok self -> dims_ok self'.
Proof.
  intros Hrun. unfold _build_dim_tiempo in Hrun.
  run_step Hrun. cbv zeta in Hrun. repeat run_step Hrun.
  apply set_dimension_ok in Hrun as [Hd Hs]. by eapply dims_ok_other.
Qed.

Lemma ubicaciones_de_ok ds name fuente self self' l :
  ubicaciones_de ds name fuente self = (self', Ok l) -> self' = self.
Proof.
  unfold ubicaciones_de. destruct (ds !! name); [|by intros [= <-]].
  destruct (forallb _ _); [|by intros [= <-]].
  rewrite bind_lift. destruct (select _ _); [|done]. by intros [= <-].
Qed.

Lemma dim_ubicacion_dims_ok self self' :
  _build_dim_ubicacion self = (self', Ok tt) -> dims_ok self -> dims_ok self'.
Proof.
  intros Hrun. unfold _build_dim_ubicacion in Hrun.
  run_step Hrun.
  apply bind_ok in Hrun as (u1 & s1 & Hu1 & Hrun). apply ubicaciones_de_ok in Hu1 as ->.
  apply bind_ok in Hrun as (u2 & s2 & Hu2 & Hrun). apply ubicaciones_de_ok in Hu2 as ->.
  repeat run_step Hrun.
  apply set_dimension_ok in Hrun as [Hd Hs]. by eapply dims_ok_other.
Qed.

Lemma dim_postulante_dims_ok self self' :
  _build_dim_postulante self = (self', Ok tt) -> dims_ok self -> dims_ok self'.
Proof.
  intros Hrun Hok. unfold _build_dim_postulante in Hrun.
  run_step Hrun. run_step Hrun.
  2: { apply warning_ok in Hrun as (_ & Hd & Hs).
       apply (dims_ok_same self); [done|by rewrite Hs|done]. }
  repeat run_step Hrun. apply set_dimension_ok in Hrun as [Hd Hs].
  destruct Hok as (Hp & Hv & Hc).
  unfold dims_ok. rewrite Hd, Hs. split; [|by rewrite !lookup_insert_ne].
  intros D. rewrite lookup_insert_eq. intros [= <-]. col_in_back.
Qed.

Lemma dim_empresa_dims_ok self self' :
  _build_dim_empresa self = (self', Ok tt) -> dims_ok self -> dims_ok self'.
Proof.
  intros Hrun. unfold _build_dim_empresa in Hrun.
  repeat run_step Hrun;
    first [ apply set_dimension_ok in Hrun as [Hd Hs]; by eapply dims_ok_other
          | apply warning_ok in Hrun as (_ & Hd & Hs);
            intros Hok; apply (dims_ok_same self); [done|by rewrite Hs|done] ].
Qed.

Lemma dim_vacante_dims_ok self self' :
  _build_dim_vacante self = (self', Ok tt) -> dims_ok self -> dims_ok self'.
Proof.
  intros Hrun Hok. unfold _build_dim_vacante in Hrun.
  run_step Hrun. run_step Hrun.
  2: { apply warning_ok in Hrun as (_ & Hd & Hs).
       apply (dims_ok_same self); [done|by rewrite Hs|done]. }
  repeat run_step Hrun. apply set_dimension_ok in Hrun as [Hd Hs].
  destruct Hok as (Hp & Hv & Hc). unfold dims_ok. rewrite Hd, Hs.
  split; [by rewrite lookup_insert_ne|]. split; [|by rewrite lookup_insert_ne].
  intros D. rewrite lookup_insert_eq. intros [= <-]. col_in_back.
  all: match goal with E : insert_range "vacante_sk" _ = Ok ?a |- _ =>
         assert (Hhas : "vacante_sk" ∈ columns a)
           by (pose proof (insert_range_inv _ _ _ E) as (_ & -> & _); by left)
       end.
  all: eapply col_in_merge; [eassumption|unsuffixed_label|..]; try done.
  all: intros _; col_in_back.
Qed.

Lemma dim_competencia_dims_ok self self' :
  _build_dim_competencia self = (self', Ok tt) -> dims_ok self -> dims_ok self'.
Proof.
  intros Hrun Hok. unfold _build_dim_competencia in Hrun.
  run_step Hrun. run_step Hrun.
  2: { apply warning_ok in Hrun as (_ & Hd & Hs).
       apply (dims_ok_same self); [done|by rewrite Hs|done]. }
  run_step Hrun.
  { apply warning_ok in Hrun as (_ & Hd & Hs).
    apply (dims_ok_same self); [done|by rewrite Hs|done]. }
  repeat run_step Hrun. apply set_dimension_ok in Hrun as [Hd Hs].
  destruct Hok as (Hp & Hv & Hc). unfold dims_ok. rewrite Hd, Hs.
  split; [by rewrite lookup_insert_ne|]. split; [by rewrite lookup_insert_ne|].
  intros D. rewrite lookup_insert_eq. intros [= <-]. split; [|split].
  - unfold rename. cbn [columns].
    match goal with E : insert_range _ _ = Ok ?a |- context [columns ?a] =>
      pose proof (insert_range_inv _ _ _ E) as (_ & -> & _) end.
    match goal with E : drop_duplicates _ _ = Ok ?a |- context [columns ?a] =>
      pose proof (drop_duplicates_inv _ _ _ E) as [-> _] end.
    by erewrite select_columns by eassumption.
  - col_in_back.
  - eexists. split; [eassumption|]. apply has_column_true.
    match goal with E : negb _ = false |- _ => by apply negb_false_iff in E end.
Qed.

Lemma dim_carrera_dims_ok self self' :
  _build_dim_carrera self = (self', Ok tt) -> dims_ok self -> dims_ok self'.
Proof.
  intros Hrun. unfold _build_dim_carrera in Hrun.
  repeat run_step Hrun;
    first [ apply set_dimension_ok in Hrun as [Hd Hs]; by eapply dims_ok_other
          | apply warning_ok in Hrun as (_ & Hd & Hs);
            intros Hok; apply (dims_ok_same self); [done|by rewrite Hs|done] ].
Qed.

Lemma dim_institucion_dims_ok self self' :
  _build_dim_institucion self = (self', Ok tt) -> dims_ok self -> dims_ok self'.
Proof.
  intros Hrun. unfold _build_dim_institucion in Hrun.
  repeat run_step Hrun;
    first [ apply set_dimension_ok in Hrun as [Hd Hs]; by eapply dims_ok_other
          | apply warning_ok in Hrun as (_ & Hd & Hs);
            intros Hok; apply (dims_ok_same self); [done|by rewrite Hs|done] ].
Qed.

Lemma all_dimensions_dims_ok self self' :
  _build_all_dimensions self = (self', Ok tt) -> dims_ok self -> dims_ok self'.
Proof.
  intros Hrun Hok. unfold _build_all_dimensions in Hrun.
  apply bind_ok in Hrun as ([] & s1 & H1 & Hrun). apply dim_tiempo_dims_ok in H1; [|done].
  apply bind_ok in Hrun as ([] & s2 & H2 & Hrun). apply dim_ubicacion_dims_ok in H2; [|done].
  apply bind_ok in Hrun as ([] & s3 & H3 & Hrun). apply dim_postulante_dims_ok in H3; [|done].
  apply bind_ok in Hrun as ([] & s4 & H4 & Hrun). apply dim_empresa_dims_ok in H4; [|done].
  apply bind_ok in Hrun as ([] & s5 & H5 & Hrun). apply dim_vacante_dims_ok in H5; [|done].
  apply bind_ok in Hrun as ([] & s6 & H6 & Hrun). apply dim_competencia_dims_ok in H6; [|done].
  apply bind_ok in Hrun as ([] & s7 & H7 & Hrun). apply dim_carrera_dims_ok in H7; [|done].
  by apply dim_institucion_dims_ok in Hrun.
Qed.

(** *** The fact tables of a run *)

Lemma fact_step (X : string) (m : M unit) self self' :
  keeps dimensions m -> keeps datasets m ->
  m self = (self', Ok tt) ->
  (facts self' = facts self
   \/ exists F, facts self' = <[X := F]> (facts self)
        /\ forall fact dim fk, (fact, dim, fk) ∈ fk_links -> fact = X ->
             forall D, dimensions self !! dim = Some D -> col_in (fk_of D fk) fk F) ->
  dims_ok self -> facts_ok self -> dims_ok self' /\ facts_ok self'.
Proof.
  intros Hkd Hks Hrun Hbuilt Hdims Hfacts.
  assert (Hd : dimensions self' = dimensions self) by (by rewrite <- (Hkd self), Hrun).
  assert (Hs : datasets self' = datasets self) by (by rewrite <- (Hks self), Hrun).
  split; [apply (dims_ok_same self); [done|by rewrite Hs|done]|].
  intros fact dim fk Hin F D HF HD. rewrite Hd in HD.
  destruct Hbuilt as [Hsame|(F' & Hnew & Hprop)].
  - rewrite Hsame in HF. by eapply Hfacts.
  - rewrite Hnew in HF. destruct (decide (X = fact)) as [->|Hne].
    + rewrite lookup_insert_eq in HF. injection HF as <-. by eapply Hprop.
    + rewrite lookup_insert_ne in HF by done. by eapply Hfacts.
Qed.

Lemma hechos_postulante_step self self' :
  _build_hechos_postulante self = (self', Ok tt) ->
  dims_ok self -> facts_ok self -> dims_ok self' /\ facts_ok self'.
Proof.
  intros Hrun Hdims Hfacts.
  assert (Hd : dimensions self' = dimensions self).
  { destruct fact_builders_keep_dimensions as (Hk & _). by rewrite <- (Hk self), Hrun. }
  assert (Hs : datasets self' = datasets self).
  { destruct fact_builders_keep_datasets as (Hk & _). by rewrite <- (Hk self), Hrun. }
  split; [apply (dims_ok_same self); [done|by rewrite Hs|done]|].
  intros fact dim fk Hin F D HF HD. rewrite Hd in HD.
  assert (Hsame : facts self' !! fact = facts self !! fact).
  { assert (Hne : "hechos_postulante" <> fact).
    { unfold fk_links in Hin.
      repeat (apply elem_of_cons in Hin as [[= -> -> ->]|Hin]; [discriminate|]).
      inversion Hin. }
    pose proof (hechos_postulante_keeps_other_facts fact Hne self) as Hk.
    by rewrite Hrun in Hk. }
  rewrite Hsame in HF. by eapply Hfacts.
Qed.

Lemma all_facts_step self self' :
  _build_all_facts self = (self', Ok tt) ->
  dims_ok self -> facts_ok self -> dims_ok self' /\ facts_ok self'.
Proof.
  intros Hrun Hdims Hfacts. unfold _build_all_facts in Hrun.
  destruct fact_builders_keep_dimensions as (_ & Hd2 & Hd3 & Hd4 & Hd5).
  destruct fact_builders_keep_datasets as (_ & Hs2 & Hs3 & Hs4 & Hs5).
  apply bind_ok in Hrun as ([] & s1 & H1 & Hrun).
  destruct (hechos_postulante_step _ _ H1 Hdims Hfacts) as [Hdims1 Hfacts1].
  apply bind_ok in Hrun as ([] & s2 & H2 & Hrun).
  destruct (fact_step "hechos_formacion" _ _ _ Hd2 Hs2 H2) as [Hdims2 Hfacts2];
    [|done|done|].
  { destruct (hechos_formacion_built _ _ H2) as [?|(F & HF & Hprop)]; [by left|].
    right. exists F. split; [done|]. intros fact dim fk Hin HX D HD.
    destruct Hdims1 as (Hp & _). unfold fk_links in Hin.
    repeat (apply elem_of_cons in Hin as [[= -> -> ->]|Hin];
            [first [discriminate HX | eauto]|]).
    inversion Hin. }
  apply bind_ok in Hrun as ([] & s3 & H3 & Hrun).
  destruct (fact_step "hechos_experiencia" _ _ _ Hd3 Hs3 H3) as [Hdims3 Hfacts3];
    [|done|done|].
  { destruct (hechos_experiencia_built _ _ H3) as [?|(F & HF & Hprop)]; [by left|].
    right. exists F. split; [done|]. intros fact dim fk Hin HX D HD.
    destruct Hdims2 as (Hp & _). unfold fk_links in Hin.
    repeat (apply elem_of_cons in Hin as [[= -> -> ->]|Hin];
            [first [discriminate HX | eauto]|]).
    inversion Hin. }
  apply bind_ok in Hrun as ([] & s4 & H4 & Hrun).
  destruct (fact_step "hechos_vacante" _ _ _ Hd4 Hs4 H4) as [Hdims4 Hfacts4];
    [|done|done|].
  { destruct (hechos_vacante_built _ _ H4) as [?|(F & HF & Hprop)]; [by left|].
    right. exists F. split; [done|]. intros fact dim fk Hin HX D HD.
    destruct Hdims3 as (_ & Hv & _). unfold fk_links in Hin.
    repeat (apply elem_of_cons in Hin as [[= -> -> ->]|Hin];
            [first [discriminate HX | eauto]|]).
    inversion Hin. }
  apply (fact_step "hechos_competencia_requerida" _ _ _ Hd5 Hs5 Hrun); [|done|done].
  destruct (hechos_competencia_requerida_built _ _ Hrun) as [?|(F & HF & Hvac & Hcomp)];
    [by left|].
  right. exists F. split; [done|]. intros fact dim fk Hin HX D HD.
  destruct Hdims4 as (_ & Hv & Hc). unfold fk_links in Hin.
  repeat (apply elem_of_cons in Hin as [[= -> -> ->]|Hin]; [try discriminate HX|]);
    [| |inversion Hin].
  - apply Hvac; [done|by apply Hv|].
    intros D' HD'. destruct (Hc D' HD') as (-> & _). not_in_list.
  - destruct (Hc D HD) as (Hcols & Hint & df & Hdf & Hname).
    apply Hcomp; [done|rewrite Hcols; by left|done|].
    intros df' Hdf'. rewrite Hdf in Hdf'. by injection Hdf' as <-.
Qed.

(** C4.  In what [transform_all] returns for a fresh transformer, every
    foreign key that a fact table got through an inner join refers to a
    row of its dimension: a non-null cell of postulante_sk in
    hechos_formacion and hechos_experiencia is a postulante_sk of
    dim_postulante, a non-null cell of vacante_sk in hechos_vacante and
    hechos_competencia_requerida is a vacante_sk of dim_vacante, and a
    non-null cell of competencia_sk in hechos_competencia_requerida is a
    competencia_sk of dim_competencia. *)
Theorem fact_keys_resolve today ds self' dims hechos :
  transform_all today (__init__ ds) = (self', Some (dims, hechos)) ->
  forall fact dim fk,
    (fact, dim, fk) ∈ [ ("hechos_formacion", "dim_postulante", "postulante_sk");
                        ("hechos_experiencia", "dim_postulante", "postulante_sk");
                        ("hechos_vacante", "dim_vacante", "vacante_sk");
                        ("hechos_competencia_requerida", "dim_vacante", "vacante_sk");
                        ("hechos_competencia_requerida", "dim_competencia",
                         "competencia_sk") ] ->
    forall F D, hechos !! fact = Some F -> dims !! dim = Some D ->
      fk ∈ columns F ->
      forall r, r ∈ rows F -> cell r fk <> VNull ->
        exists d, d ∈ rows D /\ cell d fk = cell r fk.
Proof.
  unfold transform_all. intros Hrun.
  destruct ((_build_all_dimensions ;; _reconcile_orphans today ;; _build_all_facts)%method
              (__init__ ds)) as [s [[]|e]] eqn:Hall; [|discriminate].
  injection Hrun as <- <- <-.
  apply bind_ok in Hall as ([] & s1 & Hdims & Hall).
  apply bind_ok in Hall as ([] & s2 & Hrec & Hfacts).
  assert (Hok1 : dims_ok s1).
  { eapply all_dimensions_dims_ok; [exact Hdims|].
    unfold dims_ok, __init__. cbn [dimensions].
    split; [|split]; intros D HD; by rewrite lookup_empty in HD. }
  assert (Hf1 : facts s1 = ∅).
  { pose proof (dimension_builders_keep_facts (__init__ ds)) as Hk.
    by rewrite Hdims in Hk. }
  assert (Hok2 : dims_ok s2).
  { apply (dims_ok_same s1); [| |done].
    - pose proof (reconcile_keeps_dimensions today s1) as Hk. by rewrite Hrec in Hk.
    - pose proof (reconcile_keeps_dataset today "competencias" ltac:(discriminate) s1) as Hk.
      by rewrite Hrec in Hk. }
  assert (Hf2 : facts_ok s2).
  { pose proof (reconcile_keeps_facts today s1) as Hk. rewrite Hrec in Hk.
    simpl in Hk. intros fact dim fk _ F D HF. rewrite Hk, Hf1, lookup_empty in HF.
    discriminate. }
  destruct (all_facts_step _ _ Hfacts Hok2 Hf2) as [_ Hfinal].
  intros fact dim fk Hin F D HF HD Hcol r Hr Hnn.
  destruct (Hfinal fact dim fk Hin F D HF HD Hcol r Hr) as [Hnull|[_ Hd]]; done.
Qed.

End Facts.

(** The theorem on the fixture: the vacante_sk cells of its
    hechos_competencia_requerida are keys of its dim_vacante. *)
Lemma fact_keys_resolve_witness :
  let out := default (∅, ∅) (fixture.run fixture.extracted).2 in
  let F := default (mkDF [] []) (out.2 !! "hechos_competencia_requerida") in
  let D := default (mkDF [] []) (out.1 !! "dim_vacante") in
  length (rows F) = 2%nat
  /\ Forall (fun r => exists d, d ∈ rows D /\ cell d "vacante_sk" = cell r "vacante_sk")
       (rows F).
Proof.
  intros out F D. split; [vm_compute; reflexivity|].
  assert (Hsome : is_Some (fixture.run fixture.extracted).2)
    by (apply (bool_decide_unpack _); vm_compute; exact I).
  assert (HF : is_Some (out.2 !! "hechos_competencia_requerida"))
    by (apply (bool_decide_unpack _); vm_compute; exact I).
  assert (HD : is_Some (out.1 !! "dim_vacante"))
    by (apply (bool_decide_unpack _); vm_compute; exact I).
  assert (Hcol : "vacante_sk" ∈ columns F)
    by (apply (bool_decide_unpack _); vm_compute; exact I).
  assert (Hnn : Forall (fun r => cell r "vacante_sk" <> VNull) (rows F))
    by (apply (bool_decide_unpack _); vm_compute; exact I).
  apply Forall_forall. intros r Hr.
  refine (fact_keys_resolve (H := fixture.pandas) fixture.today fixture.extracted
            (fixture.run fixture.extracted).1 out.1 out.2 _
            "hechos_competencia_requerida" "dim_vacante" "vacante_sk" _ F D _ _ Hcol r Hr _).
  - subst F D out. unfold fixture.run in *.
    destruct (transform_all fixture.today (__init__ fixture.extracted)) as [s [[d h]|]];
      [reflexivity|by destruct Hsome].
  - repeat constructor.
  - subst F. by destruct HF as [x ->].
  - subst D. by destruct HD as [x ->].
  - rewrite Forall_forall in Hnn. by apply Hnn.
Defined.

End foreign_keys.

Module pipeline_frame.

Import notions pd_facts pd_results method_facts frame_facts.

Section Pipeline.

Context `{Pandas}.

Lemma dimension_builders_keep_datasets :
  keeps datasets _build_all_dimensions.
Proof.
  unfold _build_all_dimensions, _build_dim_tiempo, _build_dim_ubicacion,
    _build_dim_postulante, _build_dim_empresa, _build_dim_vacante,
    _build_dim_competencia, _build_dim_carrera, _build_dim_institucion.
  repeat first [apply ubicaciones_de_keeps | keeps_step].
Qed.

Lemma all_facts_keep_datasets : keeps datasets _build_all_facts.
Proof.
  destruct fact_builders_keep_datasets as (? & ? & ? & ? & ?).
  unfold _build_all_facts. repeat (apply keeps_bind; [done|intros _]). done.
Qed.

Lemma all_facts_keep_dimensions : keeps dimensions _build_all_facts.
Proof.
  destruct fact_builders_keep_dimensions as (? & ? & ? & ? & ?).
  unfold _build_all_facts. repeat (apply keeps_bind; [done|intros _]). done.
Qed.

Lemma keeps_lookup {X} (proj : DataTransformer -> gmap string X) {A} (m : M A) name :
  keeps proj m -> keeps (fun self => proj self !! name) m.
Proof. intros Hk self. by rewrite Hk. Qed.

Local Abbreviation phases today :=
  (_build_all_dimensions ;; _reconcile_orphans today ;; _build_all_facts)%method.

Lemma transform_all_keeps {X} (proj : DataTransformer -> X) today :
  (forall ds dims fs st l l', proj (mkTransformer ds dims fs st l)
                              = proj (mkTransformer ds dims fs st l')) ->
  forall self, proj (transform_all today self).1 = proj (phases today self).1.
Proof.
  intros Hlog self. unfold transform_all.
  destruct (phases today self) as [s [[]|e]]; [done|]. simpl.
  destruct s; apply Hlog.
Qed.

(** X1.  Whatever [transform_all] does, and whether it returns tables or
    gives up, the object holds every dataset but the job-posting one as
    it held it before. *)
Theorem transform_all_keeps_other_datasets today self name :
  name <> "vacantes" ->
  datasets (transform_all today self).1 !! name = datasets self !! name.
Proof.
  intros Hne.
  rewrite (transform_all_keeps (fun s => datasets s !! name)) by done.
  assert (Hk : keeps (fun s => datasets s !! name) (phases today)); [|apply Hk].
  apply keeps_bind; [apply keeps_lookup, dimension_builders_keep_datasets|intros _].
  apply keeps_bind; [by apply reconcile_keeps_dataset|intros _].
  apply keeps_lookup, all_facts_keep_datasets.
Qed.

(** X2.  The dimension tables are final when phase 1 ends: neither the
    reconciliation of orphans nor the fact builders change, add or
    remove a dimension table, so the placeholders that phase 2 appends
    to the job-posting dataset reach no dimension. *)
Theorem later_phases_keep_dimensions today self :
  dimensions (transform_all today self).1 = dimensions (_build_all_dimensions self).1.
Proof.
  rewrite (transform_all_keeps dimensions) by done.
  unfold bind at 1.
  destruct (_build_all_dimensions self) as [s1 [[]|e]]; [|done].
  simpl.
  assert (Hk : keeps dimensions (_reconcile_orphans today ;; _build_all_facts)%method).
  { apply keeps_bind; [apply reconcile_keeps_dimensions|intros _].
    apply all_facts_keep_dimensions. }
  apply Hk.
Qed.

(** A run of [transform_all] that returned tables went through every
    builder, and every builder returned. *)
Lemma pipeline_steps today self self' dims hechos :
  transform_all today self = (self', Some (dims, hechos)) ->
  dims = dimensions self' /\ hechos = facts self'
  /\ exists d1 d2 d3 d4 d5 d6 d7 s1 s2 f1 f2 f3 f4,
       _build_all_dimensions self = (s1, Ok tt)
       /\ _build_dim_tiempo self = (d1, Ok tt)
       /\ _build_dim_ubicacion d1 = (d2, Ok tt)
       /\ _build_dim_postulante d2 = (d3, Ok tt)
       /\ _build_dim_empresa d3 = (d4, Ok tt)
       /\ _build_dim_vacante d4 = (d5, Ok tt)
       /\ _build_dim_competencia d5 = (d6, Ok tt)
       /\ _build_dim_carrera d6 = (d7, Ok tt)
       /\ _build_dim_institucion d7 = (s1, Ok tt)
       /\ _reconcile_orphans today s1 = (s2, Ok tt)
       /\ _build_hechos_postulante s2 = (f1, Ok tt)
       /\ _build_hechos_formacion f1 = (f2, Ok tt)
       /\ _build_hechos_experiencia f2 = (f3, Ok tt)
       /\ _build_hechos_vacante f3 = (f4, Ok tt)
       /\ _build_hechos_competencia_requerida f4 = (self', Ok tt).
Proof.
  unfold transform_all. intros Hrun.
  destruct (phases today self) as [s [[]|e]] eqn:Hall; [|discriminate].
  injection Hrun as <- <- <-. split; [done|]. split; [done|].
  apply bind_ok in Hall as ([] & s1 & Hdims & Hall).
  apply bind_ok in Hall as ([] & s2 & Hrec & Hfacts).
  pose proof Hdims as Hdims_all. unfold _build_all_dimensions in Hdims.
  apply bind_ok in Hdims as ([] & d1 & H1 & Hdims).
  apply bind_ok in Hdims as ([] & d2 & H2 & Hdims).
  apply bind_ok in Hdims as ([] & d3 & H3 & Hdims).
  apply bind_ok in Hdims as ([] & d4 & H4 & Hdims).
  apply bind_ok in Hdims as ([] & d5 & H5 & Hdims).
  apply bind_ok in Hdims as ([] & d6 & H6 & Hdims).
  apply bind_ok in Hdims as ([] & d7 & H7 & H8).
  unfold _build_all_facts in Hfacts.
  apply bind_ok in Hfacts as ([] & f1 & F1 & Hfacts).
  apply bind_ok in Hfacts as ([] & f2 & F2 & Hfacts).
  apply bind_ok in Hfacts as ([] & f3 & F3 & Hfacts).
  apply bind_ok in Hfacts as ([] & f4 & F4 & F5).
  by exists d1, d2, d3, d4, d5, d6, d7, s1, s2, f1, f2, f3, f4.
Qed.

End Pipeline.

Lemma transform_all_keeps_other_datasets_witness :
  datasets (fixture.run fixture.extracted).1 !! "competencias" = Some fixture.competencias.
Proof.
  unfold fixture.run.
  rewrite (transform_all_keeps_other_datasets (H := fixture.pandas)) by discriminate.
  reflexivity.
Defined.

End pipeline_frame.

Module table_names.

Import notions pd_facts pd_results method_facts pd_columns frame_facts foreign_keys.
Import pipeline_frame.

Lemma tablas_dimensiones :
  load.tablas "dimensiones"
  = [ "dim_tiempo"; "dim_ubicacion"; "dim_postulante"; "dim_carrera";
      "dim_institucion"; "dim_vacante"; "dim_empresa"; "dim_competencia" ].
Proof. reflexivity. Qed.

Lemma tablas_hechos :
  load.tablas "hechos"
  = [ "hechos_postulante"; "hechos_formacion"; "hechos_experiencia";
      "hechos_vacante"; "hechos_competencia_requerida" ].
Proof. reflexivity. Qed.

Lemma negb_has_column df c : negb (has_column df c) = true -> c ∉ columns df.
Proof. rewrite negb_true_iff. apply has_column_false. Qed.

Lemma negb_has_column_false df c : negb (has_column df c) = false -> c ∈ columns df.
Proof. rewrite negb_false_iff. apply has_column_true. Qed.

(** A builder that returned has stored its table, its source dataset
    being there and fit, or has left the tables as they were, its source
    missing or unfit. *)
Ltac built_by Hrun :=
  first
    [ apply set_dimension_ok in Hrun as [? ?]; split; [done|left];
      eexists _, _; split; [eassumption|split; [first [eassumption|reflexivity]|]];
      first [exact I | by apply negb_has_column_false]
    | apply set_fact_ok in Hrun; left;
      eexists _, _; split; [eassumption|split; [first [eassumption|reflexivity]|exact I]]
    | apply warning_ok in Hrun as (? & ? & ?);
      first [ split; [done|right; split; [done|]] | right; split; [done|] ];
      let df := fresh "df" in let Hdf := fresh "Hdf" in
      intros df Hdf; simplify_eq; try (by apply negb_has_column) ].

Lemma written {A} n (t t' : gmap string A) (P : A -> DataFrame -> Prop) (Q : Prop) :
  (exists D df, t' = <[n := D]> t /\ P D df) \/ (t' = t /\ Q) ->
  (exists D, t' = <[n := D]> t) \/ t' = t.
Proof. intros [(D & df & -> & _)|[-> _]]; eauto. Qed.

Lemma not_skipped {A} n (t t' : gmap string A) (P : A -> DataFrame -> Prop) (Q : Prop) :
  (exists D df, t' = <[n := D]> t /\ P D df) \/ (t' = t /\ Q) ->
  ~ Q -> exists D, t' = <[n := D]> t.
Proof. intros [(D & df & -> & _)|[-> HQ]] Hn; [eauto|done]. Qed.

Lemma reconcile_keeps_presence today self name :
  is_Some (datasets self !! name) ->
  is_Some (datasets (_reconcile_orphans today self).1 !! name).
Proof.
  intros Hin. destruct (decide ("vacantes" = name)) as [<-|Hne].
  2: { pose proof (reconcile_keeps_dataset today name Hne self) as Hk. simpl in Hk.
       by rewrite Hk. }
  unfold _reconcile_orphans. rewrite bind_get.
  destruct (datasets self !! "competencias") as [df_comp|]; [|done].
  destruct (datasets self !! "vacantes") as [df_vac|] eqn:Hv; [|done].
  rewrite bind_lift. destruct (getitem df_comp "AVISOID"); [|simpl; by rewrite Hv].
  rewrite bind_lift. destruct (getitem df_vac "AVISOID"); [|simpl; by rewrite Hv].
  cbv zeta.
  destruct (decide (0 < size _)%nat).
  - unfold bind, warning, lift, set_dataset, set_orphan_stat.
    destruct (concat [df_vac; _]); simpl; [by rewrite lookup_insert_eq|by rewrite Hv].
  - unfold bind, ret, set_orphan_stat; simpl. by rewrite Hv.
Qed.

Lemma key_within {A} (names : list string) n (t t' : gmap string A) :
  (exists D, t' = <[n := D]> t) \/ t' = t ->
  n ∈ names ->
  (forall k, is_Some (t !! k) -> k ∈ names) -> forall k, is_Some (t' !! k) -> k ∈ names.
Proof.
  intros [[D ->]| ->] Hn Ht k; [|by apply Ht].
  destruct (decide (n = k)) as [<-|Hne]; [done|]. rewrite lookup_insert_ne by done. apply Ht.
Qed.

Lemma key_kept {A} n (t t' : gmap string A) k :
  (exists D, t' = <[n := D]> t) \/ t' = t -> is_Some (t !! k) -> is_Some (t' !! k).
Proof.
  intros [[D ->]| ->]; [|done]. intros Hk. rewrite lookup_insert_is_Some.
  destruct (decide (n = k)); auto.
Qed.

Lemma key_stored {A} n (t t' : gmap string A) :
  (exists D, t' = <[n := D]> t) -> is_Some (t' !! n).
Proof. intros [D ->]. rewrite lookup_insert_eq. eauto. Qed.

Ltac in_list := apply (bool_decide_unpack _); vm_compute; exact I.

Section Builders.

Context `{Pandas}.

Lemma dim_tiempo_built self self' :
  _build_dim_tiempo self = (self', Ok tt) ->
  datasets self' = datasets self
  /\ exists D, dimensions self' = <["dim_tiempo" := D]> (dimensions self).
Proof.
  intros Hrun. unfold _build_dim_tiempo in Hrun.
  run_step Hrun. cbv zeta in Hrun. repeat run_step Hrun.
  apply set_dimension_ok in Hrun as [Hd Hs]. eauto.
Qed.

Lemma dim_ubicacion_built self self' :
  _build_dim_ubicacion self = (self', Ok tt) ->
  datasets self' = datasets self
  /\ exists D, dimensions self' = <["dim_ubicacion" := D]> (dimensions self).
Proof.
  intros Hrun. unfold _build_dim_ubicacion in Hrun.
  run_step Hrun.
  apply bind_ok in Hrun as (u1 & s1 & Hu1 & Hrun). apply ubicaciones_de_ok in Hu1 as ->.
  apply bind_ok in Hrun as (u2 & s2 & Hu2 & Hrun). apply ubicaciones_de_ok in Hu2 as ->.
  repeat run_step Hrun.
  apply set_dimension_ok in Hrun as [Hd Hs]. eauto.
Qed.

Lemma dim_postulante_built self self' :
  _build_dim_postulante self = (self', Ok tt) ->
  datasets self' = datasets self
  /\ ((exists D df, dimensions self' = <["dim_postulante" := D]> (dimensions self)
                     /\ datasets self !! "postulante" = Some df /\ True)
      \/ (dimensions self' = dimensions self
          /\ forall df, datasets self !! "postulante" = Some df -> False)).
Proof.
  intros Hrun. unfold _build_dim_postulante in Hrun.
  repeat run_step Hrun; built_by Hrun.
Qed.

Lemma dim_empresa_built self self' :
  _build_dim_empresa self = (self', Ok tt) ->
  datasets self' = datasets self
  /\ ((exists D df, dimensions self' = <["dim_empresa" := D]> (dimensions self)
                     /\ datasets self !! "vacantes" = Some df /\ "IDEMPRESA" ∈ columns df)
      \/ (dimensions self' = dimensions self
          /\ forall df, datasets self !! "vacantes" = Some df -> "IDEMPRESA" ∉ columns df)).
Proof.
  intros Hrun. unfold _build_dim_empresa in Hrun.
  repeat run_step Hrun; built_by Hrun.
Qed.

Lemma dim_vacante_built self self' :
  _build_dim_vacante self = (self', Ok tt) ->
  datasets self' = datasets self
  /\ ((exists D df, dimensions self' = <["dim_vacante" := D]> (dimensions self)
                     /\ datasets self !! "vacantes" = Some df /\ True)
      \/ (dimensions self' = dimensions self
          /\ forall df, datasets self !! "vacantes" = Some df -> False)).
Proof.
  intros Hrun. unfold _build_dim_vacante in Hrun.
  repeat run_step Hrun; built_by Hrun.
Qed.

Lemma dim_competencia_built self self' :
  _build_dim_competencia self = (self', Ok tt) ->
  datasets self' = datasets self
  /\ ((exists D df, dimensions self' = <["dim_competencia" := D]> (dimensions self)
                     /\ datasets self !! "competencias" = Some df
                     /\ "NOMBRECOMPETENCIA" ∈ columns df)
      \/ (dimensions self' = dimensions self
          /\ forall df, datasets self !! "competencias" = Some df ->
               "NOMBRECOMPETENCIA" ∉ columns df)).
Proof.
  intros Hrun. unfold _build_dim_competencia in Hrun.
  repeat run_step Hrun; built_by Hrun.
Qed.

Lemma dim_carrera_built self self' :
  _build_dim_carrera self = (self', Ok tt) ->
  datasets self' = datasets self
  /\ ((exists D df, dimensions self' = <["dim_carrera" := D]> (dimensions self)
                     /\ datasets self !! "educacion" = Some df /\ "CARRERA" ∈ columns df)
      \/ (dimensions self' = dimensions self
          /\ forall df, datasets self !! "educacion" = Some df -> "CARRERA" ∉ columns df)).
Proof.
  intros Hrun. unfold _build_dim_carrera in Hrun.
  repeat run_step Hrun; built_by Hrun.
Qed.

Lemma dim_institucion_built self self' :
  _build_dim_institucion self = (self', Ok tt) ->
  datasets self' = datasets self
  /\ ((exists D df, dimensions self' = <["dim_institucion" := D]> (dimensions self)
                     /\ datasets self !! "educacion" = Some df /\ "INSTITUCION" ∈ columns df)
      \/ (dimensions self' = dimensions self
          /\ forall df, datasets self !! "educacion" = Some df ->
               "INSTITUCION" ∉ columns df)).
Proof.
  intros Hrun. unfold _build_dim_institucion in Hrun.
  repeat run_step Hrun; built_by Hrun.
Qed.

Lemma hechos_postulante_stored self self' :
  _build_hechos_postulante self = (self', Ok tt) ->
  (exists F df, facts self' = <["hechos_postulante" := F]> (facts self)
                /\ datasets self !! "postulante" = Some df /\ True)
  \/ (facts self' = facts self
      /\ forall df, datasets self !! "postulante" = Some df -> False).
Proof.
  intros Hrun. unfold _build_hechos_postulante in Hrun.
  repeat run_step Hrun; built_by Hrun.
Qed.

Lemma hechos_formacion_stored self self' :
  _build_hechos_formacion self = (self', Ok tt) ->
  (exists F df, facts self' = <["hechos_formacion" := F]> (facts self)
                /\ datasets self !! "educacion" = Some df /\ True)
  \/ (facts self' = facts self
      /\ forall df, datasets self !! "educacion" = Some df -> False).
Proof.
  intros Hrun. unfold _build_hechos_formacion in Hrun.
  repeat run_step Hrun; built_by Hrun.
Qed.

Lemma hechos_experiencia_stored self self' :
  _build_hechos_experiencia self = (self', Ok tt) ->
  (exists F df, facts self' = <["hechos_experiencia" := F]> (facts self)
                /\ datasets self !! "experiencias" = Some df /\ True)
  \/ (facts self' = facts self
      /\ forall df, datasets self !! "experiencias" = Some df -> False).
Proof.
  intros Hrun. unfold _build_hechos_experiencia in Hrun.
  repeat run_step Hrun; built_by Hrun.
Qed.

Lemma hechos_vacante_stored self self' :
  _build_hechos_vacante self = (self', Ok tt) ->
  (exists F df, facts self' = <["hechos_vacante" := F]> (facts self)
                /\ datasets self !! "vacantes" = Some df /\ True)
  \/ (facts self' = facts self
      /\ forall df, datasets self !! "vacantes" = Some df -> False).
Proof.
  intros Hrun. unfold _build_hechos_vacante in Hrun.
  repeat run_step Hrun; built_by Hrun.
Qed.

Lemma hechos_competencia_requerida_stored self self' :
  _build_hechos_competencia_requerida self = (self', Ok tt) ->
  (exists F df, facts self' = <["hechos_competencia_requerida" := F]> (facts self)
                /\ datasets self !! "competencias" = Some df /\ True)
  \/ (facts self' = facts self
      /\ forall df, datasets self !! "competencias" = Some df -> False).
Proof.
  intros Hrun. unfold _build_hechos_competencia_requerida in Hrun.
  repeat run_step Hrun; built_by Hrun.
Qed.


(** X3.  The tables that [transform_all] returns for a fresh transformer
    are tables the loader loads: every returned dimension is one of the
    eight of LOAD_ORDER['dimensiones'] and every returned fact table one
    of the five of LOAD_ORDER['hechos'].  When the mapping holds the five
    datasets the builders read and they carry the columns IDEMPRESA,
    NOMBRECOMPETENCIA, CARRERA and INSTITUCION, a run that returns
    returns all thirteen. *)
Theorem tables_are_the_loaders today ds self' dims hechos :
  transform_all today (__init__ ds) = (self', Some (dims, hechos)) ->
  (forall n, is_Some (dims !! n) -> n ∈ load.tablas "dimensiones")
  /\ (forall n, is_Some (hechos !! n) -> n ∈ load.tablas "hechos")
  /\ ((forall name, name ∈ ["postulante"; "educacion"; "experiencias"; "vacantes";
                            "competencias"] -> is_Some (ds !! name)) ->
      (forall df, ds !! "vacantes" = Some df -> "IDEMPRESA" ∈ columns df) ->
      (forall df, ds !! "competencias" = Some df -> "NOMBRECOMPETENCIA" ∈ columns df) ->
      (forall df, ds !! "educacion" = Some df ->
         "CARRERA" ∈ columns df /\ "INSTITUCION" ∈ columns df) ->
      (forall n, n ∈ load.tablas "dimensiones" -> is_Some (dims !! n))
      /\ (forall n, n ∈ load.tablas "hechos" -> is_Some (hechos !! n))).
Proof.
  intros Hrun.
  apply pipeline_steps in Hrun
    as (-> & -> & d1 & d2 & d3 & d4 & d5 & d6 & d7 & s1 & s2 & f1 & f2 & f3 & f4
        & Hdims & H1 & H2 & H3 & H4 & H5 & H6 & H7 & H8 & Hrec & F1 & F2 & F3 & F4 & F5).
  apply dim_tiempo_built in H1 as [E1 T1]. apply dim_ubicacion_built in H2 as [E2 T2].
  apply dim_postulante_built in H3 as [E3 T3]. apply dim_empresa_built in H4 as [E4 T4].
  apply dim_vacante_built in H5 as [E5 T5]. apply dim_competencia_built in H6 as [E6 T6].
  apply dim_carrera_built in H7 as [E7 T7]. apply dim_institucion_built in H8 as [E8 T8].
  simpl in E1. rewrite E1 in E2. rewrite E2 in E3, T3. rewrite E3 in E4, T4.
  rewrite E4 in E5, T5. rewrite E5 in E6, T6. rewrite E6 in E7, T7.
  rewrite E7 in E8, T8.
  destruct fact_builders_keep_datasets as (Kp & Kf & Ke & Kv & Kc).
  destruct fact_builders_keep_dimensions as (Lp & Lf & Le & Lv & Lc).
  pose proof (Kp s2) as D1. rewrite F1 in D1. pose proof (Lp s2) as G1. rewrite F1 in G1.
  pose proof (Kf f1) as D2. rewrite F2 in D2. pose proof (Lf f1) as G2. rewrite F2 in G2.
  pose proof (Ke f2) as D3. rewrite F3 in D3. pose proof (Le f2) as G3. rewrite F3 in G3.
  pose proof (Kv f3) as D4. rewrite F4 in D4. pose proof (Lv f3) as G4. rewrite F4 in G4.
  pose proof (Lc f4) as G5. rewrite F5 in G5.
  pose proof (reconcile_keeps_dimensions today s1) as G0. rewrite Hrec in G0.
  pose proof (reconcile_keeps_facts today s1) as Hf2. rewrite Hrec in Hf2.
  simpl in D1, D2, D3, D4, G0, G1, G2, G3, G4, G5, Hf2.
  assert (Hd : dimensions self' = dimensions s1) by congruence.
  assert (Hf1 : facts s2 = ∅).
  { pose proof (dimension_builders_keep_facts (__init__ ds)) as Hk. rewrite Hdims in Hk.
    simpl in Hk. congruence. }
  apply hechos_postulante_stored in F1. apply hechos_formacion_stored in F2.
  apply hechos_experiencia_stored in F3. apply hechos_vacante_stored in F4.
  apply hechos_competencia_requerida_stored in F5.
  rewrite D1 in D2. rewrite D2 in D3, F3. rewrite D3 in D4, F4. rewrite D4 in F5.
  rewrite D1 in F2.
  assert (Hpres : forall name, is_Some (ds !! name) -> is_Some (datasets s2 !! name)).
  { intros name Hn. pose proof (reconcile_keeps_presence today s1 name) as Hk.
    rewrite Hrec, E8 in Hk. by apply Hk. }
  rewrite Hd. split; [|split].
  - intros k.
    eapply key_within; [exact (written _ _ _ _ _ T8)|in_list|].
    eapply key_within; [exact (written _ _ _ _ _ T7)|in_list|].
    eapply key_within; [exact (written _ _ _ _ _ T6)|in_list|].
    eapply key_within; [exact (written _ _ _ _ _ T5)|in_list|].
    eapply key_within; [exact (written _ _ _ _ _ T4)|in_list|].
    eapply key_within; [exact (written _ _ _ _ _ T3)|in_list|].
    eapply key_within; [left; exact T2|in_list|].
    eapply key_within; [left; exact T1|in_list|].
    simpl. intros k'. rewrite lookup_empty. by intros [? ?].
  - intros k.
    eapply key_within; [exact (written _ _ _ _ _ F5)|in_list|].
    eapply key_within; [exact (written _ _ _ _ _ F4)|in_list|].
    eapply key_within; [exact (written _ _ _ _ _ F3)|in_list|].
    eapply key_within; [exact (written _ _ _ _ _ F2)|in_list|].
    eapply key_within; [exact (written _ _ _ _ _ F1)|in_list|].
    rewrite Hf1. intros k'. rewrite lookup_empty. by intros [? ?].
  - intros Hsix Hemp Hcomp Hedu.
    assert (Hin : forall name,
              name ∈ ["postulante"; "educacion"; "experiencias"; "vacantes"; "competencias"] ->
              exists df, ds !! name = Some df /\ is_Some (datasets s2 !! name)).
    { intros name Hn. destruct (Hsix name Hn) as [df Hdf]. exists df. split; [done|].
      apply Hpres. by rewrite Hdf. }
    destruct (Hin "postulante" ltac:(in_list)) as (dfp & Hp & [dfp' Hp']).
    destruct (Hin "educacion" ltac:(in_list)) as (dfe & He & [dfe' He']).
    destruct (Hin "experiencias" ltac:(in_list)) as (dfx & Hx & [dfx' Hx']).
    destruct (Hin "vacantes" ltac:(in_list)) as (dfv & Hv & [dfv' Hv']).
    destruct (Hin "competencias" ltac:(in_list)) as (dfc & Hc & [dfc' Hc']).
    destruct (Hedu dfe He) as [Hcar Hinst].
    pose proof (not_skipped _ _ _ _ _ T3 ltac:(eauto)) as T3'.
    pose proof (not_skipped _ _ _ _ _ T4 ltac:(intros Hno; by apply (Hno dfv Hv), Hemp)) as T4'.
    pose proof (not_skipped _ _ _ _ _ T5 ltac:(eauto)) as T5'.
    pose proof (not_skipped _ _ _ _ _ T6 ltac:(intros Hno; by apply (Hno dfc Hc), Hcomp)) as T6'.
    pose proof (not_skipped _ _ _ _ _ T7 ltac:(intros Hno; by apply (Hno dfe He))) as T7'.
    pose proof (not_skipped _ _ _ _ _ T8 ltac:(intros Hno; by apply (Hno dfe He))) as T8'.
    pose proof (not_skipped _ _ _ _ _ F1 ltac:(eauto)) as F1'.
    pose proof (not_skipped _ _ _ _ _ F2 ltac:(eauto)) as F2'.
    pose proof (not_skipped _ _ _ _ _ F3 ltac:(eauto)) as F3'.
    pose proof (not_skipped _ _ _ _ _ F4 ltac:(eauto)) as F4'.
    pose proof (not_skipped _ _ _ _ _ F5 ltac:(eauto)) as F5'.
    split; intros n Hn.
    + rewrite tablas_dimensiones in Hn.
      repeat (apply elem_of_cons in Hn as [->|Hn]); [..|inversion Hn];
        repeat first
          [ solve [eapply key_stored; eassumption]
          | apply (key_kept _ _ _ _ (or_introl T8'))
          | apply (key_kept _ _ _ _ (or_introl T7'))
          | apply (key_kept _ _ _ _ (or_introl T6'))
          | apply (key_kept _ _ _ _ (or_introl T5'))
          | apply (key_kept _ _ _ _ (or_introl T4'))
          | apply (key_kept _ _ _ _ (or_introl T3'))
          | apply (key_kept _ _ _ _ (or_introl T2)) ].
    + rewrite tablas_hechos in Hn.
      repeat (apply elem_of_cons in Hn as [->|Hn]); [..|inversion Hn];
        repeat first
          [ solve [eapply key_stored; eassumption]
          | apply (key_kept _ _ _ _ (or_introl F5'))
          | apply (key_kept _ _ _ _ (or_introl F4'))
          | apply (key_kept _ _ _ _ (or_introl F3'))
          | apply (key_kept _ _ _ _ (or_introl F2')) ].
Qed.




End Builders.

Lemma tables_are_the_loaders_witness :
  let out := default (∅, ∅) (fixture.run fixture.extracted).2 in
  (forall n, n ∈ load.tablas "dimensiones" -> is_Some (out.1 !! n))
  /\ (forall n, n ∈ load.tablas "hechos" -> is_Some (out.2 !! n)).
Proof.
  intros out.
  assert (Hsome : is_Some (fixture.run fixture.extracted).2)
    by (apply (bool_decide_unpack _); vm_compute; exact I).
  assert (Hrun : fixture.run fixture.extracted
                 = ((fixture.run fixture.extracted).1, Some (out.1, out.2))).
  { subst out. destruct (fixture.run fixture.extracted) as [s [[d h]|]];
      [reflexivity|by destruct Hsome]. }
  assert (Hv : fixture.extracted !! "vacantes" = Some fixture.vacantes)
    by (vm_compute; reflexivity).
  assert (Hc : fixture.extracted !! "competencias" = Some fixture.competencias)
    by (vm_compute; reflexivity).
  assert (He : fixture.extracted !! "educacion" = Some fixture.educacion)
    by (vm_compute; reflexivity).
  apply (tables_are_the_loaders (H := fixture.pandas) fixture.today fixture.extracted
           _ _ _ Hrun).
  - intros name Hn.
    repeat (apply elem_of_cons in Hn as [->|Hn]); [..|inversion Hn];
      apply (bool_decide_unpack _); vm_compute; exact I.
  - intros df Hdf. rewrite Hv in Hdf. injection Hdf as <-. in_list.
  - intros df Hdf. rewrite Hc in Hdf. injection Hdf as <-. in_list.
  - intros df Hdf. rewrite He in Hdf. injection Hdf as <-. split; in_list.
Defined.

End table_names.

Module requirements.

Import notions pd_facts pd_results method_facts pd_columns frame_facts foreign_keys.
Import pipeline_frame table_names.

Lemma merge_keys h left right left_on right_on df :
  merge h left right left_on right_on = Ok df ->
  left_on ∈ columns left /\ right_on ∈ columns right.
Proof.
  unfold merge.
  destruct (has_column left left_on) eqn:Hl; [|discriminate].
  destruct (has_column right right_on) eqn:Hr; [|discriminate].
  intros _. by split; apply has_column_true.
Qed.

Lemma key_other {A} n (t t' : gmap string A) k :
  (exists D, t' = <[n := D]> t) \/ t' = t -> n <> k -> t' !! k = t !! k.
Proof. intros [[D ->]| ->] Hne; [by rewrite lookup_insert_ne|done]. Qed.

Section Needs.

Context `{Pandas}.

Lemma dim_tiempo_needs self self' :
  _build_dim_tiempo self = (self', Ok tt) ->
  dataset_dates (datasets self) "vacantes" ["FECHAINICIO"; "FECHAFIN"; "FECHACREACION"]
  ++ dataset_dates (datasets self) "educacion" ["FECHAINICIO"; "FECHAFIN"] <> [].
Proof.
  intros Hrun Hnil. unfold _build_dim_tiempo in Hrun.
  rewrite bind_get in Hrun. cbv zeta in Hrun. rewrite Hnil in Hrun.
  discriminate Hrun.
Qed.

Lemma ubicaciones_de_source ds name fuente self self' l :
  ubicaciones_de ds name fuente self = (self', Ok l) ->
  l = [] \/ exists df, ds !! name = Some df /\ forall c, c ∈ ubicacion_cols -> c ∈ columns df.
Proof.
  unfold ubicaciones_de. destruct (ds !! name) as [df|]; [|intros [= <- <-]; by left].
  destruct (forallb _ _) eqn:Hall; [|intros [= <- <-]; by left].
  intros _. right. exists df. split; [done|]. intros c Hc.
  rewrite forallb_forall in Hall. apply has_column_true, Hall. by apply list_elem_of_In.
Qed.

Lemma dim_ubicacion_needs self self' :
  _build_dim_ubicacion self = (self', Ok tt) ->
  exists name df, name ∈ ["postulante"; "vacantes"] /\ datasets self !! name = Some df
                  /\ forall c, c ∈ ubicacion_cols -> c ∈ columns df.
Proof.
  intros Hrun. unfold _build_dim_ubicacion in Hrun.
  run_step Hrun.
  apply bind_ok in Hrun as (u1 & s1 & Hu1 & Hrun).
  pose proof (ubicaciones_de_ok _ _ _ _ _ _ Hu1) as ->.
  apply ubicaciones_de_source in Hu1 as [->|(df & Hdf & Hcols)].
  2: { exists "postulante", df. split; [in_list|done]. }
  apply bind_ok in Hrun as (u2 & s2 & Hu2 & Hrun).
  pose proof (ubicaciones_de_ok _ _ _ _ _ _ Hu2) as ->.
  apply ubicaciones_de_source in Hu2 as [->|(df & Hdf & Hcols)].
  2: { exists "vacantes", df. split; [in_list|done]. }
  discriminate Hrun.
Qed.

Lemma dim_vacante_needs self self' df :
  _build_dim_vacante self = (self', Ok tt) ->
  datasets self !! "vacantes" = Some df -> "AVISOID" ∈ columns df.
Proof.
  intros Hrun Hdf. unfold _build_dim_vacante in Hrun.
  rewrite bind_get, Hdf in Hrun. run_step Hrun.
  apply select_inv in E as [Hcols _]. apply Hcols. by left.
Qed.

(** A fact builder whose dataset is there joins it with its dimension:
    the dimension has to be there, and the dataset has to carry the
    join key. *)
Ltac fact_needs Hrun Hdf :=
  rewrite bind_get, Hdf in Hrun; do 3 run_step Hrun;
  match goal with
  | E : merge _ _ _ _ _ = Ok _ |- _ => apply merge_keys in E as [? _]
  end; eauto.

Lemma hechos_postulante_needs self self' df :
  _build_hechos_postulante self = (self', Ok tt) ->
  datasets self !! "postulante" = Some df ->
  is_Some (dimensions self !! "dim_postulante") /\ "ID_POSTULANTE" ∈ columns df.
Proof. intros Hrun Hdf. unfold _build_hechos_postulante in Hrun. fact_needs Hrun Hdf. Qed.

Lemma hechos_formacion_needs self self' df :
  _build_hechos_formacion self = (self', Ok tt) ->
  datasets self !! "educacion" = Some df ->
  is_Some (dimensions self !! "dim_postulante") /\ "ID_POSTULANTE" ∈ columns df.
Proof. intros Hrun Hdf. unfold _build_hechos_formacion in Hrun. fact_needs Hrun Hdf. Qed.

Lemma hechos_experiencia_needs self self' df :
  _build_hechos_experiencia self = (self', Ok tt) ->
  datasets self !! "experiencias" = Some df ->
  is_Some (dimensions self !! "dim_postulante") /\ "ID_POSTULANTE" ∈ columns df.
Proof. intros Hrun Hdf. unfold _build_hechos_experiencia in Hrun. fact_needs Hrun Hdf. Qed.

Lemma hechos_competencia_requerida_needs self self' df :
  _build_hechos_competencia_requerida self = (self', Ok tt) ->
  datasets self !! "competencias" = Some df ->
  is_Some (dimensions self !! "dim_vacante") /\ "AVISOID" ∈ columns df.
Proof.
  intros Hrun Hdf. unfold _build_hechos_competencia_requerida in Hrun. fact_needs Hrun Hdf.
Qed.

(** X4.  What [transform_all] needs of the mapping it is made with: it
    returns tables only if a date of the job-posting or education
    datasets parses, the applicant or the job-posting dataset has the
    four location columns, every dataset that is there carries its join
    key (ID_POSTULANTE; AVISOID for postings and competencies), the
    applicant dataset is there when education or experience is, and the
    job-posting dataset is there when the competencies are.  Otherwise it
    gives up and returns [(None, None)]. *)
Theorem transform_all_requirements today ds self' out :
  transform_all today (__init__ ds) = (self', Some out) ->
  dataset_dates ds "vacantes" ["FECHAINICIO"; "FECHAFIN"; "FECHACREACION"]
    ++ dataset_dates ds "educacion" ["FECHAINICIO"; "FECHAFIN"] <> []
  /\ (exists name df, name ∈ ["postulante"; "vacantes"] /\ ds !! name = Some df
                      /\ forall c, c ∈ ubicacion_cols -> c ∈ columns df)
  /\ (forall name key,
        (name, key) ∈ [ ("postulante", "ID_POSTULANTE"); ("educacion", "ID_POSTULANTE");
                        ("experiencias", "ID_POSTULANTE"); ("vacantes", "AVISOID");
                        ("competencias", "AVISOID") ] ->
        forall df, ds !! name = Some df -> key ∈ columns df)
  /\ (forall name, name ∈ ["educacion"; "experiencias"] ->
        is_Some (ds !! name) -> is_Some (ds !! "postulante"))
  /\ (is_Some (ds !! "competencias") -> is_Some (ds !! "vacantes")).
Proof.
  destruct out as [dims hechos]. intros Hrun.
  apply pipeline_steps in Hrun
    as (-> & -> & d1 & d2 & d3 & d4 & d5 & d6 & d7 & s1 & s2 & f1 & f2 & f3 & f4
        & Hdims & H1 & H2 & H3 & H4 & H5 & H6 & H7 & H8 & Hrec & F1 & F2 & F3 & F4 & F5).
  pose proof (dim_tiempo_needs _ _ H1) as N1.
  apply dim_tiempo_built in H1 as [E1 T1]. simpl in E1.
  pose proof (dim_ubicacion_needs _ _ H2) as N2. rewrite E1 in N2.
  apply dim_ubicacion_built in H2 as [E2 T2]. rewrite E1 in E2.
  apply dim_postulante_built in H3 as [E3 T3]. rewrite E2 in E3, T3.
  apply dim_empresa_built in H4 as [E4 T4]. rewrite E3 in E4, T4.
  pose proof (fun df => dim_vacante_needs _ _ df H5) as N5. rewrite E4 in N5.
  apply dim_vacante_built in H5 as [E5 T5]. rewrite E4 in E5, T5.
  apply dim_competencia_built in H6 as [E6 T6]. rewrite E5 in E6, T6.
  apply dim_carrera_built in H7 as [E7 T7]. rewrite E6 in E7, T7.
  apply dim_institucion_built in H8 as [E8 T8]. rewrite E7 in E8, T8.
  destruct fact_builders_keep_datasets as (Kp & Kf & Ke & Kv & Kc).
  destruct fact_builders_keep_dimensions as (Lp & Lf & Le & Lv & Lc).
  pose proof (Kp s2) as D1. rewrite F1 in D1. pose proof (Lp s2) as G1. rewrite F1 in G1.
  pose proof (Kf f1) as D2. rewrite F2 in D2. pose proof (Lf f1) as G2. rewrite F2 in G2.
  pose proof (Ke f2) as D3. rewrite F3 in D3. pose proof (Le f2) as G3. rewrite F3 in G3.
  pose proof (Kv f3) as D4. rewrite F4 in D4. pose proof (Lv f3) as G4. rewrite F4 in G4.
  pose proof (reconcile_keeps_dimensions today s1) as G0. rewrite Hrec in G0.
  simpl in D1, D2, D3, D4, G0, G1, G2, G3, G4.
  assert (Hds : forall name, name <> "vacantes" -> datasets s2 !! name = ds !! name).
  { intros name Hne.
    pose proof (reconcile_keeps_dataset today name ltac:(done) s1) as Hk.
    rewrite Hrec in Hk. simpl in Hk. by rewrite Hk, E8. }
  pose proof (fun df => hechos_postulante_needs _ _ df F1) as P1.
  pose proof (fun df => hechos_formacion_needs _ _ df F2) as P2.
  pose proof (fun df => hechos_experiencia_needs _ _ df F3) as P3.
  pose proof (fun df => hechos_competencia_requerida_needs _ _ df F5) as P5.
  rewrite D1 in D2. rewrite D2 in D3. rewrite D3 in D4.
  rewrite G1 in G2. rewrite G2 in G3. rewrite G3 in G4.
  rewrite D1, G1 in P2. rewrite D2, G2 in P3. rewrite D4, G4 in P5.
  rewrite G0 in P1, P2, P3, P5.
  rewrite Hds in P1, P2, P3, P5 by discriminate.
  (* the dimension of the applicants is there only when its dataset is *)
  assert (Hpost : is_Some (dimensions s1 !! "dim_postulante") -> is_Some (ds !! "postulante")).
  { rewrite (key_other _ _ _ _ (written _ _ _ _ _ T8)) by discriminate.
    rewrite (key_other _ _ _ _ (written _ _ _ _ _ T7)) by discriminate.
    rewrite (key_other _ _ _ _ (written _ _ _ _ _ T6)) by discriminate.
    rewrite (key_other _ _ _ _ (written _ _ _ _ _ T5)) by discriminate.
    rewrite (key_other _ _ _ _ (written _ _ _ _ _ T4)) by discriminate.
    destruct T3 as [(D & df & _ & -> & _)|[-> _]]; [by eauto|].
    rewrite (key_other _ _ _ _ (or_introl T2)) by discriminate.
    rewrite (key_other _ _ _ _ (or_introl T1)) by discriminate.
    simpl. rewrite lookup_empty. by intros [? ?]. }
  assert (Hvac : is_Some (dimensions s1 !! "dim_vacante") -> is_Some (ds !! "vacantes")).
  { rewrite (key_other _ _ _ _ (written _ _ _ _ _ T8)) by discriminate.
    rewrite (key_other _ _ _ _ (written _ _ _ _ _ T7)) by discriminate.
    rewrite (key_other _ _ _ _ (written _ _ _ _ _ T6)) by discriminate.
    destruct T5 as [(D & df & _ & -> & _)|[-> _]]; [by eauto|].
    rewrite (key_other _ _ _ _ (written _ _ _ _ _ T4)) by discriminate.
    rewrite (key_other _ _ _ _ (written _ _ _ _ _ T3)) by discriminate.
    rewrite (key_other _ _ _ _ (or_introl T2)) by discriminate.
    rewrite (key_other _ _ _ _ (or_introl T1)) by discriminate.
    simpl. rewrite lookup_empty. by intros [? ?]. }
  split; [done|]. split; [done|]. split; [|split].
  - intros name key Hin df Hdf.
    repeat (apply elem_of_cons in Hin as [[= -> ->]|Hin]); [..|inversion Hin].
    + by apply (P1 df).
    + by apply (P2 df).
    + by apply (P3 df).
    + by apply N5.
    + by apply (P5 df).
  - intros name Hin [df Hdf]. apply Hpost.
    repeat (apply elem_of_cons in Hin as [->|Hin]); [..|inversion Hin].
    + by apply (P2 df).
    + by apply (P3 df).
  - intros [df Hdf]. apply Hvac. by apply (P5 df).
Qed.

End Needs.

Lemma transform_all_requirements_witness :
  dataset_dates (H := fixture.pandas) fixture.extracted "vacantes"
      ["FECHAINICIO"; "FECHAFIN"; "FECHACREACION"]
    ++ dataset_dates (H := fixture.pandas) fixture.extracted "educacion"
         ["FECHAINICIO"; "FECHAFIN"] <> []
  /\ (forall df, fixture.extracted !! "competencias" = Some df -> "AVISOID" ∈ columns df).
Proof.
  assert (Hsome : is_Some (fixture.run fixture.extracted).2)
    by (apply (bool_decide_unpack _); vm_compute; exact I).
  destruct (fixture.run fixture.extracted) as [s [out|]] eqn:Hrun; [|by destruct Hsome].
  destruct (transform_all_requirements (H := fixture.pandas) _ _ _ _ Hrun)
    as (Hdates & _ & Hkeys & _).
  split; [exact Hdates|]. intros df. apply Hkeys. in_list.
Defined.

End requirements.

Module reconcile_again.

Import pd_facts reconcile_facts.




End reconcile_again.

Module dimension_facts.

Import notions pd_facts pd_results method_facts pd_columns dim_tiempo_facts.
Import dimension_notions.

Lemma drop_duplicates_one_column c (l : list Row) :
  drop_duplicates None (mkDF [c] l) = Ok (mkDF [c] (keep_first (key_of [c]) [] l)).
Proof.
  unfold drop_duplicates, empty. cbn [columns rows default].
  destruct l as [|r l]; [done|]. by rewrite missing_label_None.
Qed.

Lemma select_dedup df c :
  c ∈ columns df ->
  exists d1 d2,
    select df [c] = Ok d1 /\ drop_duplicates None d1 = Ok d2
    /\ columns d2 = [c]
    /\ column c d2 = unique (column c df).
Proof.
  intros Hc. eexists _, _.
  rewrite select_ok by (intros c' Hc'; apply elem_of_cons in Hc' as [->|Hc']; [done|inversion Hc']).
  split; [reflexivity|]. rewrite drop_duplicates_one_column.
  split; [reflexivity|]. split; [reflexivity|].
  unfold column at 1. cbn [rows].
  rewrite keep_first_fmap, <- list_fmap_compose.
  unfold unique, column. rewrite <- keys_keep_first.
  rewrite (keep_first_ext _ ((fun v : value => [v]) ∘ (fun r => cell r c))).
  2: { intros r. unfold key_of. simpl. rewrite cell_project_in; [done|by left]. }
  rewrite (keep_first_inj (fun v : value => [v]) (fun r => cell r c) _ []).
  apply list_fmap_ext. intros _ r _. simpl. rewrite cell_project_in; [done|by left].
Qed.

Lemma dropna_one_column c d :
  columns d = [c] ->
  exists d', dropna None d = Ok d' /\ columns d' = [c]
             /\ column c d' = series_dropna (column c d).
Proof.
  intros Hc. unfold dropna. cbn [default]. rewrite missing_label_None by done.
  eexists. split; [reflexivity|]. split; [done|].
  unfold column, series_dropna. cbn [rows]. rewrite Hc.
  rewrite (List.filter_ext _ (fun r => notna (cell r c)))
    by (intros r; unfold key_of; simpl; apply andb_true_r).
  induction (rows d) as [|r l IH]; [done|]. cbn [List.filter fmap list_fmap].
  destruct (notna (cell r c)); cbn [fmap list_fmap]; by rewrite IH.
Qed.

Lemma renamed_label_hit c c' : renamed_label [(c, c')] c = c'.
Proof. unfold renamed_label. simpl. by rewrite lookup_insert_eq. Qed.

Lemma renamed_label_miss c c' k : k <> c -> renamed_label [(c, c')] k = k.
Proof. intros Hne. unfold renamed_label. simpl. by rewrite lookup_insert_ne, lookup_empty. Qed.

(** Numbering a one-column frame and renaming its column. *)
Lemma number_and_rename sk c c' d :
  columns d = [c] -> sk <> c -> sk <> c' ->
  exists d', insert_range sk d = Ok d'
    /\ columns (rename [(c, c')] d') = [sk; c']
    /\ numbers sk c' (column c d) (rename [(c, c')] d').
Proof.
  intros Hc Hne Hne'.
  rewrite insert_range_ok by (rewrite Hc; by intros [->|[]%elem_of_nil]%elem_of_cons).
  eexists. split; [reflexivity|].
  unfold rename. cbn [columns rows]. rewrite Hc. cbn [fmap list_fmap].
  rewrite renamed_label_hit, renamed_label_miss by done.
  split; [done|].
  unfold numbers, column, len. cbn [rows]. rewrite length_fmap.
  set (f := fun (i : Z) (r : Row) => <[sk := VInt i]> r).
  assert (Hcell : forall i r,
            cell (relabel [sk; c] [sk; c'] (f i r)) sk = VInt i
            /\ cell (relabel [sk; c] [sk; c'] (f i r)) c' = cell r c).
  { intros i r. unfold relabel, f. simpl. split.
    - by rewrite cell_insert_eq, cell_insert_eq.
    - rewrite cell_insert_ne, cell_insert_eq by done. by rewrite cell_insert_ne. }
  generalize (range1 (length (rows d))) (length_range1 (length (rows d))).
  induction (rows d) as [|r l IH]; intros [|i js] Hlen; try discriminate; [done|].
  simpl in Hlen. injection Hlen as Hlen. specialize (IH js Hlen) as [IH1 IH2].
  cbn [fmap list_fmap zip_with]. destruct (Hcell i r) as [-> ->]. by rewrite IH1, IH2.
Qed.

Section Dimensions.

Context `{Pandas}.

(** X6.  With the job-posting dataset holding IDEMPRESA,
    [_build_dim_empresa] returns and stores dim_empresa with the two
    columns empresa_sk and id_empresa_original: one row per distinct
    IDEMPRESA, in the order of first appearance, a null counting as one
    value, numbered from 1.  [_build_dim_competencia] does the same with
    NOMBRECOMPETENCIA of the competency dataset. *)
Theorem key_dimensions_number_distinct_values self build name src c sk c' df :
  (build, name, src, c, sk, c')
    ∈ [ (_build_dim_empresa, "dim_empresa", "vacantes", "IDEMPRESA",
         "empresa_sk", "id_empresa_original");
        (_build_dim_competencia, "dim_competencia", "competencias", "NOMBRECOMPETENCIA",
         "competencia_sk", "nombre_competencia") ] ->
  datasets self !! src = Some df -> c ∈ columns df ->
  let vals := unique (column c df) in
  exists self' dim,
    build self = (self', Ok tt)
    /\ dimensions self' !! name = Some dim
    /\ columns dim = [sk; c']
    /\ numbers sk c' vals dim
    /\ NoDup vals
    /\ (forall v, v ∈ vals <-> v ∈ column c df).
Proof.
  intros Hin Hdf Hc vals.
  destruct (select_dedup df c Hc) as (d1 & d2 & H1 & H2 & Hc2 & Hv2).
  assert (Hhas : has_column df c = true) by by apply has_column_true.
  repeat (apply elem_of_cons in Hin as [[= -> -> -> -> -> ->]|Hin]); [..|inversion Hin].
  - destruct (number_and_rename "empresa_sk" "IDEMPRESA" "id_empresa_original" d2)
      as (d3 & H3 & Hc3 & Hn3); [done..|].
    eexists _, _. split.
    { unfold _build_dim_empresa. rewrite bind_get, Hdf, Hhas. cbn [negb].
      rewrite bind_lift, H1, bind_lift, H2, bind_lift, H3. reflexivity. }
    cbn [dimensions]. split; [apply lookup_insert_eq|]. split; [done|].
    rewrite Hv2 in Hn3. split; [done|]. split; [apply NoDup_unique|].
    intros v. apply elem_of_unique.
  - destruct (number_and_rename "competencia_sk" "NOMBRECOMPETENCIA" "nombre_competencia" d2)
      as (d3 & H3 & Hc3 & Hn3); [done..|].
    eexists _, _. split.
    { unfold _build_dim_competencia. rewrite bind_get, Hdf, Hhas. cbn [negb].
      rewrite bind_lift, H1, bind_lift, H2, bind_lift, H3. reflexivity. }
    cbn [dimensions]. split; [apply lookup_insert_eq|]. split; [done|].
    rewrite Hv2 in Hn3. split; [done|]. split; [apply NoDup_unique|].
    intros v. apply elem_of_unique.
Qed.

End Dimensions.

Lemma key_dimensions_number_distinct_values_witness :
  exists self' dim,
    _build_dim_empresa (__init__ fixture.extracted) = (self', Ok tt)
    /\ dimensions self' !! "dim_empresa" = Some dim
    /\ column "empresa_sk" dim = [VInt 1; VInt 2]
    /\ column "id_empresa_original" dim = [VInt 500; VInt 501].
Proof.
  destruct (key_dimensions_number_distinct_values
              (__init__ fixture.extracted) _build_dim_empresa "dim_empresa" "vacantes"
              "IDEMPRESA" "empresa_sk" "id_empresa_original" fixture.vacantes)
    as (self' & dim & Hrun & Hdim & _ & [Hsk Hname] & _).
  - left.
  - vm_compute. reflexivity.
  - apply (bool_decide_unpack _). vm_compute. exact I.
  - exists self', dim. split; [exact Hrun|]. split; [exact Hdim|]. split.
    + unfold column. rewrite Hsk. vm_compute. reflexivity.
    + unfold column. rewrite Hname. vm_compute. reflexivity.
Defined.

End dimension_facts.

Module merge_facts.

Import notions pd_facts pd_results method_facts pd_columns dim_tiempo_facts.
Import dimension_notions.

Lemma relabel_same (cs : list string) (r : Row) : relabel cs cs r = project cs r.
Proof.
  unfold relabel, project. f_equal.
  induction cs as [|c cs IH]; [done|]. cbn [fmap list_fmap zip_with]. by rewrite IH.
Qed.

Lemma suffix_clash_same (cs : list string) : suffix_clash cs cs = false.
Proof.
  unfold suffix_clash. generalize (duplicated [] cs). intros l.
  induction l as [|b l IH]; [done|]. cbn [zip_with existsb]. rewrite IH. by destruct b.
Qed.

Lemma suffixed_nil sfx (cs : list string) : suffixed [] sfx <$> cs = cs.
Proof.
  induction cs as [|c cs IH]; [done|]. cbn [fmap list_fmap]. by rewrite IH.
Qed.

(** A merge of two frames that share no label: no label is suffixed. *)
Lemma merge_disjoint h left right lo ro :
  lo ∈ columns left -> ro ∈ columns right ->
  (forall c, c ∈ columns left -> c ∉ columns right) ->
  merge h left right lo ro
  = Ok (mkDF (columns left ++ columns right)
          (rows left ≫= fun l =>
             match matches right ro (cell l lo), h with
             | [], Inner => []
             | [], Left => [project (columns left) l ∪ project (columns right) ∅]
             | ms, _ => (fun r => project (columns left) l ∪ project (columns right) r) <$> ms
             end)).
Proof.
  intros Hlo Hro Hdisj. unfold merge.
  apply has_column_true in Hlo, Hro. rewrite Hlo, Hro. cbn [negb].
  assert (Hov : List.filter (fun c => bool_decide (c ∈ columns right)) (columns left) = []).
  { induction (columns left) as [|c cs IH]; [done|]. simpl.
    rewrite bool_decide_eq_false_2 by (apply Hdisj; by left).
    apply IH. intros c' Hc'. apply Hdisj. by right. }
  rewrite Hov, !suffixed_nil, !suffix_clash_same. cbn [orb].
  do 2 f_equal. apply list_bind_ext; [|done]. intros l.
  rewrite relabel_same. destruct (matches _ _ _); [by destruct h|].
  destruct h; apply list_fmap_ext; intros; by rewrite relabel_same.
Qed.

Lemma matches_unique right ro r :
  NoDup (column ro right) -> r ∈ rows right -> matches right ro (cell r ro) = [r].
Proof.
  unfold column, matches. induction (rows right) as [|x l IH]; intros Hnd Hr; [inversion Hr|].
  cbn [fmap list_fmap] in Hnd. apply NoDup_cons in Hnd as [Hx Hnd].
  assert (Hnone : forall k, k ∉ (fun r => cell r ro) <$> l ->
            List.filter (fun r => bool_decide (cell r ro = k)) l = []).
  { clear. intros k. induction l as [|y l IH]; [done|].
    cbn [fmap list_fmap List.filter]. intros Hk. apply not_elem_of_cons in Hk as [Hne Hk].
    rewrite bool_decide_eq_false_2 by done. by apply IH. }
  cbn [List.filter]. apply elem_of_cons in Hr as [->|Hr].
  - rewrite bool_decide_eq_true_2 by done. by rewrite Hnone.
  - rewrite bool_decide_eq_false_2.
    + by apply IH.
    + intros Heq. apply Hx. rewrite Heq. apply list_elem_of_fmap. eauto.
Qed.

Lemma matches_none right ro k :
  k ∉ column ro right -> matches right ro k = [].
Proof.
  unfold column, matches. induction (rows right) as [|y l IH]; [done|].
  cbn [fmap list_fmap List.filter]. intros Hk. apply not_elem_of_cons in Hk as [Hne Hk].
  rewrite bool_decide_eq_false_2 by done. by apply IH.
Qed.

(** A left merge against a frame whose keys do not repeat keeps the rows
    of the left frame, one for one. *)
Lemma merge_left_one_for_one left right lo ro :
  lo ∈ columns left -> ro ∈ columns right ->
  (forall c, c ∈ columns left -> c ∉ columns right) ->
  NoDup (column ro right) ->
  merge Left left right lo ro
  = Ok (mkDF (columns left ++ columns right)
          ((fun l => project (columns left) l
                     ∪ project (columns right)
                         (default ∅ (head (matches right ro (cell l lo)))))
           <$> rows left)).
Proof.
  intros Hlo Hro Hdisj Hnd. rewrite merge_disjoint by done. do 2 f_equal.
  induction (rows left) as [|l ls IH]; [done|]. rewrite bind_cons, fmap_cons, IH. clear IH.
  destruct (decide (cell l lo ∈ column ro right)) as [Hin|Hout].
  - apply list_elem_of_fmap in Hin as (r & Hr & Hin). rewrite Hr.
    by rewrite matches_unique.
  - by rewrite matches_none.
Qed.

Lemma cell_union_l (L : list string) (l m : Row) c :
  c ∈ L -> cell (project L l ∪ m) c = cell l c.
Proof.
  intros Hc. unfold cell at 1.
  rewrite (lookup_union_Some_l _ _ _ (cell l c)); [done|].
  rewrite lookup_project. by rewrite decide_True.
Qed.

Lemma cell_union_r (L : list string) (l m : Row) c :
  c ∉ L -> cell (project L l ∪ m) c = cell m c.
Proof.
  intros Hc. unfold cell. rewrite lookup_union_r; [done|].
  rewrite lookup_project. by rewrite decide_False.
Qed.

End merge_facts.

Module name_dimensions.

Import notions pd_facts pd_results method_facts pd_columns dim_tiempo_facts.
Import dimension_notions dimension_facts merge_facts.
Import foreign_keys table_names.

Lemma NoDup_series_dropna (s : list value) : NoDup s -> NoDup (series_dropna s).
Proof.
  unfold series_dropna. induction 1 as [|x l Hx Hnd IH]; [constructor|].
  cbn [List.filter]. destruct (notna x); [|done]. constructor; [|done].
  rewrite list_elem_of_In, filter_In, <- list_elem_of_In. tauto.
Qed.

Lemma elem_of_dropna_unique (s : list value) v :
  v ∈ series_dropna (unique s) <-> v ∈ s /\ v <> VNull.
Proof. by rewrite elem_of_series_dropna, elem_of_unique. Qed.

(** The first non-null cell of [c] among the rows of [df] whose [k] is
    [kv]: what [groupby(k)[c].first()] holds for the group [kv]. *)
Lemma groupby_first_ok k c df :
  k ∈ columns df -> c ∈ columns df -> k <> c ->
  exists grp, groupby_first k c df = Ok grp
    /\ columns grp = [k; c]
    /\ column k grp = unique (series_dropna (column k df))
    /\ forall g, g ∈ rows grp ->
         cell g c = default VNull (head (series_dropna
                      ((fun r => cell r c)
                       <$> List.filter (fun r => bool_decide (cell r k = cell g k)) (rows df)))).
Proof.
  intros Hk Hc Hne. unfold groupby_first.
  apply has_column_true in Hk, Hc. rewrite Hk, Hc. cbn [negb].
  eexists. split; [reflexivity|]. split; [done|].
  assert (Hcell : forall kv x, cell (({[ k := kv ]} : Row) ∪ {[ c := x ]}) k = kv
                            /\ cell (({[ k := kv ]} : Row) ∪ {[ c := x ]}) c = x).
  { intros kv x. unfold cell. split.
    - by rewrite (lookup_union_Some_l _ _ _ kv) by apply lookup_singleton_eq.
    - rewrite lookup_union_r by (by apply lookup_singleton_ne).
      by rewrite lookup_singleton_eq. }
  split.
  - unfold column at 1. cbn [rows]. rewrite <- list_fmap_compose.
    transitivity (id <$> unique (series_dropna (column k df))); [|apply list_fmap_id].
    apply list_fmap_ext. intros _ kv _. simpl. apply Hcell.
  - intros g Hg. cbn [rows] in Hg. apply list_elem_of_fmap in Hg as (kv & -> & _).
    destruct (Hcell kv (default VNull (head (series_dropna
                ((fun r => cell r c)
                 <$> List.filter (fun r => bool_decide (cell r k = kv)) (rows df))))))
      as [-> ->].
    done.
Qed.

Lemma cell_delete (r : Row) c c' : c <> c' -> cell (delete c r) c' = cell r c'.
Proof. intros Hne. unfold cell. by rewrite lookup_delete_ne. Qed.

Section Dimensions.

Context `{Pandas}.

Lemma dim_carrera_run self df :
  datasets self !! "educacion" = Some df -> "CARRERA" ∈ columns df ->
  exists self' dim,
    _build_dim_carrera self = (self', Ok tt)
    /\ dimensions self' !! "dim_carrera" = Some dim
    /\ columns dim = ["carrera_sk"; "nombre_carrera"]
                     ++ (if decide ("GRADO" ∈ columns df) then ["GRADO"] else [])
    /\ numbers "carrera_sk" "nombre_carrera"
         (series_dropna (unique (column "CARRERA" df))) dim
    /\ ("GRADO" ∈ columns df ->
        forall d, d ∈ rows dim ->
          cell d "GRADO"
          = default VNull (head (series_dropna
              ((fun r => cell r "GRADO")
               <$> List.filter
                     (fun r => bool_decide (cell r "CARRERA" = cell d "nombre_carrera"))
                     (rows df))))).
Proof.
  intros Hdf Hc.
  destruct (select_dedup df "CARRERA" Hc) as (d1 & d2 & H1 & H2 & Hc2 & Hv2).
  destruct (dropna_one_column "CARRERA" d2 Hc2) as (d3 & H3 & Hc3 & Hv3).
  destruct (number_and_rename "carrera_sk" "CARRERA" "nombre_carrera" d3)
    as (d4 & H4 & Hc4 & Hn4); [done..|].
  rewrite Hv3, Hv2 in Hn4.
  set (dim0 := rename [("CARRERA", "nombre_carrera")] d4) in *.
  assert (Hhas : has_column df "CARRERA" = true) by by apply has_column_true.
  assert (Hstart :
            _build_dim_carrera self
            = bind (if has_column df "GRADO" then
                      (grado_por_carrera <- lift (groupby_first "CARRERA" "GRADO" df) ;;
                       dim_carrera <- lift (merge Left dim0 grado_por_carrera
                                              "nombre_carrera" "CARRERA") ;;
                       lift (drop_column "CARRERA" dim_carrera))%method
                    else ret dim0)
                (fun dim => set_dimension "dim_carrera" dim) self).
  { unfold _build_dim_carrera. rewrite bind_get, Hdf, Hhas. cbn [negb].
    by rewrite bind_lift, H1, bind_lift, H2, bind_lift, H3, bind_lift, H4. }
  rewrite Hstart. clear Hstart.
  destruct (decide ("GRADO" ∈ columns df)) as [Hg|Hg].
  - rewrite (proj2 (has_column_true df "GRADO") Hg).
    destruct (groupby_first_ok "CARRERA" "GRADO" df Hc Hg ltac:(done))
      as (grp & Hgrp & Hcg & Hkg & Hfirst).
    assert (Hlo : "nombre_carrera" ∈ columns dim0) by (rewrite Hc4; by right; left).
    assert (Hro : "CARRERA" ∈ columns grp) by (rewrite Hcg; by left).
    assert (Hdisj : forall c, c ∈ columns dim0 -> c ∉ columns grp).
    { rewrite Hc4, Hcg. intros c Hin.
      repeat (apply elem_of_cons in Hin as [->|Hin]); [..|inversion Hin]; not_in_list. }
    assert (Hnd : NoDup (column "CARRERA" grp)) by (rewrite Hkg; apply NoDup_unique).
    pose proof (merge_left_one_for_one dim0 grp _ _ Hlo Hro Hdisj Hnd) as Hmerge.
    rewrite Hc4, Hcg in Hmerge.
    rewrite bind_assoc, bind_lift, Hgrp, bind_assoc, bind_lift, Hmerge.
    rewrite bind_lift. unfold drop_column, has_column. cbn [columns rows app].
    rewrite bool_decide_eq_true_2 by (by right; right; left).
    eexists _, _. split; [reflexivity|]. cbn [dimensions].
    split; [apply lookup_insert_eq|]. split; [reflexivity|].
    set (g := fun l : Row =>
                delete "CARRERA"
                  (project ["carrera_sk"; "nombre_carrera"] l
                   ∪ project ["CARRERA"; "GRADO"]
                       (default ∅ (head (matches grp "CARRERA" (cell l "nombre_carrera")))))).
    assert (Hleft : forall l c, c ∈ ["carrera_sk"; "nombre_carrera"] -> cell (g l) c = cell l c).
    { intros l c Hin. unfold g. rewrite cell_delete, cell_union_l; [done|done|].
      intros <-. revert Hin. not_in_list. }
    split.
    + destruct Hn4 as [Hsk Hname]. split; cbn [rows]; rewrite <- !list_fmap_compose.
      * rewrite <- Hsk. apply list_fmap_ext. intros _ l _. unfold compose.
        apply (Hleft l). by left.
      * rewrite <- Hname. apply list_fmap_ext. intros _ l _. unfold compose.
        apply (Hleft l). by right; left.
    + intros _ d Hd. cbn [rows] in Hd. rewrite <- list_fmap_compose in Hd.
      apply list_elem_of_fmap in Hd as (l & -> & Hl). unfold compose.
      change (delete "CARRERA" _) with (g l).
      rewrite (Hleft l "nombre_carrera") by (by right; left).
      assert (Hv : cell l "nombre_carrera" ∈ column "CARRERA" grp).
      { rewrite Hkg, elem_of_unique.
        destruct Hn4 as [_ Hname]. rewrite elem_of_series_dropna.
        apply elem_of_dropna_unique. rewrite <- Hname.
        apply list_elem_of_fmap. eauto. }
      apply list_elem_of_fmap in Hv as (gr & Hgr & Hin).
      unfold g. rewrite cell_delete by done.
      rewrite cell_union_r by not_in_list.
      rewrite Hgr, matches_unique by (rewrite ?Hkg; first [apply NoDup_unique|done]).
      cbn [head default]. rewrite cell_project_in by (by right; left).
      exact (Hfirst gr Hin).
  - rewrite (proj2 (has_column_false df "GRADO") Hg). rewrite bind_ret.
    eexists _, _. split; [reflexivity|]. cbn [dimensions].
    split; [apply lookup_insert_eq|]. split; [done|]. split; [done|]. done.
Qed.

(** X7.  With the education dataset holding CARRERA, [_build_dim_carrera]
    returns and stores dim_carrera with one row per distinct non-null
    CARRERA, in the order of first appearance, numbered from 1 by
    carrera_sk: the null career gets no row.  [_build_dim_institucion]
    does the same with INSTITUCION. *)
Theorem name_dimensions_number_distinct_names self build name c sk c' df :
  (build, name, c, sk, c')
    ∈ [ (_build_dim_carrera, "dim_carrera", "CARRERA", "carrera_sk", "nombre_carrera");
        (_build_dim_institucion, "dim_institucion", "INSTITUCION", "institucion_sk",
         "nombre_institucion") ] ->
  datasets self !! "educacion" = Some df -> c ∈ columns df ->
  let vals := series_dropna (unique (column c df)) in
  exists self' dim,
    build self = (self', Ok tt)
    /\ dimensions self' !! name = Some dim
    /\ numbers sk c' vals dim
    /\ NoDup vals
    /\ (forall v, v ∈ vals <-> v ∈ column c df /\ v <> VNull).
Proof.
  intros Hin Hdf Hc vals.
  assert (Hvals : NoDup vals /\ forall v, v ∈ vals <-> v ∈ column c df /\ v <> VNull).
  { split; [apply NoDup_series_dropna, NoDup_unique|]. intros v. apply elem_of_dropna_unique. }
  repeat (apply elem_of_cons in Hin as [[= -> -> -> -> ->]|Hin]); [..|inversion Hin].
  - destruct (dim_carrera_run self df Hdf Hc) as (self' & dim & Hrun & Hdim & _ & Hn & _).
    by exists self', dim.
  - destruct (select_dedup df "INSTITUCION" Hc) as (d1 & d2 & H1 & H2 & Hc2 & Hv2).
    destruct (dropna_one_column "INSTITUCION" d2 Hc2) as (d3 & H3 & Hc3 & Hv3).
    destruct (number_and_rename "institucion_sk" "INSTITUCION" "nombre_institucion" d3)
      as (d4 & H4 & Hc4 & Hn4); [done..|].
    rewrite Hv3, Hv2 in Hn4.
    assert (Hhas : has_column df "INSTITUCION" = true) by by apply has_column_true.
    eexists _, _. split.
    { unfold _build_dim_institucion. rewrite bind_get, Hdf, Hhas. cbn [negb].
      rewrite bind_lift, H1, bind_lift, H2, bind_lift, H3, bind_lift, H4. reflexivity. }
    cbn [dimensions]. split; [apply lookup_insert_eq|]. done.
Qed.

(** X8.  When the education dataset also has GRADO, dim_carrera has the
    three columns carrera_sk, nombre_carrera and GRADO, the join with the
    degrees neither adds nor drops a career, and the degree of a career
    is the first non-null GRADO among the education rows of that career,
    null when they have none. *)
Theorem dim_carrera_takes_first_degree self df :
  datasets self !! "educacion" = Some df ->
  "CARRERA" ∈ columns df -> "GRADO" ∈ columns df ->
  exists self' dim,
    _build_dim_carrera self = (self', Ok tt)
    /\ dimensions self' !! "dim_carrera" = Some dim
    /\ columns dim = ["carrera_sk"; "nombre_carrera"; "GRADO"]
    /\ column "nombre_carrera" dim = series_dropna (unique (column "CARRERA" df))
    /\ forall d, d ∈ rows dim ->
         cell d "GRADO"
         = default VNull (head (series_dropna
             ((fun r => cell r "GRADO")
              <$> List.filter
                    (fun r => bool_decide (cell r "CARRERA" = cell d "nombre_carrera"))
                    (rows df)))).
Proof.
  intros Hdf Hc Hg.
  destruct (dim_carrera_run self df Hdf Hc) as (self' & dim & Hrun & Hdim & Hcols & Hn & Hgr).
  exists self', dim. split; [done|]. split; [done|].
  split; [by rewrite Hcols, decide_True|]. split; [|by apply Hgr].
  by destruct Hn as [_ Hname].
Qed.

End Dimensions.

Lemma name_dimensions_number_distinct_names_witness :
  exists self' dim,
    _build_dim_institucion (__init__ fixture.extracted) = (self', Ok tt)
    /\ dimensions self' !! "dim_institucion" = Some dim
    /\ column "institucion_sk" dim = [VInt 1]
    /\ column "nombre_institucion" dim = [VStr "UNMSM"].
Proof.
  destruct (name_dimensions_number_distinct_names
              (__init__ fixture.extracted) _build_dim_institucion "dim_institucion"
              "INSTITUCION" "institucion_sk" "nombre_institucion" fixture.educacion)
    as (self' & dim & Hrun & Hdim & [Hsk Hname] & _).
  - right; left.
  - vm_compute. reflexivity.
  - in_list.
  - exists self', dim. split; [exact Hrun|]. split; [exact Hdim|]. split.
    + unfold column. rewrite Hsk. vm_compute. reflexivity.
    + unfold column. rewrite Hname. vm_compute. reflexivity.
Defined.

Lemma dim_carrera_takes_first_degree_witness :
  exists self' dim,
    _build_dim_carrera (__init__ fixture.extracted) = (self', Ok tt)
    /\ dimensions self' !! "dim_carrera" = Some dim
    /\ column "nombre_carrera" dim = [VStr "DERECHO"]
    /\ forall d, d ∈ rows dim -> cell d "GRADO" = VStr "BACHILLER".
Proof.
  destruct (dim_carrera_takes_first_degree
              (__init__ fixture.extracted) fixture.educacion)
    as (self' & dim & Hrun & Hdim & Hcols & Hname & Hgrado).
  - vm_compute. reflexivity.
  - in_list.
  - in_list.
  - assert (Hn : column "nombre_carrera" dim = [VStr "DERECHO"])
      by (rewrite Hname; vm_compute; reflexivity).
    exists self', dim. split; [exact Hrun|]. split; [exact Hdim|]. split; [exact Hn|].
    intros d Hd. rewrite (Hgrado d Hd).
    assert (Hd' : cell d "nombre_carrera" ∈ column "nombre_carrera" dim)
      by (apply list_elem_of_fmap; eauto).
    rewrite Hn in Hd'. apply list_elem_of_singleton in Hd'. rewrite Hd'.
    vm_compute. reflexivity.
Defined.

End name_dimensions.

Module dim_ubicacion_facts.

Import notions pd_facts pd_results method_facts pd_columns dim_tiempo_facts.
Import dimension_notions dimension_facts merge_facts foreign_keys table_names.

Local Abbreviation cs := ["DEPARTAMENTO"; "PROVINCIA"; "DISTRITO"; "UBIGEO"; "fuente"].

(** The location frame of one dataset, as [ubicaciones_de] makes it. *)
Local Abbreviation tagged tag df :=
  (assign "fuente" (fun _ => VStr tag)
     (mkDF ubicacion_cols (project ubicacion_cols <$> rows df))).

Lemma ubicaciones_de_run ds name tag self :
  ubicaciones_de ds name tag self
  = (self, Ok (match ds !! name with
               | Some df => if forallb (has_column df) ubicacion_cols
                            then [tagged tag df] else []
               | None => []
               end)).
Proof.
  unfold ubicaciones_de. destruct (ds !! name) as [df|]; [|done].
  destruct (forallb _ _) eqn:Hall; [|done].
  rewrite bind_lift, select_ok; [done|].
  intros c Hc. rewrite forallb_forall in Hall. apply has_column_true, Hall.
  by apply list_elem_of_In.
Qed.

Lemma columns_tagged tag df : columns (tagged tag df) = cs.
Proof. reflexivity. Qed.

(** The cells of a row of a tagged location frame, as [concat] holds
    it. *)
Lemma cell_tagged tag (r : Row) c :
  cell (project cs (project cs (set_cell "fuente" (fun _ => VStr tag)
                                  (project ubicacion_cols r)))) c
  = if decide (c ∈ ubicacion_cols) then cell r c
    else if decide (c = "fuente") then VStr tag else VNull.
Proof.
  rewrite !cell_project. destruct (decide (c ∈ cs)) as [Hin|Hout].
  - destruct (decide (c = "fuente")) as [->|Hne].
    + rewrite cell_set_cell_eq. by rewrite decide_False by not_in_list.
    + rewrite cell_set_cell_ne by done. rewrite cell_project.
      destruct (decide (c ∈ ubicacion_cols)); [done|].
      exfalso. unfold ubicacion_cols in *.
      repeat (apply elem_of_cons in Hin as [->|Hin]); [..|inversion Hin];
        first [done | apply n; in_list].
  - rewrite decide_False.
    + rewrite decide_False; [done|]. intros ->. apply Hout. in_list.
    + intros Hin. apply Hout. unfold ubicacion_cols in Hin.
      repeat (apply elem_of_cons in Hin as [->|Hin]); [..|inversion Hin]; in_list.
Qed.

Lemma bind_run {A B} (m : M A) (k : A -> M B) self self' a :
  m self = (self', Ok a) -> bind m k self = k a self'.
Proof. intros Hm. unfold bind. by rewrite Hm. Qed.

(** The columns of a frame whose rows were numbered and then mapped. *)
Lemma numbered_key_column sk (g : Row -> Row) (rs : list Row) :
  (forall i r, cell (g (<[sk := VInt i]> r)) sk = VInt i) ->
  (fun r => cell r sk)
    <$> (g <$> zip_with (fun i r => <[sk := VInt i]> r) (range1 (length rs)) rs)
  = VInt <$> range1 (length rs).
Proof.
  intros Hcell.
  generalize (range1 (length rs)) (length_range1 (length rs)).
  induction rs as [|r rs IH]; intros [|i js] Hlen; try discriminate; [done|].
  cbn [zip_with fmap list_fmap]. rewrite Hcell. f_equal. apply IH. by injection Hlen.
Qed.

Lemma numbered_value_column sk c c' (g : Row -> Row) (rs : list Row) :
  (forall i r, cell (g (<[sk := VInt i]> r)) c' = cell r c) ->
  (fun r => cell r c')
    <$> (g <$> zip_with (fun i r => <[sk := VInt i]> r) (range1 (length rs)) rs)
  = (fun r => cell r c) <$> rs.
Proof.
  intros Hcell.
  generalize (range1 (length rs)) (length_range1 (length rs)).
  induction rs as [|r rs IH]; intros [|i js] Hlen; try discriminate; [done|].
  cbn [zip_with fmap list_fmap]. rewrite Hcell. f_equal. apply IH. by injection Hlen.
Qed.

Lemma elem_of_numbered sk (rs : list Row) (d : Row) :
  d ∈ zip_with (fun i r => <[sk := VInt i]> r) (range1 (length rs)) rs ->
  exists i r, r ∈ rs /\ d = <[sk := VInt i]> r.
Proof.
  generalize (range1 (length rs)).
  induction rs as [|r rs IH]; intros [|i js] Hd; try (by inversion Hd).
  cbn [zip_with] in Hd. apply elem_of_cons in Hd as [->|Hd].
  - exists i, r. split; [by left|done].
  - destruct (IH js Hd) as (i' & r' & Hr' & ->). exists i', r'. split; [by right|done].
Qed.

Local Abbreviation six :=
  ["ubicacion_sk"; "departamento"; "provincia"; "distrito"; "ubigeo"; "fuente"].

Local Abbreviation lower :=
  (renamed_label [ ("DEPARTAMENTO", "departamento"); ("PROVINCIA", "provincia");
                   ("DISTRITO", "distrito"); ("UBIGEO", "ubigeo") ]).

Local Abbreviation sin := (fillna (VStr "SIN_ESPECIFICAR")).

(** A row of the deduplicated frame after the three [fillna] and the
    numbering, under the labels of the dimension. *)
Local Abbreviation finish r :=
  (relabel ("ubicacion_sk" :: cs) six r).

Local Abbreviation filled r :=
  (set_cell "PROVINCIA" (fun r => sin (cell r "PROVINCIA"))
     (set_cell "DEPARTAMENTO" (fun r => sin (cell r "DEPARTAMENTO"))
        (set_cell "DISTRITO" (fun r => sin (cell r "DISTRITO")) r))).

Lemma cell_finish (r : Row) c :
  c ∈ "ubicacion_sk" :: cs -> cell (finish r) (lower c) = cell r c.
Proof.
  intros Hc. apply (lookup_relabel_fmap lower ("ubicacion_sk" :: cs) r c Hc).
  intros c' Hc' Heq.
  repeat (apply elem_of_cons in Hc as [->|Hc]); [..|inversion Hc];
    (repeat (apply elem_of_cons in Hc' as [->|Hc']); [..|inversion Hc']);
    first [reflexivity | discriminate Heq].
Qed.

Lemma cell_filled (r : Row) :
  cell (filled r) "UBIGEO" = cell r "UBIGEO"
  /\ cell (filled r) "fuente" = cell r "fuente"
  /\ cell (filled r) "DEPARTAMENTO" = sin (cell r "DEPARTAMENTO")
  /\ cell (filled r) "PROVINCIA" = sin (cell r "PROVINCIA")
  /\ cell (filled r) "DISTRITO" = sin (cell r "DISTRITO").
Proof.
  repeat split;
    repeat first [ rewrite cell_set_cell_eq | rewrite cell_set_cell_ne by discriminate ];
    reflexivity.
Qed.

(** Which datasets [_build_dim_ubicacion] reads, with the tag of each. *)
Local Abbreviation fuentes := [("postulante", "postulante"); ("vacantes", "vacante")].

Local Abbreviation located df := (forall c, c ∈ ubicacion_cols -> c ∈ columns df).

Lemma located_forallb df : forallb (has_column df) ubicacion_cols = true <-> located df.
Proof.
  rewrite forallb_forall. split.
  - intros Hall c Hc. apply has_column_true, Hall. by apply list_elem_of_In.
  - intros Hall c Hc. apply has_column_true, Hall. by apply list_elem_of_In.
Qed.

Lemma assign_present c f cols rs :
  c ∈ cols -> assign c f (mkDF cols rs) = mkDF cols (set_cell c f <$> rs).
Proof.
  intros Hc. unfold assign. by rewrite (proj2 (has_column_true (mkDF cols rs) c) Hc).
Qed.

(** X9.  With a dataset that has the four location columns,
    [_build_dim_ubicacion] returns, and dim_ubicacion has one row per
    distinct UBIGEO of the applicant and job-posting datasets that have
    them (a null UBIGEO counts as one value), numbered from 1 by
    ubicacion_sk.  Every row comes from a row of such a dataset with its
    UBIGEO: it holds that row's department, province and district, with
    SIN_ESPECIFICAR in place of a null, and the tag of the dataset. *)
Theorem dim_ubicacion_one_row_per_ubigeo self :
  (exists name df, name ∈ ["postulante"; "vacantes"] /\ datasets self !! name = Some df
                   /\ located df) ->
  exists self' dim (ubigeos : list value),
    _build_dim_ubicacion self = (self', Ok tt)
    /\ dimensions self' !! "dim_ubicacion" = Some dim
    /\ columns dim = six
    /\ numbers "ubicacion_sk" "ubigeo" ubigeos dim
    /\ NoDup ubigeos
    /\ (forall v, v ∈ ubigeos <->
          exists name df r,
            name ∈ ["postulante"; "vacantes"] /\ datasets self !! name = Some df
            /\ located df /\ r ∈ rows df /\ cell r "UBIGEO" = v)
    /\ forall d, d ∈ rows dim ->
         exists name tag df r,
           (name, tag) ∈ fuentes /\ datasets self !! name = Some df /\ r ∈ rows df
           /\ cell d "ubigeo" = cell r "UBIGEO"
           /\ cell d "departamento" = sin (cell r "DEPARTAMENTO")
           /\ cell d "provincia" = sin (cell r "PROVINCIA")
           /\ cell d "distrito" = sin (cell r "DISTRITO")
           /\ cell d "fuente" = VStr tag.
Proof.
  intros Hsrc.
  set (u := fun name tag =>
              match datasets self !! name with
              | Some df => if forallb (has_column df) ubicacion_cols
                           then [tagged tag df] else []
              | None => []
              end).
  set (U := u "postulante" "postulante" ++ u "vacantes" "vacante").
  set (all := U ≫= fun ub => project cs <$> (project cs <$> rows ub)).
  (* the frames that are concatenated *)
  assert (HU : forall ub, ub ∈ U <->
            exists name tag df, (name, tag) ∈ fuentes /\ datasets self !! name = Some df
                                /\ located df /\ ub = tagged tag df).
  { intros ub. unfold U, u. rewrite elem_of_app. split.
    - intros [Hin|Hin].
      + destruct (datasets self !! "postulante") as [df|] eqn:Hdf; [|inversion Hin].
        destruct (forallb _ _) eqn:Hall; [|inversion Hin].
        apply list_elem_of_singleton in Hin as ->.
        pose proof (proj1 (located_forallb df) Hall) as Hloc.
        exists "postulante", "postulante", df. split; [by left|done].
      + destruct (datasets self !! "vacantes") as [df|] eqn:Hdf; [|inversion Hin].
        destruct (forallb _ _) eqn:Hall; [|inversion Hin].
        apply list_elem_of_singleton in Hin as ->.
        pose proof (proj1 (located_forallb df) Hall) as Hloc.
        exists "vacantes", "vacante", df. split; [by right; left|done].
    - intros (name & tag & df & Hin & Hdf & Hloc & ->).
      pose proof (proj2 (located_forallb df) Hloc) as Hall.
      repeat (apply elem_of_cons in Hin as [[= -> ->]|Hin]); [..|inversion Hin].
      + left. rewrite Hdf, Hall. by left.
      + right. rewrite Hdf, Hall. by left. }
  assert (Hconcat : concat U = Ok (mkDF cs all)).
  { destruct Hsrc as (name & df & Hin & Hdf & Hloc).
    assert (Hone : tagged (if decide (name = "postulante") then "postulante" else "vacante") df
                   ∈ U).
    { apply HU. exists name, (if decide (name = "postulante") then "postulante" else "vacante"), df.
      split; [|done].
      repeat (apply elem_of_cons in Hin as [->|Hin]); [..|inversion Hin];
        [by left|by right; left]. }
    unfold all, U, u in Hone |- *. clear -Hone.
    destruct (datasets self !! "postulante") as [dfp|]; [destruct (forallb _ _)|];
      (destruct (datasets self !! "vacantes") as [dfv|]; [destruct (forallb _ _)|]);
      first [reflexivity | inversion Hone]. }
  set (kept := keep_first (key_of ["UBIGEO"]) [] all).
  set (rs := (fun r => filled r) <$> kept).
  set (dim := mkDF six
                ((fun r => finish r) <$> zip_with (fun i r => <["ubicacion_sk" := VInt i]> r)
                              (range1 (length rs)) rs)).
  assert (Hrun : _build_dim_ubicacion self
                 = (mkTransformer (datasets self) (<["dim_ubicacion" := dim]> (dimensions self))
                      (facts self) (orphan_stats self) (log self), Ok tt)).
  { unfold _build_dim_ubicacion. rewrite bind_get.
    rewrite (bind_run _ _ _ _ _ (ubicaciones_de_run _ _ _ _)).
    rewrite (bind_run _ _ _ _ _ (ubicaciones_de_run _ _ _ _)).
    fold (u "postulante" "postulante"). fold (u "vacantes" "vacante"). fold U.
    rewrite bind_lift, Hconcat.
    destruct (drop_duplicates_subset (mkDF cs all) "UBIGEO" []) as (d2 & Hdd & Hc2 & Hr2).
    { intros c Hc. apply list_elem_of_singleton in Hc as ->. in_list. }
    rewrite bind_lift, Hdd. destruct d2 as [c2 r2]. cbn [columns rows] in Hc2, Hr2.
    subst c2 r2. fold kept. cbv zeta.
    rewrite !assign_present by in_list. rewrite <- !list_fmap_compose.
    rewrite bind_lift, insert_range_ok by (cbn [columns]; not_in_list).
    rewrite bind_lift. unfold set_columns. cbn [columns rows len].
    rewrite decide_True by done. reflexivity. }
  assert (Hall : forall x, x ∈ all ->
            exists name tag df r,
              (name, tag) ∈ fuentes /\ datasets self !! name = Some df /\ located df
              /\ r ∈ rows df
              /\ x = project cs (project cs (set_cell "fuente" (fun _ => VStr tag)
                                              (project ubicacion_cols r)))).
  { intros x Hx. unfold all in Hx. apply list_elem_of_bind in Hx as (ub & Hx & Hub).
    apply HU in Hub as (name & tag & df & Hin & Hdf & Hloc & ->).
    rewrite rows_assign in Hx. cbn [rows] in Hx. rewrite <- !list_fmap_compose in Hx.
    apply list_elem_of_fmap in Hx as (r & -> & Hr).
    by exists name, tag, df, r. }
  assert (Hall' : forall name tag df r,
            (name, tag) ∈ fuentes -> datasets self !! name = Some df -> located df ->
            r ∈ rows df ->
            project cs (project cs (set_cell "fuente" (fun _ => VStr tag)
                                      (project ubicacion_cols r))) ∈ all).
  { intros name tag df r Hin Hdf Hloc Hr. unfold all. apply list_elem_of_bind.
    exists (tagged tag df). split; [|apply HU; by exists name, tag, df].
    rewrite rows_assign. cbn [rows]. rewrite <- !list_fmap_compose.
    apply list_elem_of_fmap. by exists r. }
  assert (Hkeys : (fun r => cell r "UBIGEO") <$> kept
                  = unique ((fun r => cell r "UBIGEO") <$> all)).
  { unfold unique, kept. rewrite <- keys_keep_first. f_equal.
    rewrite <- (keep_first_inj (fun v : value => [v]) (fun r => cell r "UBIGEO") _ []).
    by apply keep_first_ext. }
  eexists _, dim, (unique ((fun r => cell r "UBIGEO") <$> all)).
  split; [exact Hrun|]. cbn [dimensions]. split; [apply lookup_insert_eq|].
  split; [done|]. split; [|split; [apply NoDup_unique|split]].
  - unfold numbers, dim. cbn [rows]. split.
    + rewrite (numbered_key_column "ubicacion_sk" (fun r => finish r) rs).
      * unfold rs. by rewrite !length_fmap, <- Hkeys, length_fmap.
      * intros i r. rewrite (cell_finish _ "ubicacion_sk") by (by left).
        apply cell_insert_eq.
    + rewrite (numbered_value_column "ubicacion_sk" "UBIGEO" "ubigeo" (fun r => finish r) rs).
      * unfold rs. rewrite <- list_fmap_compose, <- Hkeys. apply list_fmap_ext.
        intros _ r _. simpl. apply cell_filled.
      * intros i r. rewrite (cell_finish _ "UBIGEO") by in_list.
        by rewrite cell_insert_ne.
  - intros v. rewrite elem_of_unique, list_elem_of_fmap. split.
    + intros (x & -> & Hx). destruct (Hall x Hx) as (name & tag & df & r & Hin & Hdf & Hloc & Hr & ->).
      exists name, df, r. split; [|split; [done|split; [done|split; [done|]]]].
      * repeat (apply elem_of_cons in Hin as [[= -> ->]|Hin]); [..|inversion Hin]; in_list.
      * rewrite cell_tagged. by rewrite decide_True by in_list.
    + intros (name & df & r & Hin & Hdf & Hloc & Hr & <-).
      eexists. split; [|apply (Hall' name (if decide (name = "postulante") then "postulante"
                                          else "vacante") df r); try done].
      * rewrite cell_tagged. by rewrite decide_True by in_list.
      * repeat (apply elem_of_cons in Hin as [->|Hin]); [..|inversion Hin];
          [by left|by right; left].
  - intros d Hd. unfold dim in Hd. cbn [rows] in Hd.
    apply list_elem_of_fmap in Hd as (n & -> & Hn).
    apply elem_of_numbered in Hn as (i & r3 & Hr3 & ->).
    unfold rs in Hr3. apply list_elem_of_fmap in Hr3 as (x & -> & Hx).
    apply elem_of_keep_first in Hx.
    destruct (Hall x Hx) as (name & tag & df & r & Hin & Hdf & Hloc & Hr & ->).
    exists name, tag, df, r. split; [done|]. split; [done|]. split; [done|].
    repeat split.
Qed.


Lemma dim_ubicacion_one_row_per_ubigeo_witness :
  exists self' dim (ubigeos : list value),
    _build_dim_ubicacion (__init__ fixture.extracted) = (self', Ok tt)
    /\ dimensions self' !! "dim_ubicacion" = Some dim
    /\ numbers "ubicacion_sk" "ubigeo" ubigeos dim
    /\ NoDup ubigeos
    /\ (VStr "150101" ∈ ubigeos).
Proof.
  destruct (dim_ubicacion_one_row_per_ubigeo (__init__ fixture.extracted))
    as (self' & dim & ubigeos & Hrun & Hdim & _ & Hn & Hnd & Hin & _).
  - exists "postulante", fixture.postulante. split; [in_list|]. split; [vm_compute; reflexivity|].
    intros c Hc. unfold ubicacion_cols in Hc.
    repeat (apply elem_of_cons in Hc as [->|Hc]); [..|inversion Hc]; in_list.
  - exists self', dim, ubigeos. split; [exact Hrun|]. split; [exact Hdim|].
    split; [exact Hn|]. split; [exact Hnd|]. apply Hin.
    exists "postulante", fixture.postulante.
    eexists. split; [in_list|]. split; [vm_compute; reflexivity|]. split.
    { intros c Hc. unfold ubicacion_cols in Hc.
      repeat (apply elem_of_cons in Hc as [->|Hc]); [..|inversion Hc]; in_list. }
    split; [left|]. vm_compute. reflexivity.
Defined.

End dim_ubicacion_facts.

Module dim_vacante_facts.

Import notions pd_facts pd_results method_facts pd_columns dim_tiempo_facts.
Import dimension_notions dimension_facts merge_facts foreign_keys table_names.
Import dim_ubicacion_facts.

Lemma keep_first_distinct {A K} `{EqDecision K} (key : A -> K) (l : list A) :
  forall seen, NoDup (key <$> l) -> (forall x, x ∈ l -> key x ∉ seen) ->
               keep_first key seen l = l.
Proof.
  induction l as [|x l IH]; intros seen Hnd Hseen; [done|].
  cbn [fmap list_fmap] in Hnd. apply NoDup_cons in Hnd as [Hx Hnd].
  cbn [keep_first]. rewrite decide_False by (apply Hseen; by left).
  f_equal. apply IH; [done|]. intros y Hy Hin.
  apply elem_of_cons in Hin as [Heq|Hin].
  - apply Hx. rewrite <- Heq. apply list_elem_of_fmap. eauto.
  - apply (Hseen y); [by right|done].
Qed.

Lemma Forall2_numbered {A} (P : Row -> A -> Prop) sk (g : Row -> A) (k : Row -> Row)
    (rs : list Row) :
  (forall i r, r ∈ rs -> P r (g (<[sk := VInt i]> (k r)))) ->
  Forall2 P rs (g <$> zip_with (fun i r => <[sk := VInt i]> r)
                        (range1 (length (k <$> rs))) (k <$> rs)).
Proof.
  intros HP. rewrite length_fmap.
  generalize (range1 (length rs)) (length_range1 (length rs)).
  induction rs as [|r rs IH]; intros [|i js] Hlen; try discriminate; [constructor|].
  cbn [zip_with fmap list_fmap]. constructor; [apply HP; by left|].
  apply IH; [|by injection Hlen]. intros i' r' Hr'. apply HP. by right.
Qed.

(** An assignment that is made only when the frame has the column. *)
Lemma assign_if_present c f D :
  (if has_column D c then assign c f D else D)
  = mkDF (columns D) ((if has_column D c then set_cell c f else id) <$> rows D).
Proof.
  unfold assign. destruct (has_column D c); [done|].
  rewrite list_fmap_id. by destruct D.
Qed.

Local Abbreviation opt :=
  ["NOMBREAVISO"; "VACANTES"; "SECTOR"; "UBIGEO"; "SINEXPERIENCIA"; "TIEMPOEXPERIENCIA"].

Local Abbreviation newl :=
  (renamed_label [ ("NOMBREAVISO", "nombre_aviso"); ("VACANTES", "num_vacantes");
                   ("SECTOR", "sector"); ("UBIGEO", "ubigeo");
                   ("SINEXPERIENCIA", "sin_experiencia");
                   ("TIEMPOEXPERIENCIA", "tiempo_experiencia") ]).

Lemma newl_inj c c' :
  c ∈ "vacante_sk" :: "id_vacante_original" :: opt ->
  c' ∈ "vacante_sk" :: "id_vacante_original" :: opt ->
  newl c' = newl c -> c' = c.
Proof.
  intros Hc Hc' Heq.
  repeat (apply elem_of_cons in Hc as [->|Hc]); [..|inversion Hc];
    (repeat (apply elem_of_cons in Hc' as [->|Hc']); [..|inversion Hc']);
    first [reflexivity | discriminate Heq].
Qed.

Section DimVacante.

Context `{Pandas}.

Local Abbreviation tiempo r := (fillna (VInt 0) (to_numeric (cell r "TIEMPOEXPERIENCIA"))).
Local Abbreviation sinexp r :=
  (fillna (VBool false) (map_dict sinexperiencia_map (cell r "SINEXPERIENCIA"))).

(** X10.  When no AVISOID repeats in the job-posting dataset (and the
    dataset has no column named vacante_sk or id_vacante_original),
    [_build_dim_vacante] returns and dim_vacante has one row per posting,
    in the order of the dataset: vacante_sk counts from 1,
    id_vacante_original is the AVISOID, the optional columns that the
    dataset has are copied under their new names, tiempo_experiencia is
    the number read from TIEMPOEXPERIENCIA with 0 for what is no number,
    and sin_experiencia is the mapped flag with False for what the
    mapping does not know. *)
Theorem dim_vacante_is_keyed_when_postings_are self df :
  datasets self !! "vacantes" = Some df ->
  "AVISOID" ∈ columns df ->
  "vacante_sk" ∉ columns df -> "id_vacante_original" ∉ columns df ->
  NoDup (column "AVISOID" df) ->
  exists self' dim,
    _build_dim_vacante self = (self', Ok tt)
    /\ dimensions self' !! "dim_vacante" = Some dim
    /\ numbers "vacante_sk" "id_vacante_original" (column "AVISOID" df) dim
    /\ Forall2 (fun r d =>
          (forall src dst,
             (src, dst) ∈ [ ("NOMBREAVISO", "nombre_aviso"); ("VACANTES", "num_vacantes");
                            ("SECTOR", "sector"); ("UBIGEO", "ubigeo") ] ->
             src ∈ columns df -> cell d dst = cell r src)
          /\ ("TIEMPOEXPERIENCIA" ∈ columns df -> cell d "tiempo_experiencia" = tiempo r)
          /\ ("SINEXPERIENCIA" ∈ columns df -> cell d "sin_experiencia" = sinexp r))
        (rows df) (rows dim).
Proof.
  intros Hdf Hid Hsk Horig Hnd.
  (* the identifiers, deduplicated and numbered *)
  set (ids := relabel ["AVISOID"] ["id_vacante_original"]
              <$> (project ["AVISOID"] <$> rows df)).
  set (numbered := zip_with (fun i r => <["vacante_sk" := VInt i]> r)
                     (range1 (length ids)) ids).
  set (d4 := mkDF ["vacante_sk"; "id_vacante_original"] numbered).
  assert (Hd2 : drop_duplicates None (mkDF ["AVISOID"] (project ["AVISOID"] <$> rows df))
                = Ok (mkDF ["AVISOID"] (project ["AVISOID"] <$> rows df))).
  { rewrite drop_duplicates_one_column. do 2 f_equal. apply keep_first_distinct.
    - rewrite <- list_fmap_compose.
      assert (Heq : key_of ["AVISOID"] ∘ project ["AVISOID"] <$> rows df
                    = (fun v : value => [v]) <$> column "AVISOID" df).
      { unfold column. rewrite <- list_fmap_compose. apply list_fmap_ext.
        intros _ r _. unfold key_of. simpl. rewrite cell_project_in; [done|by left]. }
      rewrite Heq. by apply (NoDup_fmap_2 _).
    - intros x _ Hx. inversion Hx. }
  set (mrow := fun l : Row =>
                project ["vacante_sk"; "id_vacante_original"] l
                ∪ project (columns df)
                    (default ∅ (head (matches df "AVISOID" (cell l "id_vacante_original"))))).
  set (merged := mkDF (["vacante_sk"; "id_vacante_original"] ++ columns df) (mrow <$> numbered)).
  assert (Hmerge : merge Left d4 df "id_vacante_original" "AVISOID" = Ok merged).
  { apply merge_left_one_for_one; [by right; left|done| |done].
    intros c Hc. unfold d4 in Hc. cbn [columns] in Hc.
    repeat (apply elem_of_cons in Hc as [->|Hc]); [..|inversion Hc]; done. }
  set (keep := ["vacante_sk"; "id_vacante_original"] ++ List.filter (has_column merged) opt).
  assert (Hkeep : forall c, c ∈ keep <->
            c ∈ ["vacante_sk"; "id_vacante_original"] \/ (c ∈ opt /\ c ∈ columns df)).
  { intros c. unfold keep. rewrite elem_of_app, !list_elem_of_In, filter_In, <- !list_elem_of_In.
    rewrite has_column_true. unfold merged. cbn [columns]. rewrite elem_of_app.
    split; [|tauto]. intros [?|[Hopt [Hc|Hc]]]; [tauto| |tauto].
    exfalso. repeat (apply elem_of_cons in Hc as [->|Hc]); [..|inversion Hc]; revert Hopt;
      not_in_list. }
  set (t1 := if has_column (mkDF keep (project keep <$> rows merged)) "TIEMPOEXPERIENCIA"
             then set_cell "TIEMPOEXPERIENCIA"
                    (fun r => fillna (VInt 0) (to_numeric (cell r "TIEMPOEXPERIENCIA")))
             else id).
  set (t2 := if has_column (mkDF keep (t1 <$> (project keep <$> rows merged))) "SINEXPERIENCIA"
             then set_cell "SINEXPERIENCIA"
                    (fun r => fillna (VBool false)
                                (map_dict sinexperiencia_map (cell r "SINEXPERIENCIA")))
             else id).
  set (G := fun l : Row => relabel keep (newl <$> keep) (t2 (t1 (project keep (mrow l))))).
  set (dim := mkDF (newl <$> keep) (G <$> numbered)).
  assert (Hrun : _build_dim_vacante self
                 = (mkTransformer (datasets self) (<["dim_vacante" := dim]> (dimensions self))
                      (facts self) (orphan_stats self) (log self), Ok tt)).
  { unfold _build_dim_vacante. rewrite bind_get, Hdf.
    rewrite bind_lift, select_ok
      by (intros c Hc; apply list_elem_of_singleton in Hc as ->; done).
    rewrite bind_lift, Hd2. rewrite bind_lift. unfold set_columns. cbn [columns rows].
    rewrite decide_True by done.
    rewrite bind_lift, insert_range_ok by (cbn [columns]; not_in_list).
    unfold len. cbn [columns rows]. fold ids. fold numbered. fold d4.
    rewrite bind_lift, Hmerge. cbv zeta. fold keep.
    rewrite bind_lift, select_ok.
    2: { intros c Hc. apply Hkeep in Hc. unfold merged. cbn [columns]. rewrite elem_of_app.
         tauto. }
    rewrite (assign_if_present "TIEMPOEXPERIENCIA"). cbn [columns rows]. fold t1.
    rewrite (assign_if_present "SINEXPERIENCIA"). cbn [columns rows]. fold t2.
    unfold rename, set_dimension. cbn [columns rows].
    unfold dim. do 4 f_equal. unfold merged. cbn [rows].
    by rewrite <- !list_fmap_compose. }
  assert (Hin_keep : forall c, c ∈ keep -> c ∈ "vacante_sk" :: "id_vacante_original" :: opt).
  { intros c Hc. apply Hkeep in Hc as [Hc|[Hc _]].
    - repeat (apply elem_of_cons in Hc as [->|Hc]); [..|inversion Hc]; in_list.
    - by do 2 right. }
  assert (Hlabel : forall c l, c ∈ keep ->
            cell (G l) (newl c) = cell (t2 (t1 (project keep (mrow l)))) c).
  { intros c l Hc. unfold G. apply lookup_relabel_fmap; [done|].
    intros c' Hc'. apply newl_inj; by apply Hin_keep. }
  assert (Ht1 : forall c r, c <> "TIEMPOEXPERIENCIA" -> cell (t1 r) c = cell r c).
  { intros c r Hne. unfold t1. destruct (has_column _ _); [|done].
    by rewrite cell_set_cell_ne. }
  assert (Ht2 : forall c r, c <> "SINEXPERIENCIA" -> cell (t2 r) c = cell r c).
  { intros c r Hne. unfold t2. destruct (has_column _ "SINEXPERIENCIA"); [|done].
    by rewrite cell_set_cell_ne. }
  assert (Hleft : forall c l, c ∈ ["vacante_sk"; "id_vacante_original"] ->
            cell (G l) c = cell l c).
  { intros c l Hc.
    assert (Hk : c ∈ keep) by (apply Hkeep; by left).
    assert (Hn : newl c = c)
      by (repeat (apply elem_of_cons in Hc as [->|Hc]); [..|inversion Hc]; reflexivity).
    rewrite <- Hn at 1. rewrite Hlabel by done.
    rewrite Ht2, Ht1, cell_project_in by
      first [done | repeat (apply elem_of_cons in Hc as [->|Hc]); [..|inversion Hc]; done].
    unfold mrow. by rewrite cell_union_l. }
  assert (Horigcell : forall i r, cell (<["vacante_sk" := VInt i]>
                     (relabel ["AVISOID"] ["id_vacante_original"] (project ["AVISOID"] r)))
                     "id_vacante_original" = cell r "AVISOID").
  { intros i r. rewrite cell_insert_ne by done.
    rewrite (lookup_relabel_fmap (renamed_label [("AVISOID", "id_vacante_original")])
               ["AVISOID"] _ "AVISOID"); [|by left|].
    - apply cell_project_in. by left.
    - intros c' Hc'. by apply list_elem_of_singleton in Hc' as ->. }
  assert (Hright : forall c i r, r ∈ rows df -> c ∈ opt -> c ∈ columns df ->
            cell (project keep (mrow (<["vacante_sk" := VInt i]>
                     (relabel ["AVISOID"] ["id_vacante_original"] (project ["AVISOID"] r))))) c
            = cell r c).
  { intros c i r Hr Hopt Hc.
    rewrite cell_project_in by (apply Hkeep; by right).
    assert (Hout : c ∉ ["vacante_sk"; "id_vacante_original"]).
    { intros Hc'. repeat (apply elem_of_cons in Hc' as [->|Hc']); [..|inversion Hc'];
        revert Hopt; not_in_list. }
    unfold mrow. rewrite cell_union_r by done.
    rewrite Horigcell, matches_unique by done. cbn [head default].
    by apply cell_project_in. }
  assert (Hlen : length ids = length (column "AVISOID" df))
    by (unfold ids, column; by rewrite !length_fmap).
  eexists _, dim. split; [exact Hrun|]. split; [apply lookup_insert_eq|].
  split; [split|].
  - unfold dim. cbn [rows]. unfold numbered. rewrite numbered_key_column.
    + by rewrite Hlen.
    + intros i r. rewrite Hleft by (by left). apply cell_insert_eq.
  - unfold dim. cbn [rows]. unfold numbered.
    rewrite (numbered_value_column _ "id_vacante_original").
    + unfold ids, column. rewrite <- !list_fmap_compose. apply list_fmap_ext.
      intros j r _. unfold compose. rewrite <- (Horigcell 0 r).
      by rewrite cell_insert_ne.
    + intros i r. rewrite Hleft by (by right; left). by rewrite cell_insert_ne.
  - unfold dim. cbn [rows]. unfold numbered, ids. rewrite <- !list_fmap_compose.
    apply (Forall2_numbered _ "vacante_sk" G).
    intros i r Hr. unfold compose. split; [|split].
    + intros src dst Hpair Hsrc.
      assert (Hopt : src ∈ opt /\ dst = newl src
                     /\ src <> "SINEXPERIENCIA" /\ src <> "TIEMPOEXPERIENCIA").
      { repeat (apply elem_of_cons in Hpair as [Hpair|Hpair];
                [injection Hpair as -> ->; split; [in_list|by repeat split]|]).
        inversion Hpair. }
      destruct Hopt as (Hopt & -> & Hs & Ht).
      rewrite Hlabel by (apply Hkeep; by right).
      rewrite Ht2, Ht1 by done. by apply Hright.
    + intros Hc. change "tiempo_experiencia" with (newl "TIEMPOEXPERIENCIA").
      rewrite Hlabel by (apply Hkeep; right; split; [in_list|done]).
      rewrite Ht2 by done. unfold t1.
      rewrite (proj2 (has_column_true _ _))
        by (cbn [columns]; apply Hkeep; right; split; [in_list|done]).
      rewrite cell_set_cell_eq. rewrite Hright; [done|done|in_list|done].
    + intros Hc. change "sin_experiencia" with (newl "SINEXPERIENCIA").
      rewrite Hlabel by (apply Hkeep; right; split; [in_list|done]).
      unfold t2.
      rewrite (proj2 (has_column_true _ "SINEXPERIENCIA"))
        by (cbn [columns]; apply Hkeep; right; split; [in_list|done]).
      rewrite cell_set_cell_eq, Ht1 by done. rewrite Hright; [done|done|in_list|done].
Qed.

End DimVacante.

Lemma dim_vacante_is_keyed_when_postings_are_witness :
  exists self' dim,
    _build_dim_vacante (H := fixture.pandas) (__init__ fixture.extracted) = (self', Ok tt)
    /\ dimensions self' !! "dim_vacante" = Some dim
    /\ column "vacante_sk" dim = [VInt 1; VInt 2]
    /\ column "id_vacante_original" dim = column "AVISOID" fixture.vacantes
    /\ length (rows dim) = 2%nat.
Proof.
  destruct (dim_vacante_is_keyed_when_postings_are (H := fixture.pandas)
              (__init__ fixture.extracted) fixture.vacantes)
    as (self' & dim & Hrun & Hdim & [Hsk Horig] & Hrows).
  - vm_compute. reflexivity.
  - in_list.
  - apply (bool_decide_unpack _). vm_compute. exact I.
  - apply (bool_decide_unpack _). vm_compute. exact I.
  - apply (bool_decide_unpack _). vm_compute. exact I.
  - exists self', dim. split; [exact Hrun|]. split; [exact Hdim|]. split.
    { unfold column. rewrite Hsk. vm_compute. reflexivity. }
    split; [exact Horig|].
    apply Forall2_length in Hrows. rewrite <- Hrows. vm_compute. reflexivity.
Defined.

End dim_vacante_facts.

Module extract_more.

Import extract extract_facts extract_notions.

Section Extractor.

Context `{FileSystem}.

(** What the loop has done when it stops, at its end or at the first
    file that does not load: the files before are in the mapping, each
    under its name, and nothing else was touched. *)
Lemma load_files_prefix pre : forall rest self,
  NoDup (pre ++ rest).*1 ->
  (forall n f, (n, f) ∈ pre -> exists df, _load_csv self f n = Ok df) ->
  exists self',
    load_files (pre ++ rest) self = load_files rest self'
    /\ cleaned_path self' = cleaned_path self
    /\ (forall n f, (n, f) ∈ pre ->
          exists df, _load_csv self f n = Ok df /\ datasets self' !! n = Some df)
    /\ (forall n, n ∉ pre.*1 -> datasets self' !! n = datasets self !! n).
Proof.
  induction pre as [|[n0 f0] pre IH]; intros rest self Hnd Hload.
  - exists self. split; [done|]. split; [done|]. split; [|done].
    intros n f Hin. inversion Hin.
  - cbn [app fmap list_fmap] in Hnd. apply NoDup_cons in Hnd as [Hn0 Hnd].
    destruct (Hload n0 f0) as [df0 Hdf0]; [by left|].
    set (self1 := mkExtractor (cleaned_path self) (<[n0 := df0]> (datasets self))).
    assert (Hsame : forall f n, _load_csv self1 f n = _load_csv self f n) by done.
    destruct (IH rest self1 Hnd) as (self' & Hrun & Hpath & Hin' & Hout').
    { intros n f Hin. rewrite Hsame. apply Hload. by right. }
    exists self'. split; [|split; [|split]].
    + cbn [app load_files]. by rewrite Hdf0.
    + by rewrite Hpath.
    + intros n f Hin. apply elem_of_cons in Hin as [[= -> ->]|Hin].
      * exists df0. split; [done|]. rewrite Hout'.
        -- apply lookup_insert_eq.
        -- intros Hin. apply Hn0. rewrite fmap_app. apply elem_of_app. by left.
      * destruct (Hin' n f Hin) as (df & Hdf & Hget). exists df. by rewrite <- Hsame.
    + intros n Hn. cbn [fmap list_fmap] in Hn. apply not_elem_of_cons in Hn as [Hne Hn].
      rewrite Hout' by done. by apply lookup_insert_ne.
Qed.

Lemma validate_names_ok names self :
  (forall n, n ∈ names -> exists df, datasets self !! n = Some df /\ empty df = false) ->
  validate_names names self = Ok tt.
Proof.
  induction names as [|n names IH]; intros Hall; [done|].
  destruct (Hall n) as (df & Hdf & Hne); [by left|].
  cbn [validate_names]. rewrite Hdf, Hne. apply IH. intros n' Hn'. apply Hall. by right.
Qed.

Lemma NoDup_expected : NoDup EXPECTED_FILES.*1.
Proof. apply (bool_decide_unpack _). vm_compute. exact I. Qed.

Lemma load_csv_loads self filename name df :
  _load_csv self filename name = Ok df <-> loads (cleaned_path self) filename df.
Proof.
  split; [apply load_csv_ok|].
  intros (Hex & Hread & Hne). unfold _load_csv. rewrite Hex. cbn [negb].
  rewrite Hread. cbn [rbind]. by rewrite Hne.
Qed.

Lemma extract_all_good self :
  (forall name filename, (name, filename) ∈ EXPECTED_FILES ->
     exists df, loads (cleaned_path self) filename df) ->
  exists self',
    extract_all self = (self', Some (datasets self'))
    /\ forall name filename, (name, filename) ∈ EXPECTED_FILES ->
         exists df, loads (cleaned_path self) filename df /\ datasets self' !! name = Some df.
Proof.
  intros Hall.
  destruct (load_files_prefix EXPECTED_FILES [] self) as (self' & Hrun & _ & Hin & _).
  { rewrite app_nil_r. apply NoDup_expected. }
  { intros n f Hnf. destruct (Hall n f Hnf) as [df Hdf]. exists df.
    by apply load_csv_loads. }
  rewrite app_nil_r in Hrun. cbn [load_files] in Hrun.
  exists self'. split.
  - unfold extract_all. rewrite Hrun. unfold _validate_extraction.
    rewrite validate_names_ok; [done|].
    intros n Hn. apply list_elem_of_fmap in Hn as ([n' f] & -> & Hnf).
    destruct (Hin n' f Hnf) as (df & Hdf & Hget). exists df. split; [done|].
    by apply load_csv_loads in Hdf as (_ & _ & Hne).
  - intros n f Hnf. destruct (Hin n f Hnf) as (df & Hdf & Hget).
    exists df. split; [exact (proj1 (load_csv_loads self f n df) Hdf)|done].
Qed.

Lemma extract_all_needs self :
  is_Some (extract_all self).2 ->
  forall name filename, (name, filename) ∈ EXPECTED_FILES ->
    exists df, loads (cleaned_path self) filename df.
Proof.
  intros [ds Hds] name filename Hin. unfold extract_all in Hds.
  destruct (load_files EXPECTED_FILES self) as [self' [[]|e]] eqn:Hrun; [|discriminate].
  apply load_files_ok in Hrun as (_ & Hfiles & _).
  destruct (Hfiles name filename Hin) as (Hex & df & Hread & Hne).
  by exists df.
Qed.

(** X11.  For an extractor that was constructed, [extract_all] returns
    a mapping exactly when each of the six expected files exists in the
    directory and parses to a non-empty frame.  The mapping then binds
    every dataset name to the very frame that [read_csv] gave for its
    file, and [get_dataset] on the extractor returns the same frame. *)
Theorem extraction_returns_what_was_read (path : option string) self :
  __init__ path = Ok self ->
  let dir := default default_cleaned_path path in
  (is_Some (extract_all self).2
   <-> forall name filename, (name, filename) ∈ EXPECTED_FILES ->
         exists df, loads dir filename df)
  /\ forall ds, (extract_all self).2 = Some ds ->
       forall name filename, (name, filename) ∈ EXPECTED_FILES ->
         exists df, loads dir filename df
                    /\ ds !! name = Some df
                    /\ get_dataset (extract_all self).1 name = Some df.
Proof.
  intros Hinit dir. apply init_ok in Hinit as [Hdir Hempty]. fold dir in Hdir.
  rewrite <- Hdir.
  split; [split; [apply extract_all_needs|]|].
  - intros Hall. destruct (extract_all_good self Hall) as (self' & -> & _). by eexists.
  - intros ds Hds name filename Hin.
    destruct (extract_all_good self (extract_all_needs self (ex_intro _ ds Hds)))
      as (self' & Hrun & Hget).
    rewrite Hrun in Hds |- *. cbn [snd fst] in *. injection Hds as <-.
    destruct (Hget name filename Hin) as (df & Hdf & Hlook). by exists df.
Qed.

(** X12.  [main] of the extraction module returns the exit code 0 or 1.
    It is 0 exactly when the default directory exists and each of the
    six files in it exists and parses to a non-empty frame; the mapping
    that comes with it is None exactly when the code is 1, and otherwise
    binds every dataset name to the frame read from its file (so the
    test for an empty mapping never decides). *)
Theorem main_exit_code :
  (main.1 = 0 \/ main.1 = 1)
  /\ (main.1 = 0 <->
        path_exists default_cleaned_path = true
        /\ forall name filename, (name, filename) ∈ EXPECTED_FILES ->
             exists df, loads default_cleaned_path filename df)
  /\ (main.1 = 1 <-> main.2 = None)
  /\ forall ds, main.2 = Some ds ->
       forall name filename, (name, filename) ∈ EXPECTED_FILES ->
         exists df, read_csv (joinpath default_cleaned_path filename) = Ok df
                    /\ ds !! name = Some df.
Proof.
  unfold main.
  destruct (__init__ None) as [self|e] eqn:Hinit.
  2: { split; [by right|]. split; [|split; [done|done]].
       split; [done|]. intros [Hdir _]. unfold __init__, _validate_paths in Hinit.
       cbn [default cleaned_path] in Hinit. by rewrite Hdir in Hinit. }
  assert (Hdir : path_exists default_cleaned_path = true).
  { unfold __init__, _validate_paths in Hinit. cbn [default cleaned_path] in Hinit.
    by destruct (path_exists default_cleaned_path). }
  apply init_ok in Hinit as [Hpath Hempty]. cbn [default] in Hpath.
  pose proof (extract_all_needs self) as Hneeds.
  pose proof (extract_all_good self) as Hgood.
  rewrite Hpath in Hneeds, Hgood.
  destruct (extract_all self) as [self' [ds|]] eqn:Hrun; cbn [snd] in *.
  2: { split; [by right|]. split; [|split; [done|done]].
       split; [done|]. intros [_ Hall]. by destruct (Hgood Hall) as (? & ? & _). }
  destruct (Hgood (Hneeds (ex_intro _ ds eq_refl))) as (self'' & [= <- ->] & Hget).
  assert (Hsize : size (datasets self') <> 0%nat).
  { destruct (Hget "postulante" "postulante_clean.csv") as (df & _ & Hdf); [by left|].
    intros Hz. apply map_size_empty_inv in Hz. by rewrite Hz, lookup_empty in Hdf. }
  rewrite decide_False by done. cbn [fst snd].
  split; [by left|]. split; [|split; [done|]].
  - split; [|done]. intros _. split; [done|]. by apply Hneeds.
  - intros ds' [= <-] n f Hnf.
    destruct (Hget n f Hnf) as (df & (_ & Hread & _) & Hdf). by exists df.
Qed.

(** X13.  A failed extraction leaves its trace in the extractor: when
    the files before some expected file load and that file does not
    (it is missing, unreadable or empty), [extract_all] returns None,
    yet [get_dataset] returns the frames of the files before it and
    None for the failing dataset and those after it. *)
Theorem failed_extraction_keeps_loaded_files (path : option string) self
    pre name filename post :
  __init__ path = Ok self ->
  EXPECTED_FILES = pre ++ (name, filename) :: post ->
  (forall n f, (n, f) ∈ pre -> exists df, _load_csv self f n = Ok df) ->
  (forall df, _load_csv self filename name <> Ok df) ->
  (extract_all self).2 = None
  /\ (forall n f, (n, f) ∈ pre ->
        exists df, read_csv (joinpath (cleaned_path self) f) = Ok df
                   /\ get_dataset (extract_all self).1 n = Some df)
  /\ (forall n, n ∉ pre.*1 -> get_dataset (extract_all self).1 n = None).
Proof.
  intros Hinit Hfiles Hpre Hbad. apply init_ok in Hinit as [Hdir Hempty].
  destruct (load_files_prefix pre ((name, filename) :: post) self)
    as (self' & Hrun & Hpath & Hin & Hout).
  { rewrite <- Hfiles. apply NoDup_expected. }
  { exact Hpre. }
  assert (Hstop : exists e, load_files ((name, filename) :: post) self' = (self', Raise e)).
  { cbn [load_files].
    assert (Hsame : _load_csv self' filename name = _load_csv self filename name)
      by (unfold _load_csv; by rewrite Hpath).
    rewrite Hsame. destruct (_load_csv self filename name) as [df|e] eqn:Hload.
    - by destruct (Hbad df).
    - by exists e. }
  destruct Hstop as [e Hstop].
  assert (Hall : extract_all self = (self', None)).
  { unfold extract_all. by rewrite Hfiles, Hrun, Hstop. }
  rewrite Hall. cbn [fst snd]. split; [done|]. split.
  - intros n f Hnf. destruct (Hin n f Hnf) as (df & Hdf & Hget).
    exists df. split; [|done]. by apply load_csv_ok in Hdf as (_ & Hread & _).
  - intros n Hn. unfold get_dataset. rewrite Hout by done.
    by rewrite Hempty, lookup_empty.
Qed.

End Extractor.

Lemma extraction_returns_what_was_read_witness :
  exists ds,
    (extract_all (H := disk.complete) (mkExtractor "data/cleaned" ∅)).2 = Some ds
    /\ ds !! "vacantes" = Some disk.one_row.
Proof.
  destruct (extraction_returns_what_was_read (H := disk.complete) None
              (mkExtractor "data/cleaned" ∅) eq_refl) as [_ Hget].
  eexists. split; [reflexivity|].
  destruct (Hget _ eq_refl "vacantes" "vacantes_clean.csv") as (df & (_ & Hread & _) & Hdf & _).
  - apply (bool_decide_unpack _). vm_compute. exact I.
  - rewrite Hdf. by injection Hread as <-.
Defined.

Lemma failed_extraction_keeps_loaded_files_witness :
  let self := mkExtractor "data/cleaned" ∅ in
  (extract_all (H := disk.without_competencias) self).2 = None
  /\ get_dataset (extract_all (H := disk.without_competencias) self).1 "vacantes"
     = Some disk.one_row
  /\ get_dataset (extract_all (H := disk.without_competencias) self).1 "competencias" = None.
Proof.
  intros self.
  destruct (failed_extraction_keeps_loaded_files (H := disk.without_competencias) None self
              (take 5 EXPECTED_FILES) "competencias" "competencias_clean.csv" [])
    as (Hnone & Hin & Hout).
  - reflexivity.
  - reflexivity.
  - intros n f Hnf. exists disk.one_row.
    cbn [take EXPECTED_FILES] in Hnf.
    repeat (apply elem_of_cons in Hnf as [[= -> ->]|Hnf]); [..|inversion Hnf];
      vm_compute; reflexivity.
  - intros df. vm_compute. discriminate.
  - split; [exact Hnone|]. split.
    + destruct (Hin "vacantes" "vacantes_clean.csv") as (df & Hread & Hget).
      * apply (bool_decide_unpack _). vm_compute. exact I.
      * rewrite Hget. by injection Hread as <-.
    + apply Hout. apply (bool_decide_unpack _). vm_compute. exact I.
Defined.

End extract_more.

Module left_keys.

Import notions pd_facts pd_results method_facts pd_columns frame_facts foreign_keys.
Import pipeline_frame table_names key_notions.

Lemma col_in_set_columns_head S c names df df' :
  set_columns (c :: names) df = Ok df' ->
  (exists cols, columns df = c :: cols) ->
  col_in S c df -> col_in S c df'.
Proof.
  unfold set_columns. intros Hset [cols Hcols] Hin.
  destruct (decide _); [|discriminate]. injection Hset as <-.
  intros _ r Hr. cbn [rows] in Hr. apply list_elem_of_fmap in Hr as (r0 & -> & Hr0).
  rewrite Hcols. unfold relabel, cell at 1. cbn [fmap list_fmap zip zip_with].
  rewrite list_to_map_cons, lookup_insert_eq. cbn [default].
  apply Hin; [rewrite Hcols; by left|done].
Qed.

Lemma col_in_drop_column S c c' df df' :
  drop_column c' df = Ok df' -> c <> c' -> col_in S c df -> col_in S c df'.
Proof.
  unfold drop_column. intros Hdrop Hne Hin.
  destruct (has_column df c'); [|discriminate]. injection Hdrop as <-.
  intros Hc r Hr. cbn [columns rows] in *.
  apply list_elem_of_In, filter_In in Hc as [Hc _]. apply list_elem_of_In in Hc.
  apply list_elem_of_fmap in Hr as (r0 & -> & Hr0).
  unfold cell. rewrite lookup_delete_ne by done. by apply Hin.
Qed.

Section Keys.

Context `{Pandas}.

(** *** The keys of the dimensions *)

Lemma dim_ubicacion_key self self' :
  _build_dim_ubicacion self = (self', Ok tt) ->
  exists D, dimensions self' = <["dim_ubicacion" := D]> (dimensions self)
            /\ col_in is_int "ubicacion_sk" D.
Proof.
  intros Hrun. unfold _build_dim_ubicacion in Hrun.
  run_step Hrun.
  apply bind_ok in Hrun as (u1 & s1 & Hu1 & Hrun). apply ubicaciones_de_ok in Hu1 as ->.
  apply bind_ok in Hrun as (u2 & s2 & Hu2 & Hrun). apply ubicaciones_de_ok in Hu2 as ->.
  repeat run_step Hrun.
  apply set_dimension_ok in Hrun as [Hd Hs]. eexists. split; [exact Hd|].
  eapply col_in_set_columns_head; [eassumption| |].
  - match goal with E : insert_range _ _ = Ok ?a |- context [columns ?a] =>
      pose proof (insert_range_inv _ _ _ E) as (_ & -> & _) end.
    by eexists.
  - col_in_back.
Qed.

Lemma dim_empresa_key self self' :
  _build_dim_empresa self = (self', Ok tt) ->
  dimensions self' = dimensions self
  \/ exists D, dimensions self' = <["dim_empresa" := D]> (dimensions self)
               /\ col_in is_int "empresa_sk" D.
Proof.
  intros Hrun. unfold _build_dim_empresa in Hrun.
  repeat run_step Hrun;
    first [ apply set_dimension_ok in Hrun as [Hd Hs]; right; eexists; split; [exact Hd|];
            col_in_back
          | apply warning_ok in Hrun as (_ & Hd & Hs); by left ].
Qed.

Lemma dim_carrera_key self self' :
  _build_dim_carrera self = (self', Ok tt) ->
  dimensions self' = dimensions self
  \/ exists D, dimensions self' = <["dim_carrera" := D]> (dimensions self)
               /\ col_in is_int "carrera_sk" D.
Proof.
  intros Hrun. unfold _build_dim_carrera in Hrun.
  repeat run_step Hrun;
    first [ apply set_dimension_ok in Hrun as [Hd Hs]; right; eexists; split; [exact Hd|];
            try (eapply col_in_drop_column; [eassumption|discriminate|]);
            col_in_back
          | apply warning_ok in Hrun as (_ & Hd & Hs); by left ].
  assert (Hleft : "carrera_sk" ∈ columns (rename [("CARRERA", "nombre_carrera")] a2)).
  { unfold rename. cbn [columns].
    pose proof (insert_range_inv _ _ _ E4) as (_ & -> & _). by left. }
  eapply col_in_merge;
    [ eassumption | unsuffixed_label | intros _; col_in_back
    | intros Hout; by destruct Hout | intros _ Hout; by destruct Hout ].
Qed.

Lemma dim_institucion_key self self' :
  _build_dim_institucion self = (self', Ok tt) ->
  dimensions self' = dimensions self
  \/ exists D, dimensions self' = <["dim_institucion" := D]> (dimensions self)
               /\ col_in is_int "institucion_sk" D.
Proof.
  intros Hrun. unfold _build_dim_institucion in Hrun.
  repeat run_step Hrun;
    first [ apply set_dimension_ok in Hrun as [Hd Hs]; right; eexists; split; [exact Hd|];
            col_in_back
          | apply warning_ok in Hrun as (_ & Hd & Hs); by left ].
Qed.

Lemma keys_step n self self' :
  (dimensions self' = dimensions self
   \/ exists D, dimensions self' = <[n := D]> (dimensions self)
        /\ forall sk, (n, sk) ∈ dimension_keys -> col_in is_int sk D) ->
  keys_int self -> keys_int self'.
Proof.
  intros [Hsame|(D & Hnew & Hint)] Hok dim sk Hin D' HD'.
  - rewrite Hsame in HD'. by eapply Hok.
  - rewrite Hnew in HD'. destruct (decide (n = dim)) as [->|Hne].
    + rewrite lookup_insert_eq in HD'. injection HD' as <-. by apply Hint.
    + rewrite lookup_insert_ne in HD' by done. by eapply Hok.
Qed.

Ltac other_key :=
  let sk := fresh "sk" in let Hin := fresh "Hin" in
  intros sk Hin; unfold dimension_keys in Hin;
  repeat (apply elem_of_cons in Hin as [Hin|Hin];
          [first [discriminate Hin | injection Hin as ->; assumption]|]);
  inversion Hin.

Lemma all_dimensions_keys_int self self' :
  _build_all_dimensions self = (self', Ok tt) -> keys_int self -> keys_int self'.
Proof.
  intros Hrun Hok. unfold _build_all_dimensions in Hrun.
  apply bind_ok in Hrun as ([] & s1 & H1 & Hrun).
  apply dim_tiempo_built in H1 as (_ & D1 & H1).
  apply (keys_step "dim_tiempo" _ s1) in Hok; [|right; exists D1; split; [done|other_key]].
  apply bind_ok in Hrun as ([] & s2 & H2 & Hrun).
  apply dim_ubicacion_key in H2 as (D2 & H2 & Hint2).
  apply (keys_step "dim_ubicacion" _ s2) in Hok; [|right; exists D2; split; [done|other_key]].
  apply bind_ok in Hrun as ([] & s3 & H3 & Hrun).
  apply dim_postulante_built in H3 as (_ & H3). apply written in H3.
  apply (keys_step "dim_postulante" _ s3) in Hok.
  2: { destruct H3 as [[D3 H3]|H3]; [right; exists D3; split; [done|other_key]|by left]. }
  apply bind_ok in Hrun as ([] & s4 & H4 & Hrun).
  apply dim_empresa_key in H4.
  apply (keys_step "dim_empresa" _ s4) in Hok.
  2: { destruct H4 as [H4|(D4 & H4 & Hint4)]; [by left|].
       right; exists D4; split; [done|other_key]. }
  apply bind_ok in Hrun as ([] & s5 & H5 & Hrun).
  apply dim_vacante_built in H5 as (_ & H5). apply written in H5.
  apply (keys_step "dim_vacante" _ s5) in Hok.
  2: { destruct H5 as [[D5 H5]|H5]; [right; exists D5; split; [done|other_key]|by left]. }
  apply bind_ok in Hrun as ([] & s6 & H6 & Hrun).
  apply dim_competencia_built in H6 as (_ & H6). apply written in H6.
  apply (keys_step "dim_competencia" _ s6) in Hok.
  2: { destruct H6 as [[D6 H6]|H6]; [right; exists D6; split; [done|other_key]|by left]. }
  apply bind_ok in Hrun as ([] & s7 & H7 & Hrun).
  apply dim_carrera_key in H7.
  apply (keys_step "dim_carrera" _ s7) in Hok.
  2: { destruct H7 as [H7|(D7 & H7 & Hint7)]; [by left|].
       right; exists D7; split; [done|other_key]. }
  apply dim_institucion_key in Hrun.
  apply (keys_step "dim_institucion" _ self') in Hok; [done|].
  destruct Hrun as [H8|(D8 & H8 & Hint8)]; [by left|].
  right; exists D8; split; [done|other_key].
Qed.

(** *** The keys of the fact tables *)

Lemma hechos_postulante_left self self' :
  _build_hechos_postulante self = (self', Ok tt) ->
  facts self' = facts self
  \/ exists F,
       facts self' = <["hechos_postulante" := F]> (facts self)
       /\ (forall D, dimensions self !! "dim_postulante" = Some D ->
             col_in is_int "postulante_sk" D ->
             col_in (fk_of D "postulante_sk") "postulante_sk" F)
       /\ (forall D df, dimensions self !! "dim_ubicacion" = Some D ->
             col_in is_int "ubicacion_sk" D ->
             datasets self !! "postulante" = Some df -> "ubicacion_sk" ∉ columns df ->
             col_in (fk_of D "ubicacion_sk") "ubicacion_sk" F).
Proof.
  intros Hrun. unfold _build_hechos_postulante in Hrun.
  run_step Hrun. run_step Hrun.
  2: { left. by apply warning_ok in Hrun as (? & _). }
  repeat run_step Hrun;
    (apply set_fact_ok in Hrun; right; eexists; split; [exact Hrun|]; split;
     [ intros D [= <-] Hints
     | intros D df HD Hints [= <-] Hno;
       pose proof (col_in_absent (fk_of D "ubicacion_sk") _ _ Hno) as Hsrc ];
     try discriminate HD; try (injection HD as <-);
     unfold select_present in *; col_in_back).
Qed.

Lemma hechos_formacion_left self self' :
  _build_hechos_formacion self = (self', Ok tt) ->
  facts self' = facts self
  \/ exists F,
       facts self' = <["hechos_formacion" := F]> (facts self)
       /\ forall dim fk D df,
            (dim, fk) ∈ [("dim_carrera", "carrera_sk"); ("dim_institucion", "institucion_sk")] ->
            dimensions self !! dim = Some D -> col_in is_int fk D ->
            datasets self !! "educacion" = Some df -> fk ∉ columns df ->
            col_in (fk_of D fk) fk F.
Proof.
  intros Hrun. unfold _build_hechos_formacion in Hrun.
  run_step Hrun. run_step Hrun.
  2: { left. by apply warning_ok in Hrun as (? & _). }
  repeat run_step Hrun;
    (apply set_fact_ok in Hrun; right; eexists; split; [exact Hrun|];
     intros dim fk D df Hin HD Hints [= <-] Hno;
     pose proof (col_in_absent (fk_of D fk) _ _ Hno) as Hsrc;
     repeat (apply elem_of_cons in Hin as [[= -> ->]|Hin]); [..|inversion Hin];
     try (rewrite HD in *); simplify_eq;
     unfold select_present in *; col_in_back).
Qed.

Lemma hechos_vacante_left self self' :
  _build_hechos_vacante self = (self', Ok tt) ->
  facts self' = facts self
  \/ exists F,
       facts self' = <["hechos_vacante" := F]> (facts self)
       /\ forall dim fk D df,
            (dim, fk) ∈ [("dim_ubicacion", "ubicacion_sk"); ("dim_empresa", "empresa_sk")] ->
            dimensions self !! dim = Some D -> col_in is_int fk D ->
            datasets self !! "vacantes" = Some df -> fk ∉ columns df ->
            col_in (fk_of D fk) fk F.
Proof.
  intros Hrun. unfold _build_hechos_vacante in Hrun.
  run_step Hrun. run_step Hrun.
  2: { left. by apply warning_ok in Hrun as (? & _). }
  repeat run_step Hrun;
    (apply set_fact_ok in Hrun; right; eexists; split; [exact Hrun|];
     intros dim fk D df Hin HD Hints [= <-] Hno;
     pose proof (col_in_absent (fk_of D fk) _ _ Hno) as Hsrc;
     repeat (apply elem_of_cons in Hin as [[= -> ->]|Hin]); [..|inversion Hin];
     try (rewrite HD in *); simplify_eq;
     unfold select_present in *; col_in_back).
Qed.

(** The columns of the job-posting dataset after reconciliation are its
    own and those of the placeholder rows. *)
Lemma reconcile_vacantes_columns today self df' c :
  datasets (_reconcile_orphans today self).1 !! "vacantes" = Some df' ->
  c ∈ columns df' ->
  exists df, datasets self !! "vacantes" = Some df
             /\ (c ∈ columns df \/ c ∈ columns (vacante_placeholder [] today)).
Proof.
  unfold _reconcile_orphans. rewrite bind_get.
  destruct (datasets self !! "competencias") as [df_comp|]; [|by eauto].
  destruct (datasets self !! "vacantes") as [df_vac|] eqn:Hv.
  2: { cbn. rewrite Hv. discriminate. }
  rewrite bind_lift. destruct (getitem df_comp "AVISOID"); [|cbn; rewrite Hv; by eauto].
  rewrite bind_lift. destruct (getitem df_vac "AVISOID"); [|cbn; rewrite Hv; by eauto].
  cbv zeta.
  destruct (decide (0 < size _)%nat).
  - rewrite concat_two. unfold bind, warning, lift, set_dataset, set_orphan_stat.
    cbn [fst datasets]. rewrite lookup_insert_eq. intros [= <-]. cbn [columns].
    intros Hc. apply elem_of_union_columns in Hc as (d & Hd & Hc).
    exists df_vac. split; [done|].
    apply elem_of_cons in Hd as [->|Hd]; [by left|].
    apply list_elem_of_singleton in Hd as ->. by right.
  - unfold bind, ret, set_orphan_stat. cbn [fst datasets]. rewrite Hv. by eauto.
Qed.

Lemma left_step (X : string) (m : M unit) self self' :
  keeps dimensions m -> keeps datasets m ->
  m self = (self', Ok tt) ->
  (facts self' = facts self
   \/ exists F, facts self' = <[X := F]> (facts self)
        /\ forall fact src dim fk, (fact, src, dim, fk) ∈ left_links -> fact = X ->
             forall D df, dimensions self !! dim = Some D ->
               datasets self !! src = Some df -> key_is_new fk df ->
               col_in (fk_of D fk) fk F) ->
  left_ok self -> left_ok self'.
Proof.
  intros Hkd Hks Hrun Hbuilt Hok.
  assert (Hd : dimensions self' = dimensions self) by (by rewrite <- (Hkd self), Hrun).
  assert (Hs : datasets self' = datasets self) by (by rewrite <- (Hks self), Hrun).
  intros fact src dim fk Hin F D df HF HD Hdf Hnew. rewrite Hd in HD. rewrite Hs in Hdf.
  destruct Hbuilt as [Hsame|(F' & Hset & Hprop)].
  - rewrite Hsame in HF. by eapply Hok.
  - rewrite Hset in HF. destruct (decide (X = fact)) as [->|Hne].
    + rewrite lookup_insert_eq in HF. injection HF as <-. by eapply Hprop.
    + rewrite lookup_insert_ne in HF by done. by eapply Hok.
Qed.

Ltac link_cases Hin :=
  unfold left_links in Hin;
  repeat (apply elem_of_cons in Hin as [[= -> -> -> ->]|Hin]); [..|inversion Hin].

Lemma all_facts_left self self' :
  _build_all_facts self = (self', Ok tt) ->
  dims_ok self -> keys_int self -> left_ok self -> left_ok self'.
Proof.
  intros Hrun Hdims Hkeys Hok. unfold _build_all_facts in Hrun.
  destruct fact_builders_keep_dimensions as (Hd1 & Hd2 & Hd3 & Hd4 & Hd5).
  destruct fact_builders_keep_datasets as (Hs1 & Hs2 & Hs3 & Hs4 & Hs5).
  assert (Hint : forall s, dimensions s = dimensions self ->
            forall dim fk, (dim, fk) ∈ ("dim_postulante", "postulante_sk") :: dimension_keys ->
              forall D, dimensions s !! dim = Some D -> col_in is_int fk D).
  { intros s -> dim fk Hin D HD. apply elem_of_cons in Hin as [[= -> ->]|Hin].
    - destruct Hdims as (Hp & _). by apply Hp.
    - by eapply Hkeys. }
  apply bind_ok in Hrun as ([] & s1 & H1 & Hrun).
  assert (E1 : dimensions s1 = dimensions self) by (by rewrite <- (Hd1 self), H1).
  apply (left_step "hechos_postulante" _ _ _ Hd1 Hs1 H1) in Hok.
  2: { destruct (hechos_postulante_left _ _ H1) as [?|(F & HF & Hp & Hu)]; [by left|].
       right. exists F. split; [done|]. intros fact src dim fk Hin HX D df HD Hdf Hnew.
       link_cases Hin; try discriminate HX.
       - apply Hp; [done|]. apply (Hint self eq_refl "dim_postulante"); [in_list|done].
       - eapply Hu; [done| |done|].
         + apply (Hint self eq_refl "dim_ubicacion"); [in_list|done].
         + intros Hc. by apply Hnew in Hc. }
  apply bind_ok in Hrun as ([] & s2 & H2 & Hrun).
  assert (E2 : dimensions s2 = dimensions self) by (by rewrite <- E1, <- (Hd2 s1), H2).
  apply (left_step "hechos_formacion" _ _ _ Hd2 Hs2 H2) in Hok.
  2: { destruct (hechos_formacion_left _ _ H2) as [?|(F & HF & Hp)]; [by left|].
       right. exists F. split; [done|]. intros fact src dim fk Hin HX D df HD Hdf Hnew.
       link_cases Hin; try discriminate HX.
       all: eapply Hp; cycle 1;
         [ exact HD | (eapply (Hint s1 E1); [|exact HD]; in_list) | exact Hdf
         | intros Hc; by apply Hnew in Hc | in_list ]. }
  apply bind_ok in Hrun as ([] & s3 & H3 & Hrun).
  assert (E3 : dimensions s3 = dimensions self) by (by rewrite <- E2, <- (Hd3 s2), H3).
  apply (left_step "hechos_experiencia" _ _ _ Hd3 Hs3 H3) in Hok.
  2: { apply hechos_experiencia_stored in H3.
       destruct H3 as [(F & df & HF & _)|[? _]]; [|by left].
       right. exists F. split; [done|]. intros fact src dim fk Hin HX.
       link_cases Hin; discriminate HX. }
  apply bind_ok in Hrun as ([] & s4 & H4 & Hrun).
  assert (E4 : dimensions s4 = dimensions self) by (by rewrite <- E3, <- (Hd4 s3), H4).
  apply (left_step "hechos_vacante" _ _ _ Hd4 Hs4 H4) in Hok.
  2: { destruct (hechos_vacante_left _ _ H4) as [?|(F & HF & Hp)]; [by left|].
       right. exists F. split; [done|]. intros fact src dim fk Hin HX D df HD Hdf Hnew.
       link_cases Hin; try discriminate HX.
       all: eapply Hp; cycle 1;
         [ exact HD | (eapply (Hint s3 E3); [|exact HD]; in_list) | exact Hdf
         | intros Hc; by apply Hnew in Hc | in_list ]. }
  apply (left_step "hechos_competencia_requerida" _ _ _ Hd5 Hs5 Hrun) in Hok; [done|].
  apply hechos_competencia_requerida_stored in Hrun.
  destruct Hrun as [(F & df & HF & _)|[? _]]; [|by left].
  right. exists F. split; [done|]. intros fact src dim fk Hin HX.
  link_cases Hin; discriminate HX.
Qed.

(** X14.  The foreign keys that fact tables get through left joins refer
    to rows of their dimensions too.  In what [transform_all] returns for
    a fresh transformer, a non-null cell of postulante_sk or
    ubicacion_sk in hechos_postulante, of carrera_sk or institucion_sk
    in hechos_formacion, and of ubicacion_sk or empresa_sk in
    hechos_vacante is a key of dim_postulante, dim_ubicacion,
    dim_carrera, dim_institucion or dim_empresa, as long as the source
    dataset of the fact table has no column of the key's own name (which
    a skipped join would let through; the join with dim_postulante is
    never skipped). *)
Theorem left_joined_keys_resolve today ds self' dims hechos :
  transform_all today (__init__ ds) = (self', Some (dims, hechos)) ->
  forall fact src dim fk,
    (fact, src, dim, fk)
      ∈ [ ("hechos_postulante", "postulante", "dim_postulante", "postulante_sk");
          ("hechos_postulante", "postulante", "dim_ubicacion", "ubicacion_sk");
          ("hechos_formacion", "educacion", "dim_carrera", "carrera_sk");
          ("hechos_formacion", "educacion", "dim_institucion", "institucion_sk");
          ("hechos_vacante", "vacantes", "dim_ubicacion", "ubicacion_sk");
          ("hechos_vacante", "vacantes", "dim_empresa", "empresa_sk") ] ->
    forall df F D, ds !! src = Some df -> (fk ∈ columns df -> fk = "postulante_sk") ->
      hechos !! fact = Some F -> dims !! dim = Some D ->
      fk ∈ columns F ->
      forall r, r ∈ rows F -> cell r fk <> VNull ->
        exists d, d ∈ rows D /\ cell d fk = cell r fk.
Proof.
  intros Hrun.
  destruct (pipeline_steps _ _ _ _ _ Hrun)
    as (-> & -> & d1 & d2 & d3 & d4 & d5 & d6 & d7 & s1 & s2 & f1 & f2 & f3 & f4
        & Hdims & _ & _ & _ & _ & _ & _ & _ & _ & Hrec & P1 & P2 & P3 & P4 & P5).
  assert (Hfacts : _build_all_facts s2 = (self', Ok tt)).
  { unfold _build_all_facts, bind. by rewrite P1, P2, P3, P4. }
  assert (Hd2 : dimensions s2 = dimensions s1).
  { pose proof (reconcile_keeps_dimensions today s1) as Hk. by rewrite Hrec in Hk. }
  assert (Hok1 : dims_ok s1).
  { eapply all_dimensions_dims_ok; [exact Hdims|].
    unfold dims_ok, __init__. cbn [dimensions].
    split; [|split]; intros D HD; by rewrite lookup_empty in HD. }
  assert (Hok2 : dims_ok s2).
  { apply (dims_ok_same s1); [done| |done].
    pose proof (reconcile_keeps_dataset today "competencias" ltac:(discriminate) s1) as Hk.
    by rewrite Hrec in Hk. }
  assert (Hkeys : keys_int s2).
  { intros dim sk Hin D HD. rewrite Hd2 in HD. revert dim sk Hin D HD.
    apply (all_dimensions_keys_int _ _ Hdims).
    intros dim sk _ D HD. unfold __init__ in HD. cbn [dimensions] in HD.
    by rewrite lookup_empty in HD. }
  assert (Hleft : left_ok s2).
  { intros fact src dim fk _ F D df HF. 
    pose proof (reconcile_keeps_facts today s1) as Hk. rewrite Hrec in Hk. cbn [fst] in Hk.
    pose proof (dimension_builders_keep_facts (__init__ ds)) as Hk1.
    rewrite Hdims in Hk1. cbn [fst] in Hk1.
    rewrite Hk, Hk1 in HF. unfold __init__ in HF. cbn [facts] in HF.
    by rewrite lookup_empty in HF. }
  pose proof (all_facts_left _ _ Hfacts Hok2 Hkeys Hleft) as Hfinal.
  assert (Hsrc : forall src fk df, src ∈ ["postulante"; "educacion"; "vacantes"] ->
            ds !! src = Some df -> key_is_new fk df ->
            fk ∈ ["postulante_sk"; "ubicacion_sk"; "carrera_sk"; "institucion_sk"; "empresa_sk"] ->
            is_Some (datasets self' !! src) ->
            exists df', datasets self' !! src = Some df' /\ key_is_new fk df').
  { intros src fk df Hsrc Hdf Hnew Hfk [df' Hdf']. exists df'. split; [done|].
    assert (Hs' : datasets self' = datasets s2).
    { pose proof (all_facts_keep_datasets s2) as Hk. by rewrite Hfacts in Hk. }
    assert (Hs1 : datasets s1 = ds).
    { pose proof (dimension_builders_keep_datasets (__init__ ds)) as Hk.
      by rewrite Hdims in Hk. }
    rewrite Hs' in Hdf'.
    destruct (decide ("vacantes" = src)) as [<-|Hne].
    - intros Hc.
      assert (Hrec' : datasets (_reconcile_orphans today s1).1 !! "vacantes" = Some df')
        by (by rewrite Hrec).
      destruct (reconcile_vacantes_columns today s1 df' fk Hrec' Hc) as (df0 & Hdf0 & Hcase).
      rewrite Hs1, Hdf in Hdf0. injection Hdf0 as <-.
      destruct Hcase as [Hc0|Hc0]; [by apply Hnew|].
      exfalso. cbn [vacante_placeholder columns] in Hc0.
      repeat (apply elem_of_cons in Hfk as [->|Hfk]); [..|inversion Hfk];
        revert Hc0; not_in_list.
    - pose proof (reconcile_keeps_dataset today src Hne s1) as Hk.
      rewrite Hrec in Hk. cbn [fst] in Hk. rewrite Hk, Hs1, Hdf in Hdf'.
      by injection Hdf' as <-. }
  intros fact src dim fk Hin df F D Hdf Hnew HF HD Hfk r Hr Hnn.
  assert (Hpresent : is_Some (datasets self' !! src)).
  { pose proof (all_facts_keep_datasets s2) as Hk. rewrite Hfacts in Hk. cbn [fst] in Hk.
    rewrite Hk. pose proof (reconcile_keeps_presence today s1 src) as Hp.
    rewrite Hrec in Hp. apply Hp.
    pose proof (dimension_builders_keep_datasets (__init__ ds)) as Hk1.
    rewrite Hdims in Hk1. cbn [fst] in Hk1. rewrite Hk1. unfold __init__. cbn [datasets].
    by rewrite Hdf. }
  destruct (Hsrc src fk df) as (df' & Hdf' & Hnew'); [| done | done | | done |].
  { repeat (apply elem_of_cons in Hin as [[= -> -> -> ->]|Hin]); [..|inversion Hin]; in_list. }
  { repeat (apply elem_of_cons in Hin as [[= -> -> -> ->]|Hin]); [..|inversion Hin]; in_list. }
  destruct (Hfinal fact src dim fk Hin F D df' HF HD Hdf' Hnew' Hfk r Hr)
    as [Hnull|[_ Hd]]; [by destruct Hnn|exact Hd].
Qed.

End Keys.

Lemma left_joined_keys_resolve_witness :
  let out := default (∅, ∅) (fixture.run fixture.extracted).2 in
  let F := default (mkDF [] []) (out.2 !! "hechos_vacante") in
  let D := default (mkDF [] []) (out.1 !! "dim_empresa") in
  length (rows F) = 2%nat
  /\ Forall (fun r => exists d, d ∈ rows D /\ cell d "empresa_sk" = cell r "empresa_sk")
       (rows F).
Proof.
  intros out F D. split; [vm_compute; reflexivity|].
  assert (Hsome : is_Some (fixture.run fixture.extracted).2)
    by (apply (bool_decide_unpack _); vm_compute; exact I).
  assert (HF : is_Some (out.2 !! "hechos_vacante"))
    by (apply (bool_decide_unpack _); vm_compute; exact I).
  assert (HD : is_Some (out.1 !! "dim_empresa"))
    by (apply (bool_decide_unpack _); vm_compute; exact I).
  assert (Hcol : "empresa_sk" ∈ columns F)
    by (apply (bool_decide_unpack _); vm_compute; exact I).
  assert (Hnn : Forall (fun r => cell r "empresa_sk" <> VNull) (rows F))
    by (apply (bool_decide_unpack _); vm_compute; exact I).
  apply Forall_forall. intros r Hr.
  refine (left_joined_keys_resolve (H := fixture.pandas) fixture.today fixture.extracted
            (fixture.run fixture.extracted).1 out.1 out.2 _
            "hechos_vacante" "vacantes" "dim_empresa" "empresa_sk" _
            fixture.vacantes F D _ _ _ _ Hcol r Hr _).
  - subst F D out. unfold fixture.run in *.
    destruct (transform_all fixture.today (__init__ fixture.extracted)) as [s [[d h]|]];
      [reflexivity|by destruct Hsome].
  - in_list.
  - reflexivity.
  - intros Hc. exfalso. revert Hc. apply (bool_decide_unpack _). vm_compute. exact I.
  - subst F. by destruct HF as [x ->].
  - subst D. by destruct HD as [x ->].
  - rewrite Forall_forall in Hnn. by apply Hnn.
Defined.

End left_keys.

Module date_keys.

Import notions pd_facts pd_results method_facts pd_columns dim_tiempo_facts frame_facts.
Import foreign_keys pipeline_frame table_names key_notions.

Lemma series_min_in (s : list value) :
  (forall v, v ∈ s -> is_int v) -> s <> [] -> series_min s ∈ s.
Proof.
  induction s as [|v s IH]; intros Hint Hne; [done|].
  destruct (Hint v) as [n ->]; [by left|].
  destruct s as [|w s]; [by left|].
  assert (Hin : series_min (w :: s) ∈ w :: s).
  { apply IH; [|done]. intros v Hv. apply Hint. by right. }
  change (series_min (VInt n :: w :: s))
    with (match series_min (w :: s) with
          | VInt m => VInt (Z.min n m)
          | _ => VInt n
          end).
  destruct (Hint _ (list_elem_of_further _ _ _ Hin)) as [m Hm]. rewrite Hm in *.
  destruct (Z.min_spec n m) as [[_ ->]|[_ ->]]; [by left|by right].
Qed.

Lemma sk_of_shape D c v : sk_of D c v -> v = VNull \/ is_int v.
Proof. intros [? _]. by right. Qed.

(** A column that was just assigned. *)
Lemma col_in_assigned (S : value -> Prop) c f df :
  (forall r, r ∈ rows df -> S (f r)) -> col_in S c (assign c f df).
Proof.
  intros Hf _ r Hr. rewrite rows_assign in Hr.
  apply list_elem_of_fmap in Hr as (r0 & -> & Hr0). rewrite cell_set_cell_eq. by apply Hf.
Qed.

Section Keys.

Context `{Pandas}.

Lemma dim_tiempo_key self self' :
  _build_dim_tiempo self = (self', Ok tt) ->
  exists D, dimensions self' = <["dim_tiempo" := D]> (dimensions self)
            /\ "fecha_sk" ∈ columns D
            /\ col_in is_int "fecha_sk" D
            /\ rows D <> [].
Proof.
  intros Hrun. unfold _build_dim_tiempo in Hrun.
  run_step Hrun. cbv zeta in Hrun. repeat run_step Hrun.
  apply set_dimension_ok in Hrun as [Hd Hs]. eexists. split; [exact Hd|].
  match goal with E : decide (?u = []) = right _ |- _ => set (unicas := u) in * end.
  split; [|split].
  - repeat (apply columns_assign; left). by left.
  - repeat (apply col_in_assign; [discriminate|]).
    intros _ r Hr. cbn [rows] in Hr.
    apply list_elem_of_lookup in Hr as [i Hr].
    apply lookup_zip_with_Some in Hr as (k & d & -> & _ & _).
    rewrite cell_insert_eq. by eexists.
  - intros Hnil. apply (f_equal length) in Hnil. rewrite !rows_assign in Hnil.
    cbn [rows] in Hnil. rewrite !length_fmap, length_zip_with, length_range1 in Hnil.
    destruct unicas; [done|]. cbn [length] in Hnil. lia.
Qed.

Lemma primera_fecha_key T v :
  primera_fecha T = Ok v -> col_in is_int "fecha_sk" T -> rows T <> [] ->
  sk_of T "fecha_sk" v.
Proof.
  unfold primera_fecha, getitem. intros Hmin Hint Hne.
  destruct (has_column T "fecha_sk") eqn:Hc; [|discriminate].
  apply has_column_true in Hc. cbn [rbind] in Hmin. injection Hmin as <-.
  assert (Hin : series_min ((fun r => cell r "fecha_sk") <$> rows T)
                ∈ (fun r => cell r "fecha_sk") <$> rows T).
  { apply series_min_in.
    - intros v Hv. apply list_elem_of_fmap in Hv as (r & -> & Hr). by apply Hint.
    - intros Hnil. by apply fmap_nil_inv in Hnil. }
  apply list_elem_of_fmap in Hin as (r & Hmin & Hr). rewrite Hmin.
  split; [by apply Hint|]. by exists r.
Qed.

Lemma hechos_postulante_fecha self self' :
  _build_hechos_postulante self = (self', Ok tt) ->
  facts self' = facts self
  \/ exists F,
       facts self' = <["hechos_postulante" := F]> (facts self)
       /\ forall T, dimensions self !! "dim_tiempo" = Some T ->
            col_in is_int "fecha_sk" T -> rows T <> [] ->
            col_in (sk_of T "fecha_sk") "fecha_registro_sk" F.
Proof.
  intros Hrun. unfold _build_hechos_postulante in Hrun.
  run_step Hrun. run_step Hrun.
  2: { left. by apply warning_ok in Hrun as (? & _). }
  repeat run_step Hrun;
    (apply set_fact_ok in Hrun; right; eexists; split; [exact Hrun|];
     intros T HT Hints Hne; try discriminate HT; try (injection HT as <-);
     unfold select_present in *; col_in_back;
     apply col_in_assigned; intros; eapply primera_fecha_key; eassumption).
Qed.

Lemma fecha_publicacion_key T primera hechos fechas left s :
  select T ["fecha_sk"; "fecha"] = Ok fechas ->
  merge Left left fechas "fecha_normalizada" "fecha" = Ok hechos ->
  primera_fecha T = Ok primera ->
  getitem hechos "fecha_sk" = Ok s ->
  col_in is_int "fecha_sk" T -> rows T <> [] ->
  forall r, r ∈ rows hechos -> sk_of T "fecha_sk" (fillna primera (cell r "fecha_sk")).
Proof.
  intros Hsel Hmerge Hmin Hget Hint Hne r Hr.
  assert (Hc : "fecha_sk" ∈ columns hechos).
  { unfold getitem in Hget. destruct (has_column hechos "fecha_sk") eqn:Hc; [|discriminate].
    by apply has_column_true. }
  assert (Hfk : col_in (fk_of T "fecha_sk") "fecha_sk" hechos).
  { eapply col_in_merge;
      [ exact Hmerge | unsuffixed_label
      | intros Hout; side_contra Hout
      | intros _; eapply col_in_select; [exact Hsel|]; by apply col_in_own_keys
      | intros; by left ]. }
  destruct (Hfk Hc r Hr) as [->|[[n Hn] Hd]].
  - cbn. by eapply primera_fecha_key.
  - rewrite Hn in *. cbn. split; [by exists n|done].
Qed.

Ltac at_select :=
  lazymatch goal with
  | E : select ?X (List.filter _ ?cols) = Ok ?a |- col_in _ ?c ?a =>
      first
        [ solve [ apply col_in_absent; erewrite select_columns by exact E;
                  let Hin := fresh "Hin" in
                  intros Hin; apply list_elem_of_In, filter_In in Hin as [Hin _];
                  apply list_elem_of_In in Hin;
                  repeat match type of Hin with
                         | context [if ?b then _ else _] => destruct b
                         end;
                  cbn [app] in Hin; revert Hin; not_in_list ]
        | eapply col_in_select; [exact E|] ]
  end.

Lemma hechos_vacante_fecha self self' :
  _build_hechos_vacante self = (self', Ok tt) ->
  facts self' = facts self
  \/ exists F,
       facts self' = <["hechos_vacante" := F]> (facts self)
       /\ forall T, dimensions self !! "dim_tiempo" = Some T ->
            col_in is_int "fecha_sk" T -> rows T <> [] ->
            col_in (sk_of T "fecha_sk") "fecha_publicacion_sk" F.
Proof.
  intros Hrun. unfold _build_hechos_vacante in Hrun.
  run_step Hrun. run_step Hrun.
  2: { left. by apply warning_ok in Hrun as (? & _). }
  repeat run_step Hrun;
    (apply set_fact_ok in Hrun; right; eexists; split; [exact Hrun|];
     intros T HT Hints Hne; try discriminate HT; try (injection HT as <-);
     unfold select_present in *).
  all: repeat first
    [ eapply col_in_drop_duplicates; [eassumption|]
    | eapply col_in_dropna; [eassumption|]
    | eapply col_in_astype_if_present; [eassumption|apply sk_of_shape|] ].
  all: at_select.
  all: repeat first
    [ apply col_in_assign; [discriminate|]
    | apply col_in_rename; [not_in_list|not_in_list|]
    | eapply col_in_astype; [eassumption|apply sk_of_shape|] ].
  all: apply col_in_assigned; eapply fecha_publicacion_key; eassumption.
Qed.

Lemma other_dimension_kept {A} n k (t t' : gmap string A) :
  (exists D, t' = <[n := D]> t) \/ t' = t -> n <> k -> t' !! k = t !! k.
Proof. intros [[D ->]| ->] Hne; [by rewrite lookup_insert_ne|done]. Qed.

Lemma dates_step (X : string) (m : M unit) self self' :
  keeps dimensions m ->
  m self = (self', Ok tt) ->
  (facts self' = facts self
   \/ exists F, facts self' = <[X := F]> (facts self)
        /\ forall fact fk, (fact, fk) ∈ date_links -> fact = X ->
             forall T, dimensions self !! "dim_tiempo" = Some T ->
               col_in (sk_of T "fecha_sk") fk F) ->
  dates_ok self -> dates_ok self'.
Proof.
  intros Hkd Hrun Hbuilt Hok.
  assert (Hd : dimensions self' = dimensions self) by (by rewrite <- (Hkd self), Hrun).
  intros fact fk Hin F T HF HT. rewrite Hd in HT.
  destruct Hbuilt as [Hsame|(F' & Hset & Hprop)].
  - rewrite Hsame in HF. by eapply Hok.
  - rewrite Hset in HF. destruct (decide (X = fact)) as [->|Hne].
    + rewrite lookup_insert_eq in HF. injection HF as <-. by eapply Hprop.
    + rewrite lookup_insert_ne in HF by done. by eapply Hok.
Qed.

Ltac date_cases Hin :=
  unfold date_links in Hin;
  repeat (apply elem_of_cons in Hin as [[= -> ->]|Hin]); [..|inversion Hin].

Lemma all_facts_dates self self' T :
  _build_all_facts self = (self', Ok tt) ->
  dimensions self !! "dim_tiempo" = Some T ->
  col_in is_int "fecha_sk" T -> rows T <> [] ->
  dates_ok self -> dates_ok self'.
Proof.
  intros Hrun HT Hint Hne Hok. unfold _build_all_facts in Hrun.
  destruct fact_builders_keep_dimensions as (Hd1 & Hd2 & Hd3 & Hd4 & Hd5).
  apply bind_ok in Hrun as ([] & s1 & H1 & Hrun).
  assert (E1 : dimensions s1 = dimensions self) by (by rewrite <- (Hd1 self), H1).
  apply (dates_step "hechos_postulante" _ _ _ Hd1 H1) in Hok.
  2: { destruct (hechos_postulante_fecha _ _ H1) as [?|(F & HF & Hp)]; [by left|].
       right. exists F. split; [done|]. intros fact fk Hin HX T' HT'.
       rewrite HT in HT'. injection HT' as <-.
       date_cases Hin; try discriminate HX. by apply Hp. }
  apply bind_ok in Hrun as ([] & s2 & H2 & Hrun).
  assert (E2 : dimensions s2 = dimensions self) by (by rewrite <- E1, <- (Hd2 s1), H2).
  apply (dates_step "hechos_formacion" _ _ _ Hd2 H2) in Hok.
  2: { apply hechos_formacion_stored in H2.
       destruct H2 as [(F & df & HF & _)|[? _]]; [|by left].
       right. exists F. split; [done|]. intros fact fk Hin HX.
       date_cases Hin; discriminate HX. }
  apply bind_ok in Hrun as ([] & s3 & H3 & Hrun).
  assert (E3 : dimensions s3 = dimensions self) by (by rewrite <- E2, <- (Hd3 s2), H3).
  apply (dates_step "hechos_experiencia" _ _ _ Hd3 H3) in Hok.
  2: { apply hechos_experiencia_stored in H3.
       destruct H3 as [(F & df & HF & _)|[? _]]; [|by left].
       right. exists F. split; [done|]. intros fact fk Hin HX.
       date_cases Hin; discriminate HX. }
  apply bind_ok in Hrun as ([] & s4 & H4 & Hrun).
  apply (dates_step "hechos_vacante" _ _ _ Hd4 H4) in Hok.
  2: { destruct (hechos_vacante_fecha _ _ H4) as [?|(F & HF & Hp)]; [by left|].
       right. exists F. split; [done|]. intros fact fk Hin HX T' HT'.
       rewrite E3, HT in HT'. injection HT' as <-.
       date_cases Hin; try discriminate HX. by apply Hp; [rewrite E3|..]. }
  apply (dates_step "hechos_competencia_requerida" _ _ _ Hd5 Hrun) in Hok; [done|].
  apply hechos_competencia_requerida_stored in Hrun.
  destruct Hrun as [(F & df & HF & _)|[? _]]; [|by left].
  right. exists F. split; [done|]. intros fact fk Hin HX.
  date_cases Hin; discriminate HX.
Qed.

(** X15.  The date keys resolve.  When [transform_all] returns tables,
    dim_tiempo is among them and has a row, and every cell of
    fecha_registro_sk in hechos_postulante and of fecha_publicacion_sk
    in hechos_vacante is an integer that is a fecha_sk of dim_tiempo:
    a posting whose creation date is no row of dim_tiempo gets the
    smallest fecha_sk, as every applicant does. *)
Theorem date_keys_resolve today ds self' dims hechos :
  transform_all today (__init__ ds) = (self', Some (dims, hechos)) ->
  exists T,
    dims !! "dim_tiempo" = Some T
    /\ rows T <> []
    /\ forall fact fk,
         (fact, fk) ∈ [ ("hechos_postulante", "fecha_registro_sk");
                        ("hechos_vacante", "fecha_publicacion_sk") ] ->
         forall F, hechos !! fact = Some F -> fk ∈ columns F ->
           forall r, r ∈ rows F ->
             is_int (cell r fk)
             /\ exists d, d ∈ rows T /\ cell d "fecha_sk" = cell r fk.
Proof.
  intros Hrun.
  destruct (pipeline_steps _ _ _ _ _ Hrun)
    as (-> & -> & d1 & d2 & d3 & d4 & d5 & d6 & d7 & s1 & s2 & f1 & f2 & f3 & f4
        & Hdims & Q1 & Q2 & Q3 & Q4 & Q5 & Q6 & Q7 & Q8 & Hrec & P1 & P2 & P3 & P4 & P5).
  assert (Hfacts : _build_all_facts s2 = (self', Ok tt)).
  { unfold _build_all_facts, bind. by rewrite P1, P2, P3, P4. }
  destruct (dim_tiempo_key _ _ Q1) as (T & HT & _ & Hint & Hne).
  assert (HT1 : dimensions s1 !! "dim_tiempo" = Some T).
  { apply dim_ubicacion_built in Q2 as (_ & Q2).
    apply dim_postulante_built in Q3 as (_ & Q3). apply written in Q3.
    apply dim_empresa_built in Q4 as (_ & Q4). apply written in Q4.
    apply dim_vacante_built in Q5 as (_ & Q5). apply written in Q5.
    apply dim_competencia_built in Q6 as (_ & Q6). apply written in Q6.
    apply dim_carrera_built in Q7 as (_ & Q7). apply written in Q7.
    apply dim_institucion_built in Q8 as (_ & Q8). apply written in Q8.
    rewrite (other_dimension_kept _ _ _ _ Q8) by done.
    rewrite (other_dimension_kept _ _ _ _ Q7) by done.
    rewrite (other_dimension_kept _ _ _ _ Q6) by done.
    rewrite (other_dimension_kept _ _ _ _ Q5) by done.
    rewrite (other_dimension_kept _ _ _ _ Q4) by done.
    rewrite (other_dimension_kept _ _ _ _ Q3) by done.
    rewrite (other_dimension_kept _ _ _ _ (or_introl Q2)) by done.
    rewrite HT. apply lookup_insert_eq. }
  assert (Hd2 : dimensions s2 = dimensions s1).
  { pose proof (reconcile_keeps_dimensions today s1) as Hk. by rewrite Hrec in Hk. }
  assert (Hd' : dimensions self' = dimensions s2).
  { pose proof (all_facts_keep_dimensions s2) as Hk. by rewrite Hfacts in Hk. }
  assert (Hok : dates_ok s2).
  { intros fact fk _ F T' HF.
    pose proof (reconcile_keeps_facts today s1) as Hk. rewrite Hrec in Hk. cbn [fst] in Hk.
    pose proof (dimension_builders_keep_facts (__init__ ds)) as Hk1.
    rewrite Hdims in Hk1. cbn [fst] in Hk1.
    rewrite Hk, Hk1 in HF. unfold __init__ in HF. cbn [facts] in HF.
    by rewrite lookup_empty in HF. }
  apply (all_facts_dates _ _ T Hfacts) in Hok; [|by rewrite Hd2|done|done].
  exists T. split; [by rewrite Hd', Hd2|]. split; [done|].
  intros fact fk Hin F HF Hfk r Hr.
  apply (Hok fact fk Hin F T HF); [by rewrite Hd', Hd2|done|done].
Qed.

End Keys.

Lemma date_keys_resolve_witness :
  let out := default (∅, ∅) (fixture.run fixture.extracted).2 in
  let F := default (mkDF [] []) (out.2 !! "hechos_vacante") in
  exists T,
    out.1 !! "dim_tiempo" = Some T
    /\ length (rows F) = 2%nat
    /\ Forall (fun r => exists d, d ∈ rows T
                          /\ cell d "fecha_sk" = cell r "fecha_publicacion_sk") (rows F).
Proof.
  intros out F.
  assert (Hsome : is_Some (fixture.run fixture.extracted).2)
    by (apply (bool_decide_unpack _); vm_compute; exact I).
  assert (HF : is_Some (out.2 !! "hechos_vacante"))
    by (apply (bool_decide_unpack _); vm_compute; exact I).
  assert (Hcol : "fecha_publicacion_sk" ∈ columns F)
    by (apply (bool_decide_unpack _); vm_compute; exact I).
  destruct (date_keys_resolve (H := fixture.pandas) fixture.today fixture.extracted
              (fixture.run fixture.extracted).1 out.1 out.2) as (T & HT & _ & Hkeys).
  { subst F out. unfold fixture.run in *.
    destruct (transform_all fixture.today (__init__ fixture.extracted)) as [s [[d h]|]];
      [reflexivity|by destruct Hsome]. }
  exists T. split; [exact HT|]. split; [vm_compute; reflexivity|].
  apply Forall_forall. intros r Hr.
  refine (proj2 (Hkeys "hechos_vacante" "fecha_publicacion_sk" _ F _ Hcol r Hr)); [in_list|].
  subst F. by destruct HF as [x ->].
Defined.

End date_keys.

Module numbered_joins.

Import notions pd_facts pd_results method_facts pd_columns dim_tiempo_facts.
Import dimension_notions dimension_facts merge_facts foreign_keys table_names join_notions.

Lemma resolve_found (vals : list value) (i : nat) (k : value) :
  NoDup vals -> vals !! i = Some k -> resolve vals k = VInt (Z.of_nat i + 1).
Proof.
  intros Hnd Hi. unfold resolve.
  destruct (list_find (fun v => v = k) vals) as [[j v]|] eqn:Hfind.
  - apply list_find_Some in Hfind as (Hj & -> & _).
    by rewrite (NoDup_lookup vals i j k Hnd Hi Hj).
  - apply list_find_None in Hfind. rewrite Forall_forall in Hfind.
    destruct (Hfind k); [by eapply list_elem_of_lookup_2|done].
Qed.

Lemma resolve_missing (vals : list value) (k : value) :
  k ∉ vals -> resolve vals k = VNull.
Proof.
  intros Hk. unfold resolve.
  destruct (list_find (fun v => v = k) vals) as [[j v]|] eqn:Hfind; [|done].
  apply list_find_Some in Hfind as (Hj & -> & _).
  destruct Hk. by eapply list_elem_of_lookup_2.
Qed.

Lemma resolve_notna (vals : list value) (k : value) :
  notna (resolve vals k) = true <-> k ∈ vals.
Proof.
  split.
  - intros Hn. destruct (decide (k ∈ vals)) as [|Hout]; [done|].
    by rewrite resolve_missing in Hn.
  - intros Hin. unfold resolve.
    destruct (list_find (fun v => v = k) vals) as [[j v]|] eqn:Hfind; [done|].
    apply list_find_None in Hfind. rewrite Forall_forall in Hfind. by destruct (Hfind k).
Qed.

(** The rows of a numbered frame that match a key: the one row of that
    key, or none. *)
Lemma matches_numbered R sk c vals k :
  numbers sk c vals R -> NoDup vals ->
  (k ∈ vals
   /\ (exists r, matches R c k = [r] /\ cell r sk = resolve vals k /\ cell r c = k))
  \/ ((k ∉ vals) /\ matches R c k = []).
Proof.
  intros [Hsk Hc] Hnd. destruct (decide (k ∈ vals)) as [Hin|Hout].
  - left. split; [done|]. apply list_elem_of_lookup in Hin as [i Hi].
    assert (Hr : exists r, rows R !! i = Some r /\ cell r c = k).
    { rewrite <- Hc in Hi. rewrite list_lookup_fmap in Hi.
      destruct (rows R !! i) as [r|]; [|discriminate]. exists r. split; [done|].
      by injection Hi. }
    destruct Hr as (r & Hr & Hk). exists r. split; [|split; [|done]].
    + rewrite <- Hk. apply matches_unique; [|by eapply list_elem_of_lookup_2].
      unfold column. by rewrite Hc.
    + rewrite (resolve_found vals i k Hnd Hi).
      assert (Hcell : ((fun r => cell r sk) <$> rows R) !! i = Some (cell r sk))
        by (by rewrite list_lookup_fmap, Hr).
      rewrite Hsk, list_lookup_fmap, lookup_range1 in Hcell.
      * by injection Hcell.
      * by eapply lookup_lt_Some.
  - right. split; [done|]. apply matches_none. unfold column. by rewrite Hc.
Qed.

(** A join against a numbered frame of two columns resolves the key of
    every left row: the frame in closed form. *)
Lemma merge_numbered h L R sk c vals lo :
  columns R = [sk; c] -> numbers sk c vals R -> NoDup vals ->
  lo ∈ columns L -> sk ∉ columns L -> c ∉ columns L ->
  exists f : Row -> Row,
    (forall l, cell (f l) sk = resolve vals (cell l lo))
    /\ (forall l c', c' ∈ columns L -> cell (f l) c' = cell l c')
    /\ merge h L R lo c
       = Ok (mkDF (columns L ++ [sk; c])
               (f <$> List.filter
                        (fun l => match h with
                                  | Left => true
                                  | Inner => notna (resolve vals (cell l lo))
                                  end) (rows L))).
Proof.
  intros Hcols Hnum Hnd Hlo Hsk Hc.
  exists (fun l => project (columns L) l
                   ∪ project [sk; c] (default ∅ (head (matches R c (cell l lo))))).
  split; [|split].
  - intros l. rewrite cell_union_r by done. rewrite cell_project_in by (by left).
    destruct (matches_numbered R sk c vals (cell l lo) Hnum Hnd)
      as [(_ & r & -> & Hr & _)|(Hout & ->)]; [done|].
    cbn [head default]. by rewrite resolve_missing.
  - intros l c' Hc'. by apply cell_union_l.
  - rewrite merge_disjoint; [|done|rewrite Hcols; by right; left|].
    2: { intros c' Hc' Hin. rewrite Hcols in Hin.
         apply elem_of_cons in Hin as [->|Hin]; [done|].
         apply list_elem_of_singleton in Hin as ->. done. }
    rewrite Hcols. do 2 f_equal.
    induction (rows L) as [|l ls IH]; [done|]. rewrite bind_cons, IH. clear IH.
    cbn [List.filter].
    destruct (matches_numbered R sk c vals (cell l lo) Hnum Hnd)
      as [(Hin & r & Hm & Hr & _)|(Hout & Hm)].
    + apply resolve_notna in Hin. rewrite Hin.
      destruct h; cbn [fmap list_fmap app]; by rewrite Hm.
    + rewrite (resolve_missing _ _ Hout).
      destruct h; cbn [fmap list_fmap app notna isna negb]; by rewrite Hm.
Qed.

(** The two key columns of a numbered dimension, selected. *)
Lemma select_numbered D sk c vals :
  sk ∈ columns D -> c ∈ columns D -> numbers sk c vals D ->
  exists R, select D [sk; c] = Ok R /\ columns R = [sk; c] /\ numbers sk c vals R.
Proof.
  intros Hsk Hc [Hn1 Hn2]. eexists. rewrite select_ok.
  2: { intros c' Hc'. apply elem_of_cons in Hc' as [->|Hc']; [done|].
       by apply list_elem_of_singleton in Hc' as ->. }
  split; [reflexivity|]. split; [reflexivity|]. unfold numbers. cbn [rows].
  rewrite <- !list_fmap_compose. split.
  - rewrite <- Hn1. apply list_fmap_ext. intros _ r _. unfold compose.
    apply cell_project_in. by left.
  - rewrite <- Hn2. apply list_fmap_ext. intros _ r _. unfold compose.
    apply cell_project_in. by right; left.
Qed.

Lemma filter_all {A} (p : A -> bool) (l : list A) :
  (forall x, x ∈ l -> p x = true) -> List.filter p l = l.
Proof.
  induction l as [|x l IH]; intros Hall; [done|]. cbn [List.filter].
  rewrite Hall by (by left). f_equal. apply IH. intros y Hy. apply Hall. by right.
Qed.

Lemma filter_fmap {A B} (p : B -> bool) (g : A -> B) (l : list A) :
  List.filter p (g <$> l) = g <$> List.filter (fun x => p (g x)) l.
Proof.
  induction l as [|x l IH]; [done|]. cbn [fmap list_fmap List.filter].
  destruct (p (g x)); cbn [fmap list_fmap]; by rewrite IH.
Qed.

Section Facts.

Context `{Pandas}.

(** A column that holds integers already. *)
Lemma astype_int64_column_ints c cols (rs : list Row) :
  c ∈ cols ->
  (forall r, r ∈ rs -> exists n, r !! c = Some (VInt n)) ->
  astype_int64_column c (mkDF cols rs) = Ok (mkDF cols rs).
Proof.
  intros Hc Hint. unfold astype_int64_column.
  rewrite (proj2 (has_column_true _ _)) by done. cbn [rows columns].
  assert (Hmap : mapM (fun r => v ← astype_int64 (cell r c); Some (<[c := v]> r)) rs = Some rs).
  { apply mapM_Some. apply Forall2_same_length_lookup. split; [done|].
    intros i r r' Hr Hr'. rewrite Hr in Hr'. injection Hr' as <-.
    destruct (Hint r) as [n Hn]; [by eapply list_elem_of_lookup_2|].
    assert (Hcell : cell r c = VInt n) by (unfold cell; by rewrite Hn).
    rewrite Hcell, astype_int64_int. cbn [mbind option_bind]. by rewrite insert_id. }
  by rewrite Hmap.
Qed.

Lemma resolve_shape (vals : list value) (k : value) :
  notna (resolve vals k) = true -> exists n, resolve vals k = VInt n.
Proof.
  unfold resolve. destruct (list_find _ _) as [[i v]|]; [by eexists|done].
Qed.

(** The column of a one-column frame after [drop_duplicates()]. *)
Lemma column_keep_first c (g : Row -> Row) (l : list Row) :
  (forall r, cell (g r) c = cell (project [c] (g r)) c) ->
  (fun r => cell r c) <$> keep_first (key_of [c]) [] (project [c] <$> (g <$> l))
  = unique ((fun r => cell (g r) c) <$> l).
Proof.
  intros _. rewrite <- list_fmap_compose, keep_first_fmap, <- list_fmap_compose.
  unfold unique. rewrite <- keys_keep_first.
  rewrite (keep_first_ext _ ((fun v : value => [v]) ∘ (fun r => cell (g r) c))).
  2: { intros r. unfold key_of, compose. cbn [fmap list_fmap].
       rewrite cell_project_in; [done|by left]. }
  rewrite (keep_first_inj (fun v : value => [v]) (fun r => cell (g r) c) _ []).
  apply list_fmap_ext. intros _ r _. unfold compose.
  rewrite cell_project_in; [done|by left].
Qed.

(** X16.  With dim_postulante numbering the applicant identifiers [ids]
    and an experience dataset that has ID_POSTULANTE (and no column
    named postulante_sk or id_postulante_original), the identifiers of
    the two being of one kind (strings on both sides, or numbers up to
    2^53 on both), [_build_hechos_experiencia] returns, and
    hechos_experiencia has the single column postulante_sk: the keys of
    the applicants that occur in the dataset, each once, in order of
    first appearance.  Rows of applicants that the dimension does not
    know are dropped.  (With strings against numbers pandas refuses the
    join.) *)
Theorem hechos_experiencia_lists_applicants_with_experience self df D ids :
  datasets self !! "experiencias" = Some df ->
  "ID_POSTULANTE" ∈ columns df ->
  "postulante_sk" ∉ columns df -> "id_postulante_original" ∉ columns df ->
  dimensions self !! "dim_postulante" = Some D ->
  "postulante_sk" ∈ columns D -> "id_postulante_original" ∈ columns D ->
  numbers "postulante_sk" "id_postulante_original" ids D -> NoDup ids ->
  same_dtype (column "ID_POSTULANTE" df) ids ->
  exists self' F,
    _build_hechos_experiencia self = (self', Ok tt)
    /\ facts self' !! "hechos_experiencia" = Some F
    /\ columns F = ["postulante_sk"]
    /\ column "postulante_sk" F
       = unique (series_dropna (resolve ids <$> column "ID_POSTULANTE" df)).
Proof.
  intros Hdf Hid Hsk Horig HD HskD HorigD Hnum Hnd _.
  destruct (select_numbered D _ _ ids HskD HorigD Hnum) as (R & Hsel & HcolsR & HnumR).
  destruct (merge_numbered Inner df R _ _ ids "ID_POSTULANTE" HcolsR HnumR Hnd Hid Hsk Horig)
    as (f & Hf & _ & Hmerge).
  set (kept := List.filter (fun l => notna (resolve ids (cell l "ID_POSTULANTE"))) (rows df))
    in Hmerge.
  set (rs := keep_first (key_of ["postulante_sk"]) []
               (project ["postulante_sk"] <$> (f <$> kept))).
  assert (Hrs : forall r, r ∈ rs ->
            exists l, l ∈ kept /\ r = project ["postulante_sk"] (f l)).
  { intros r Hr. apply elem_of_keep_first in Hr.
    apply list_elem_of_fmap in Hr as (x & -> & Hx).
    apply list_elem_of_fmap in Hx as (l & -> & Hl). by exists l. }
  assert (Hkept : forall l, l ∈ kept -> notna (resolve ids (cell l "ID_POSTULANTE")) = true).
  { intros l Hl. unfold kept in Hl. by apply list_elem_of_In, filter_In in Hl as [_ Hl]. }
  exists (mkTransformer (datasets self) (dimensions self)
            (<["hechos_experiencia" := mkDF ["postulante_sk"] rs]> (facts self))
            (orphan_stats self) (log self)), (mkDF ["postulante_sk"] rs).
  split; [|split; [apply lookup_insert_eq|split; [done|]]].
  - unfold _build_hechos_experiencia. rewrite bind_get, Hdf, bind_get_dimension, HD.
    rewrite bind_lift, Hsel, bind_lift, Hmerge.
    rewrite bind_lift, select_ok.
    2: { intros c Hc. apply list_elem_of_singleton in Hc as ->. cbn [columns].
         apply elem_of_app. right. by left. }
    cbn [rows]. rewrite bind_lift, drop_duplicates_one_column. fold rs.
    rewrite bind_lift. unfold dropna. cbn [default columns rows].
    rewrite missing_label_None by (by intros c Hc).
    rewrite filter_all.
    2: { intros r Hr. destruct (Hrs r Hr) as (l & Hl & ->).
         unfold key_of, id. cbn [fmap list_fmap forallb].
         rewrite cell_project_in by (by left). rewrite Hf, (Hkept l Hl). done. }
    rewrite bind_lift, astype_int64_column_ints; [done|by left|].
    intros r Hr. destruct (Hrs r Hr) as (l & Hl & ->).
    destruct (resolve_shape ids _ (Hkept l Hl)) as [n Hn]. exists n.
    rewrite lookup_project, decide_True by (by left). by rewrite Hf, Hn.
  - unfold column at 1. cbn [rows]. unfold rs. rewrite column_keep_first by done.
    f_equal. unfold series_dropna, column, kept.
    rewrite <- list_fmap_compose, filter_fmap.
    apply list_fmap_ext. intros _ l _. apply Hf.
Qed.



Lemma drop_duplicates_all c cols (l : list Row) :
  drop_duplicates None (mkDF (c :: cols) l)
  = Ok (mkDF (c :: cols) (keep_first (key_of (c :: cols)) [] l)).
Proof.
  unfold drop_duplicates, empty. cbn [columns rows default].
  destruct l as [|r l]; [done|]. by rewrite missing_label_None.
Qed.

Lemma key_of_project cs (r : Row) : key_of cs (project cs r) = key_of cs r.
Proof.
  unfold key_of. apply list_fmap_ext. intros i c Hc.
  apply cell_project_in. by eapply list_elem_of_lookup_2.
Qed.

(** The key tuples of a frame after [drop_duplicates()]. *)
Lemma keys_keep_first_project cs (g : Row -> Row) (l : list Row) :
  key_of cs <$> keep_first (key_of cs) [] (project cs <$> (g <$> l))
  = keep_first id [] ((fun r => key_of cs (g r)) <$> l).
Proof.
  rewrite keys_keep_first, <- !list_fmap_compose. f_equal.
  apply list_fmap_ext. intros _ r _. unfold compose. apply key_of_project.
Qed.

Lemma merge_optional_numbered hechos name U sk c vals on self :
  dimensions self !! name = Some U ->
  sk ∈ columns U -> c ∈ columns U -> numbers sk c vals U -> NoDup vals ->
  on ∈ columns hechos -> sk ∉ columns hechos -> c ∉ columns hechos ->
  exists f : Row -> Row,
    (forall l, cell (f l) sk = resolve vals (cell l on))
    /\ (forall l c', c' ∈ columns hechos -> cell (f l) c' = cell l c')
    /\ merge_optional hechos name [sk; c] on c self
       = (self, Ok (mkDF (columns hechos ++ [sk; c]) (f <$> rows hechos))).
Proof.
  intros HU Hsk Hc Hnum Hnd Hon Hsk' Hc'.
  destruct (select_numbered U _ _ vals Hsk Hc Hnum) as (R & Hsel & HcolsR & HnumR).
  destruct (merge_numbered Left hechos R _ _ vals on HcolsR HnumR Hnd Hon Hsk' Hc')
    as (f & Hf & Hleft & Hmerge).
  exists f. split; [done|]. split; [done|].
  unfold merge_optional. rewrite bind_get, HU.
  rewrite (proj2 (has_column_true _ _)) by done.
  rewrite bind_lift, Hsel. unfold lift. rewrite Hmerge.
  by rewrite filter_all.
Qed.

(** X18.  With dim_postulante, dim_ubicacion and dim_tiempo in place,
    the applicant identifiers and the location codes each of one kind
    in the dataset and in the dimension, and fecha_sk holding integers,
    [_build_hechos_postulante] returns, and hechos_postulante has the
    columns postulante_sk, ubicacion_sk and fecha_registro_sk and one
    row per distinct pair of keys that a row of the applicant dataset
    resolves to, in order of first appearance; both joins are left
    joins, so a key that does not resolve is null and its row is kept;
    fecha_registro_sk is the smallest fecha_sk in every row. *)
Theorem hechos_postulante_has_a_row_per_key_pair self df D U T ids ubigeos :
  datasets self !! "postulante" = Some df ->
  "ID_POSTULANTE" ∈ columns df -> "UBIGEO" ∈ columns df ->
  (forall c, c ∈ ["postulante_sk"; "id_postulante_original"; "ubicacion_sk"; "ubigeo"] ->
             c ∉ columns df) ->
  dimensions self !! "dim_postulante" = Some D ->
  "postulante_sk" ∈ columns D -> "id_postulante_original" ∈ columns D ->
  numbers "postulante_sk" "id_postulante_original" ids D -> NoDup ids ->
  dimensions self !! "dim_ubicacion" = Some U ->
  "ubicacion_sk" ∈ columns U -> "ubigeo" ∈ columns U ->
  numbers "ubicacion_sk" "ubigeo" ubigeos U -> NoDup ubigeos ->
  dimensions self !! "dim_tiempo" = Some T -> "fecha_sk" ∈ columns T ->
  same_dtype (column "ID_POSTULANTE" df) ids ->
  same_dtype (column "UBIGEO" df) ubigeos ->
  Forall is_int (column "fecha_sk" T) ->
  let cols := ["postulante_sk"; "ubicacion_sk"; "fecha_registro_sk"] in
  exists self' F,
    _build_hechos_postulante self = (self', Ok tt)
    /\ facts self' !! "hechos_postulante" = Some F
    /\ columns F = cols
    /\ key_of cols <$> rows F
       = keep_first id []
           ((fun r => [ resolve ids (cell r "ID_POSTULANTE");
                        resolve ubigeos (cell r "UBIGEO");
                        series_min (column "fecha_sk" T) ]) <$> rows df).
Proof.
  intros Hdf Hid Hub Hnew HD Hd1 Hd2 Hnd Hndd HU Hu1 Hu2 Hnu Hndu HT Hfecha _ _ _ cols.
  destruct (select_numbered D _ _ ids Hd1 Hd2 Hnd) as (R & Hsel & HcolsR & HnumR).
  destruct (merge_numbered Left df R _ _ ids "ID_POSTULANTE" HcolsR HnumR Hndd Hid)
    as (f1 & Hf1 & Hleft1 & Hmerge1); [apply Hnew; in_list..|].
  rewrite filter_all in Hmerge1 by done.
  set (m1 := mkDF (columns df ++ ["postulante_sk"; "id_postulante_original"])
               (f1 <$> rows df)) in Hmerge1.
  assert (Hout : forall c, c ∈ ["ubicacion_sk"; "ubigeo"] -> c ∉ columns m1).
  { intros c Hc Hin. unfold m1 in Hin. cbn [columns] in Hin.
    apply elem_of_app in Hin as [Hin|Hin].
    - revert Hin. apply Hnew.
      repeat (apply elem_of_cons in Hc as [->|Hc]); [..|inversion Hc]; in_list.
    - repeat (apply elem_of_cons in Hc as [->|Hc]); [..|inversion Hc];
        revert Hin; not_in_list. }
  destruct (merge_optional_numbered m1 "dim_ubicacion" U _ _ ubigeos "UBIGEO" self
              HU Hu1 Hu2 Hnu Hndu) as (f2 & Hf2 & Hleft2 & Hmerge2);
    [|apply Hout; in_list..|].
  { unfold m1. cbn [columns]. apply elem_of_app. by left. }
  set (m2 := mkDF (columns m1 ++ ["ubicacion_sk"; "ubigeo"]) (f2 <$> rows m1)) in Hmerge2.
  set (p := series_min (column "fecha_sk" T)).
  set (m3 := assign "fecha_registro_sk" (fun _ => p) m2).
  assert (Hin3 : forall c, c ∈ cols -> c ∈ columns m3).
  { intros c Hc. apply columns_assign. unfold cols in Hc.
    repeat (apply elem_of_cons in Hc as [->|Hc]); [..|inversion Hc].
    - left. unfold m2, m1. cbn [columns]. apply elem_of_app. left.
      apply elem_of_app. right. by left.
    - left. unfold m2. cbn [columns]. apply elem_of_app. right. by left.
    - by right. }
  set (g := fun l : Row => set_cell "fecha_registro_sk" (fun _ => p) (f2 (f1 l))).
  set (rs := keep_first (key_of cols) [] (project cols <$> (g <$> rows df))).
  exists (mkTransformer (datasets self) (dimensions self)
            (<["hechos_postulante" := mkDF cols rs]> (facts self))
            (orphan_stats self) (log self)), (mkDF cols rs).
  split; [|split; [apply lookup_insert_eq|split; [done|]]].
  - unfold _build_hechos_postulante. rewrite bind_get, Hdf, bind_get_dimension, HD.
    rewrite bind_lift, Hsel, bind_lift, Hmerge1.
    unfold bind at 1. rewrite Hmerge2.
    rewrite (proj2 (has_column_true m2 "ubicacion_sk"))
      by (unfold m2; cbn [columns]; apply elem_of_app; right; by left).
    cbn [app]. rewrite bind_get, HT.
    unfold primera_fecha, getitem. rewrite (proj2 (has_column_true T "fecha_sk")) by done.
    cbn [rbind]. rewrite bind_assoc, bind_lift, bind_ret. cbv beta iota. fold p. fold m3.
    unfold select_present. cbn [List.filter app].
    rewrite !(proj2 (has_column_true m3 _)) by (apply Hin3; in_list).
    rewrite bind_lift, select_ok by exact Hin3.
    rewrite bind_lift. unfold cols at 1. rewrite drop_duplicates_all.
    rewrite rows_assign. unfold rs, g, cols, p, column, m2, m1. cbn [rows].
    rewrite <- !list_fmap_compose. reflexivity.
  - cbn [rows]. unfold rs. rewrite keys_keep_first_project. f_equal.
    apply list_fmap_ext. intros _ l _. unfold key_of, g, cols. cbn [fmap list_fmap].
    rewrite !cell_set_cell_ne by done. rewrite cell_set_cell_eq.
    rewrite Hf2, Hleft1 by done.
    rewrite Hleft2, Hf1; [done|].
    unfold m1. cbn [columns]. apply elem_of_app. right. by left.
Qed.

(** X19.  With dim_postulante, dim_carrera and dim_institucion in place,
    the applicant identifiers, the careers and the institutions each of
    one kind in the dataset and in the dimension,
    [_build_hechos_formacion] returns, and hechos_formacion has one row
    per distinct triple of keys (applicant, career, institution) that a
    row of the education dataset resolves to, in order of first
    appearance.  Rows of applicants that dim_postulante does not know
    are dropped (inner join); an unknown or null career or institution
    gives a null key and the row is kept (left joins). *)
Theorem hechos_formacion_has_a_row_per_key_triple self df D C Di ids carreras insts :
  datasets self !! "educacion" = Some df ->
  "ID_POSTULANTE" ∈ columns df -> "CARRERA" ∈ columns df -> "INSTITUCION" ∈ columns df ->
  (forall c, c ∈ ["postulante_sk"; "id_postulante_original"; "carrera_sk"; "nombre_carrera";
                  "institucion_sk"; "nombre_institucion"] -> c ∉ columns df) ->
  dimensions self !! "dim_postulante" = Some D ->
  "postulante_sk" ∈ columns D -> "id_postulante_original" ∈ columns D ->
  numbers "postulante_sk" "id_postulante_original" ids D -> NoDup ids ->
  dimensions self !! "dim_carrera" = Some C ->
  "carrera_sk" ∈ columns C -> "nombre_carrera" ∈ columns C ->
  numbers "carrera_sk" "nombre_carrera" carreras C -> NoDup carreras ->
  dimensions self !! "dim_institucion" = Some Di ->
  "institucion_sk" ∈ columns Di -> "nombre_institucion" ∈ columns Di ->
  numbers "institucion_sk" "nombre_institucion" insts Di -> NoDup insts ->
  same_dtype (column "ID_POSTULANTE" df) ids ->
  same_dtype (column "CARRERA" df) carreras ->
  same_dtype (column "INSTITUCION" df) insts ->
  let cols := ["postulante_sk"; "carrera_sk"; "institucion_sk"] in
  exists self' F,
    _build_hechos_formacion self = (self', Ok tt)
    /\ facts self' !! "hechos_formacion" = Some F
    /\ columns F = cols
    /\ key_of cols <$> rows F
       = keep_first id []
           ((fun r => [ resolve ids (cell r "ID_POSTULANTE");
                        resolve carreras (cell r "CARRERA");
                        resolve insts (cell r "INSTITUCION") ])
            <$> List.filter (fun r => notna (resolve ids (cell r "ID_POSTULANTE")))
                  (rows df)).
Proof.
  intros Hdf Hid Hcar Hinst Hnew HD Hd1 Hd2 Hnd Hndd HC Hc1 Hc2 Hnc Hndc
    HI Hi1 Hi2 Hni Hndi _ _ _ cols.
  destruct (select_numbered D _ _ ids Hd1 Hd2 Hnd) as (R & Hsel & HcolsR & HnumR).
  destruct (merge_numbered Inner df R _ _ ids "ID_POSTULANTE" HcolsR HnumR Hndd Hid)
    as (f1 & Hf1 & Hleft1 & Hmerge1); [apply Hnew; in_list..|].
  set (kept := List.filter (fun l => notna (resolve ids (cell l "ID_POSTULANTE"))) (rows df))
    in *.
  set (m1 := mkDF (columns df ++ ["postulante_sk"; "id_postulante_original"])
               (f1 <$> kept)) in Hmerge1.
  assert (Hin1 : forall c, c ∈ columns df -> c ∈ columns m1).
  { intros c Hc. unfold m1. cbn [columns]. apply elem_of_app. by left. }
  assert (Hout1 : forall c, c ∈ ["carrera_sk"; "nombre_carrera"; "institucion_sk";
                                 "nombre_institucion"] -> c ∉ columns m1).
  { intros c Hc Hin. unfold m1 in Hin. cbn [columns] in Hin.
    apply elem_of_app in Hin as [Hin|Hin].
    - revert Hin. apply Hnew.
      repeat (apply elem_of_cons in Hc as [->|Hc]); [..|inversion Hc]; in_list.
    - repeat (apply elem_of_cons in Hc as [->|Hc]); [..|inversion Hc];
        revert Hin; not_in_list. }
  destruct (merge_optional_numbered m1 "dim_carrera" C _ _ carreras "CARRERA" self
              HC Hc1 Hc2 Hnc Hndc) as (f2 & Hf2 & Hleft2 & Hmerge2);
    [by apply Hin1|apply Hout1; in_list..|].
  set (m2 := mkDF (columns m1 ++ ["carrera_sk"; "nombre_carrera"]) (f2 <$> rows m1))
    in Hmerge2.
  assert (Hin2 : forall c, c ∈ columns m1 -> c ∈ columns m2).
  { intros c Hc. unfold m2. cbn [columns]. apply elem_of_app. by left. }
  assert (Hout2 : forall c, c ∈ ["institucion_sk"; "nombre_institucion"] -> c ∉ columns m2).
  { intros c Hc Hin. unfold m2 in Hin. cbn [columns] in Hin.
    apply elem_of_app in Hin as [Hin|Hin].
    - revert Hin. apply Hout1.
      repeat (apply elem_of_cons in Hc as [->|Hc]); [..|inversion Hc]; in_list.
    - repeat (apply elem_of_cons in Hc as [->|Hc]); [..|inversion Hc];
        revert Hin; not_in_list. }
  destruct (merge_optional_numbered m2 "dim_institucion" Di _ _ insts "INSTITUCION" self
              HI Hi1 Hi2 Hni Hndi) as (f3 & Hf3 & Hleft3 & Hmerge3);
    [by apply Hin2, Hin1|apply Hout2; in_list..|].
  set (m3 := mkDF (columns m2 ++ ["institucion_sk"; "nombre_institucion"]) (f3 <$> rows m2))
    in Hmerge3.
  assert (Hsk1 : "postulante_sk" ∈ columns m1).
  { unfold m1. cbn [columns]. apply elem_of_app. right. by left. }
  assert (Hsk2 : "carrera_sk" ∈ columns m2).
  { unfold m2. cbn [columns]. apply elem_of_app. right. by left. }
  assert (Hin3 : forall c, c ∈ cols -> c ∈ columns m3).
  { intros c Hc. unfold cols in Hc. unfold m3. cbn [columns]. apply elem_of_app.
    repeat (apply elem_of_cons in Hc as [->|Hc]); [..|inversion Hc].
    - left. by apply Hin2.
    - by left.
    - right. by left. }
  set (g := fun l : Row => f3 (f2 (f1 l))).
  set (rs := keep_first (key_of cols) [] (project cols <$> (g <$> kept))).
  exists (mkTransformer (datasets self) (dimensions self)
            (<["hechos_formacion" := mkDF cols rs]> (facts self))
            (orphan_stats self) (log self)), (mkDF cols rs).
  split; [|split; [apply lookup_insert_eq|split; [done|]]].
  - unfold _build_hechos_formacion. rewrite bind_get, Hdf, bind_get_dimension, HD.
    rewrite bind_lift, Hsel, bind_lift, Hmerge1.
    unfold bind at 1. rewrite Hmerge2. unfold bind at 1. rewrite Hmerge3.
    rewrite !(proj2 (has_column_true m3 _)) by (apply Hin3; in_list).
    cbn [app]. unfold select_present. cbn [List.filter].
    rewrite !(proj2 (has_column_true m3 _)) by (apply Hin3; in_list).
    rewrite bind_lift, select_ok by exact Hin3.
    rewrite bind_lift. unfold cols at 1. rewrite drop_duplicates_all.
    unfold rs, g, cols, m3, m2, m1. cbn [rows].
    rewrite <- !list_fmap_compose. reflexivity.
  - cbn [rows]. unfold rs. rewrite keys_keep_first_project. f_equal.
    apply list_fmap_ext. intros _ l _. unfold key_of, g, cols. cbn [fmap list_fmap].
    rewrite Hf3, Hleft2, Hleft1 by (first [done | by apply Hin1]).
    rewrite (Hleft3 _ "carrera_sk"), Hf2, Hleft1 by done.
    rewrite (Hleft3 _ "postulante_sk"), (Hleft2 _ "postulante_sk"), Hf1
      by (first [done | by apply Hin2]).
    done.
Qed.

End Facts.

Lemma hechos_experiencia_lists_applicants_with_experience_witness :
  let s := (_build_all_dimensions (H := fixture.pandas) (__init__ fixture.extracted)).1 in
  exists self' F,
    _build_hechos_experiencia (H := fixture.pandas) s = (self', Ok tt)
    /\ facts self' !! "hechos_experiencia" = Some F
    /\ column "postulante_sk" F = [VInt 1].
Proof.
  intros s.
  set (D := default (mkDF [] []) (dimensions s !! "dim_postulante")).
  destruct (hechos_experiencia_lists_applicants_with_experience (H := fixture.pandas)
              s fixture.experiencias D (column "id_postulante_original" D))
    as (self' & F & Hrun & HF & _ & Hcol).
  - vm_compute. reflexivity.
  - in_list.
  - apply (bool_decide_unpack _). vm_compute. exact I.
  - apply (bool_decide_unpack _). vm_compute. exact I.
  - vm_compute. reflexivity.
  - in_list.
  - in_list.
  - split; vm_compute; reflexivity.
  - apply (bool_decide_unpack _). vm_compute. exact I.
  - vm_compute. reflexivity.
  - exists self', F. split; [exact Hrun|]. split; [exact HF|].
    rewrite Hcol. vm_compute. reflexivity.
Defined.


Lemma hechos_postulante_has_a_row_per_key_pair_witness :
  let s := (_build_all_dimensions (H := fixture.pandas) (__init__ fixture.extracted)).1 in
  exists self' F,
    _build_hechos_postulante s = (self', Ok tt)
    /\ facts self' !! "hechos_postulante" = Some F
    /\ key_of ["postulante_sk"; "ubicacion_sk"; "fecha_registro_sk"] <$> rows F
       = [[VInt 1; VInt 1; VInt 1]; [VInt 2; VInt 2; VInt 1]].
Proof.
  intros s.
  set (D := default (mkDF [] []) (dimensions s !! "dim_postulante")).
  set (U := default (mkDF [] []) (dimensions s !! "dim_ubicacion")).
  set (T := default (mkDF [] []) (dimensions s !! "dim_tiempo")).
  destruct (hechos_postulante_has_a_row_per_key_pair s fixture.postulante D U T
              (column "id_postulante_original" D) (column "ubigeo" U))
    as (self' & F & Hrun & HF & _ & Hkeys).
  - vm_compute. reflexivity.
  - in_list.
  - in_list.
  - intros c Hc. repeat (apply elem_of_cons in Hc as [->|Hc]); [..|inversion Hc];
      apply (bool_decide_unpack _); vm_compute; exact I.
  - vm_compute. reflexivity.
  - in_list.
  - in_list.
  - split; vm_compute; reflexivity.
  - apply (bool_decide_unpack _). vm_compute. exact I.
  - vm_compute. reflexivity.
  - in_list.
  - in_list.
  - split; vm_compute; reflexivity.
  - apply (bool_decide_unpack _). vm_compute. exact I.
  - vm_compute. reflexivity.
  - in_list.
  - vm_compute. reflexivity.
  - vm_compute. reflexivity.
  - vm_compute. repeat (constructor; [eexists; reflexivity|]). constructor.
  - exists self', F. split; [exact Hrun|]. split; [exact HF|].
    rewrite Hkeys. vm_compute. reflexivity.
Defined.

Lemma hechos_formacion_has_a_row_per_key_triple_witness :
  let s := (_build_all_dimensions (H := fixture.pandas) (__init__ fixture.extracted)).1 in
  exists self' F,
    _build_hechos_formacion s = (self', Ok tt)
    /\ facts self' !! "hechos_formacion" = Some F
    /\ key_of ["postulante_sk"; "carrera_sk"; "institucion_sk"] <$> rows F
       = [[VInt 1; VInt 1; VInt 1]].
Proof.
  intros s.
  set (D := default (mkDF [] []) (dimensions s !! "dim_postulante")).
  set (C := default (mkDF [] []) (dimensions s !! "dim_carrera")).
  set (Di := default (mkDF [] []) (dimensions s !! "dim_institucion")).
  destruct (hechos_formacion_has_a_row_per_key_triple s fixture.educacion D C Di
              (column "id_postulante_original" D) (column "nombre_carrera" C)
              (column "nombre_institucion" Di))
    as (self' & F & Hrun & HF & _ & Hkeys).
  - vm_compute. reflexivity.
  - in_list.
  - in_list.
  - in_list.
  - intros c Hc. repeat (apply elem_of_cons in Hc as [->|Hc]); [..|inversion Hc];
      apply (bool_decide_unpack _); vm_compute; exact I.
  - vm_compute. reflexivity.
  - in_list.
  - in_list.
  - split; vm_compute; reflexivity.
  - apply (bool_decide_unpack _). vm_compute. exact I.
  - vm_compute. reflexivity.
  - in_list.
  - in_list.
  - split; vm_compute; reflexivity.
  - apply (bool_decide_unpack _). vm_compute. exact I.
  - vm_compute. reflexivity.
  - in_list.
  - in_list.
  - split; vm_compute; reflexivity.
  - apply (bool_decide_unpack _). vm_compute. exact I.
  - vm_compute. reflexivity.
  - vm_compute. reflexivity.
  - vm_compute. reflexivity.
  - exists self', F. split; [exact Hrun|]. split; [exact HF|].
    rewrite Hkeys. vm_compute. reflexivity.
Defined.

End numbered_joins.

Module activo_facts.

Import notions pd_facts pd_results method_facts pd_columns dim_tiempo_facts frame_facts.
Import foreign_keys table_names.

(** A label that suffixing cannot make, and that the right frame lacks,
    is a label of the merged frame exactly when the left frame has it. *)
Lemma merge_label_iff h left right left_on right_on df c :
  merge h left right left_on right_on = Ok df ->
  unsuffixed c -> c ∉ columns right ->
  c ∈ columns df <-> c ∈ columns left.
Proof.
  intros Hmerge [Hx Hy] Hout. split; [|intros Hin; by eapply merge_keeps_left_label].
  apply merge_inv in Hmerge as [-> _]. intros Hin.
  apply elem_of_app in Hin as [Hin|Hin];
    apply list_elem_of_fmap in Hin as (c0 & Hc0 & Hin); symmetry in Hc0.
  - by apply suffixed_unsuffixed in Hc0 as [-> _].
  - apply suffixed_unsuffixed in Hc0 as [-> _]; [|done]. by destruct Hout.
Qed.

Lemma assign_label_iff c c' f df :
  c <> c' -> c ∈ columns (assign c' f df) <-> c ∈ columns df.
Proof.
  intros Hne. rewrite columns_assign. split; [|by left].
  intros [Hin| ->]; [done|by destruct Hne].
Qed.

Section Facts.

Context `{Pandas}.

Lemma astype_label_iff c c' df df' :
  astype_int64_column c' df = Ok df' -> c ∈ columns df' <-> c ∈ columns df.
Proof. intros Has. by apply astype_int64_column_inv in Has as [-> _]. Qed.

Lemma astype_if_present_inv c df df' :
  astype_if_present c df = Ok df' ->
  columns df' = columns df
  /\ forall r, r ∈ rows df' -> exists r0, r0 ∈ rows df /\ forall c', c' <> c -> cell r c' = cell r0 c'.
Proof.
  unfold astype_if_present. destruct (has_column df c).
  - intros Has. apply astype_int64_column_inv in Has as [Hc Hr]. split; [done|].
    intros r Hin. destruct (Hr r Hin) as (r0 & v & Hr0 & _ & ->).
    exists r0. split; [done|]. intros c' Hne. by rewrite cell_insert_ne.
  - intros [= <-]. split; [done|]. intros r Hr. by exists r.
Qed.

(** The end of [_build_hechos_vacante]: the columns that are kept, and
    where the cells outside the three keys come from. *)
Lemma hechos_vacante_tail X cols a10 a11 a12 a13 a14 F :
  select X (List.filter (has_column X) cols) = Ok a10 ->
  drop_duplicates None a10 = Ok a11 ->
  dropna None a11 = Ok a12 ->
  astype_if_present "vacante_sk" a12 = Ok a13 ->
  astype_if_present "ubicacion_sk" a13 = Ok a14 ->
  astype_if_present "empresa_sk" a14 = Ok F ->
  (forall c, c ∈ columns F <-> c ∈ cols /\ c ∈ columns X)
  /\ forall r c, r ∈ rows F -> c ∈ columns F ->
       c ∉ ["vacante_sk"; "ubicacion_sk"; "empresa_sk"] ->
       exists x, x ∈ rows X /\ cell r c = cell x c.
Proof.
  intros E1 E2 E3 E4 E5 E6.
  apply select_inv in E1 as [_ ->].
  apply drop_duplicates_inv in E2 as [C2 R2]. apply dropna_inv in E3 as [C3 R3].
  apply astype_if_present_inv in E4 as [C4 R4]. apply astype_if_present_inv in E5 as [C5 R5].
  apply astype_if_present_inv in E6 as [C6 R6].
  assert (Hcols : forall c, c ∈ columns F <-> c ∈ cols /\ c ∈ columns X).
  { intros c. rewrite C6, C5, C4, C3, C2. cbn [columns].
    by rewrite list_elem_of_In, filter_In, <- list_elem_of_In, has_column_true. }
  split; [exact Hcols|].
  intros r c Hr Hc Hout.
  destruct (R6 r Hr) as (r5 & Hr5 & E6). destruct (R5 r5 Hr5) as (r4 & Hr4 & E5).
  destruct (R4 r4 Hr4) as (r3 & Hr3 & E4).
  apply R3, R2 in Hr3. cbn [rows] in Hr3.
  apply list_elem_of_fmap in Hr3 as (x & -> & Hx). exists x. split; [done|].
  rewrite E6, E5, E4 by (intros ->; apply Hout; in_list).
  apply cell_project_in.
  apply Hcols in Hc. rewrite list_elem_of_In, filter_In, <- list_elem_of_In, has_column_true.
  done.
Qed.

Lemma rename_activo_drops Y : "ACTIVO" ∉ columns (rename [("ACTIVO", "activo")] Y).
Proof.
  unfold rename. cbn [columns]. intros Hin.
  apply list_elem_of_fmap in Hin as (c0 & Hc0 & _). symmetry in Hc0.
  pose proof (renamed_label_inv _ _ _ Hc0) as Heq.
  rewrite Heq in Hc0 by not_in_list. discriminate Hc0.
Qed.

(** Whether the frame at the test for ACTIVO has the label, traced back
    to the dataset. *)
Ltac trace_label :=
  repeat first
    [ reflexivity
    | etransitivity;
        [ eapply merge_label_iff;
            [ eassumption | unsuffixed_label
            | erewrite select_columns by eassumption; not_in_list ] | ]
    | etransitivity; [eapply astype_label_iff; eassumption|]
    | etransitivity; [apply assign_label_iff; discriminate|] ].

Ltac in_cols Hin :=
  repeat match type of Hin with
         | context [if ?b then _ else _] => destruct b
         end;
  cbn [app] in Hin.

(** X20.  hechos_vacante never has a column ACTIVO, and it has the
    column activo exactly when the job-posting dataset has no column
    ACTIVO; every cell of activo is then True.  When the dataset has
    ACTIVO the column is renamed to activo, but the list of columns to
    keep still says ACTIVO, so the flag is lost from the fact table. *)
Theorem hechos_vacante_loses_activo self self' df :
  _build_hechos_vacante self = (self', Ok tt) ->
  datasets self !! "vacantes" = Some df ->
  exists F,
    facts self' !! "hechos_vacante" = Some F
    /\ ("ACTIVO" ∉ columns F)
    /\ ("activo" ∈ columns F <-> "ACTIVO" ∉ columns df)
    /\ (forall r, r ∈ rows F -> "activo" ∈ columns F -> cell r "activo" = VBool true).
Proof.
  intros Hrun. unfold _build_hechos_vacante in Hrun.
  run_step Hrun. run_step Hrun.
  2: { discriminate. }
  intros [= <-].
  repeat run_step Hrun;
    (apply set_fact_ok in Hrun; rewrite Hrun; eexists; split; [apply lookup_insert_eq|];
     unfold select_present in *).
  all: match goal with
       | E1 : select ?X (List.filter (has_column ?X) ?cols) = Ok ?a10,
         E2 : drop_duplicates None ?a10 = Ok ?a11,
         E3 : dropna None ?a11 = Ok ?a12,
         E4 : astype_if_present "vacante_sk" ?a12 = Ok ?a13,
         E5 : astype_if_present "ubicacion_sk" ?a13 = Ok ?a14,
         E6 : astype_if_present "empresa_sk" ?a14 = Ok ?F |- _ =>
           destruct (hechos_vacante_tail X cols a10 a11 a12 a13 a14 F E1 E2 E3 E4 E5 E6)
             as [Hcols Hcells];
           clear E1 E2 E3 E4 E5 E6; set (tabla := F) in *
       end.
  all: match goal with
       | E : has_column ?Y "ACTIVO" = _, Ed : datasets _ !! "vacantes" = Some ?d |- _ =>
           assert (Htrace : "ACTIVO" ∈ columns Y <-> "ACTIVO" ∈ columns d)
             by trace_label
       end.
  all: match goal with
       | E : has_column ?Y "ACTIVO" = true |- _ =>
           apply has_column_true in E;
           assert (Hno : "activo" ∉ columns tabla)
             by (let Hin := fresh "Hin" in
                 intros Hin; apply Hcols in Hin as [Hin _]; in_cols Hin;
                 revert Hin; not_in_list);
           split; [intros Hin; apply Hcols in Hin as [_ Hin];
                   by apply rename_activo_drops in Hin|];
           split; [|intros ? ? Hin; by destruct Hno];
           split; [intros Hin; by destruct Hno|];
           intros Hout; destruct Hout; by apply Htrace
       | E : has_column ?Y "ACTIVO" = false |- _ =>
           apply has_column_false in E;
           assert (Hyes : "activo" ∈ columns tabla)
             by (apply Hcols; split;
                 [ repeat match goal with
                          | |- context [if ?b then _ else _] => destruct b
                          end; in_list
                 | apply columns_assign; by right ]);
           split; [let Hin := fresh "Hin" in
                   intros Hin; apply Hcols in Hin as [Hin _]; in_cols Hin;
                   revert Hin; not_in_list|];
           split; [split; [intros _ Hin; by apply E, Htrace|done]|];
           let r := fresh "r" in let Hr := fresh "Hr" in
           intros r Hr _;
           destruct (Hcells r "activo" Hr Hyes) as (x & Hx & ->); [not_in_list|];
           rewrite rows_assign in Hx;
           apply list_elem_of_fmap in Hx as (x0 & -> & _);
           apply cell_set_cell_eq
       end.
Qed.

End Facts.

(** On the fixture the posting 3 is an orphan: its placeholder brings
    the column ACTIVO into the dataset, and hechos_vacante has no
    column activo. *)
Lemma hechos_vacante_loses_activo_witness :
  let s := ((_build_all_dimensions (H := fixture.pandas) ;;
             _reconcile_orphans fixture.today)%method (__init__ fixture.extracted)).1 in
  exists df F,
    datasets s !! "vacantes" = Some df
    /\ "ACTIVO" ∈ columns df
    /\ facts (_build_hechos_vacante (H := fixture.pandas) s).1 !! "hechos_vacante" = Some F
    /\ "activo" ∉ columns F.
Proof.
  intros s.
  assert (Hdf : is_Some (datasets s !! "vacantes"))
    by (apply (bool_decide_unpack _); vm_compute; exact I).
  destruct Hdf as [df Hdf].
  assert (Hact : "ACTIVO" ∈ columns (default (mkDF [] []) (datasets s !! "vacantes")))
    by (apply (bool_decide_unpack _); vm_compute; exact I).
  rewrite Hdf in Hact.
  assert (Hok : exists self', _build_hechos_vacante (H := fixture.pandas) s = (self', Ok tt)).
  { assert (Hok : match (_build_hechos_vacante (H := fixture.pandas) s).2 with
                  | Ok _ => True
                  | Raise _ => False
                  end) by (vm_compute; exact I).
    revert Hok. generalize (_build_hechos_vacante (H := fixture.pandas) s).
    intros [self' [[]|e]] Hok; [by exists self'|destruct Hok]. }
  destruct Hok as [self' Hrun].
  destruct (hechos_vacante_loses_activo (H := fixture.pandas) s self' df Hrun Hdf)
    as (F & HF & _ & Hiff & _).
  exists df, F. split; [exact Hdf|]. split; [exact Hact|].
  rewrite Hrun. split; [exact HF|].
  intros Hin. apply Hiff in Hin. exact (Hin Hact).
Defined.

End activo_facts.
